(** * MiniCRM: the coordination layer, embedded and verified

    A shallow embedding of the reliability-relevant code of the MiniCRM
    services:

    - [HttpClient]           libs/sdk/src/http-client.ts (retry loop)
    - [EmailRegex]           the regular expression of [isValidEmail]
    - [NotificationService]  notification-service: event pipeline and
                             the welcome e-mail channel
    - [UserService]          user-service: [createUser]
    - [LeadService]          lead-service: lead writes and their events
    - [Gateway]              api-gateway: controller, router and the SDKs
    - [UserQueries], [LeadQueries]  the read methods of the two services
    - [Auth]                 user-service: sign-in and token checks
    - [Lifecycle]            creation, update and deletion of rows

    Conventions.  An [async] method is a state transformer over the world
    of its service that ends [Fulfilled] or [Rejected]; [await] is
    sequencing.  Everything outside the repository (the HTTP peer, the SMTP
    transport, the datastore, the broker client) is an oracle indexed by
    the number of earlier calls, so a scenario such as "503 three times,
    then 200" is a value of the model.  Logger calls neither change control
    flow nor any state read below and are left out.  Strings are sequences
    of 8-bit code units. *)

From Equations Require Import Equations.
From Stdlib Require Import ZArith String Ascii List Bool Arith Lia.
From Stdlib Require Import DecimalString DecimalNat.
Import ListNotations.

Open Scope string_scope.
Open Scope Z_scope.

(** ** Promises: settled results and the [async] monad *)

Inductive Settled (A E : Type) : Type :=
| Fulfilled (value : A)
| Rejected (reason : E).
Arguments Fulfilled {A E} value.
Arguments Rejected {A E} reason.

Definition Async (W E A : Type) : Type := W -> Settled A E * W.

Definition ret {W E A} (a : A) : Async W E A := fun w => (Fulfilled a, w).

Definition throw {W E A} (e : E) : Async W E A := fun w => (Rejected e, w).

Definition bind {W E A B} (m : Async W E A) (k : A -> Async W E B) : Async W E B :=
  fun w =>
    match m w with
    | (Fulfilled a, w1) => k a w1
    | (Rejected e, w1) => (Rejected e, w1)
    end.

(** [try { body } catch (error) { handler }]: state changes made by the
    body before it threw stay in place. *)
Definition tryCatch {W E A} (body : Async W E A) (handler : E -> Async W E A) : Async W E A :=
  fun w =>
    match body w with
    | (Fulfilled a, w1) => (Fulfilled a, w1)
    | (Rejected e, w1) => handler e w1
    end.

Definition gets {W E A} (f : W -> A) : Async W E A := fun w => (Fulfilled (f w), w).

Definition modify {W E} (f : W -> W) : Async W E unit := fun w => (Fulfilled tt, f w).

Declare Scope async_scope.
Delimit Scope async_scope with async.
Notation "x <- c1 ;; c2" := (bind c1 (fun x => c2))
  (at level 100, c1 at next level, right associativity) : async_scope.
Notation "c1 ;; c2" := (bind c1 (fun _ => c2))
  (at level 100, right associativity) : async_scope.
Open Scope async_scope.

Definition inspect {A} (a : A) : {b : A | a = b} := exist _ a eq_refl.

(** An optional setting with its default. *)
Definition orDefault {A} (d : A) (o : option A) : A :=
  match o with Some a => a | None => d end.

(** ** JavaScript values and string primitives *)

Module Js.

(** The values that cross the HTTP boundary as [any]. *)
Unset Elimination Schemes.
Inductive Value : Type :=
| Undefined
| Null
| Bool (b : bool)
| Num (n : Z)
| Str (s : string)
| Arr (items : list Value)
| Obj (fields : list (string * Value)).
Set Elimination Schemes.

(** [!!v] *)
Definition truthy (v : Value) : bool :=
  match v with
  | Undefined | Null => false
  | Bool b => b
  | Num n => negb (n =? 0)
  | Str s => negb (s =? "")%string
  | Arr _ | Obj _ => true
  end.

Fixpoint assoc (key : string) (fields : list (string * Value)) : Value :=
  match fields with
  | [] => Undefined
  | (k, v) :: rest => if (k =? key)%string then v else assoc key rest
  end.

(** [v?.key]: property read that yields [undefined] off a non-object. *)
Definition get (v : Value) (key : string) : Value :=
  match v with
  | Obj fields => assoc key fields
  | _ => Undefined
  end.

(** [s.startsWith(p)] *)
Definition startsWith (s p : string) : bool := String.prefix p s.

(** The scan of [replace]: the leftmost position where [pat] starts. *)
Fixpoint replaceFirst (pat rep s : string) : string :=
  if String.prefix pat s
  then rep ++ String.substring (String.length pat) (String.length s - String.length pat) s
  else match s with
       | EmptyString => EmptyString
       | String c rest => String c (replaceFirst pat rep rest)
       end.

(** [s.replace(pat, rep)] with a string pattern: first occurrence only. *)
Definition replace (s pat rep : string) : string := replaceFirst pat rep s.

(** [s.includes(pat)] *)
Fixpoint includes (s pat : string) : bool :=
  if String.prefix pat s then true
  else match s with
       | EmptyString => false
       | String _ rest => includes rest pat
       end.

(** The double-quote character, as a one-unit string. *)
Definition quote : string := String (ascii_of_nat 34) EmptyString.

(** [new Error(message)]; the stack is not modelled. *)
Record Error : Type := { message : string }.

(** Generated primary keys: the decimal rendering of a sequence number
    stands for the datastore's fresh uuid. *)
Definition uuid (n : nat) : string := NilEmpty.string_of_uint (Nat.to_uint n).

End Js.

(** ** The resilient HTTP client (libs/sdk/src/http-client.ts) *)

Module HttpClient.

Inductive Verb : Type := GET | POST | PUT | PATCH | DELETE.

Record HttpClientConfig : Type := {
  cfg_baseURL : string;
  cfg_timeout : option Z;
  cfg_maxRetries : option Z;
  cfg_retryDelay : option Z;
  cfg_headers : option (list (string * Js.Value))
}.

(** [this.config] after the constructor's merge with the defaults, with
    the axios instance settings it feeds. *)
Record HttpClient : Type := {
  baseURL : string;
  timeout : Z;
  maxRetries : Z;
  retryDelay : Z;
  headers : list (string * Js.Value)
}.

(** [constructor(config)]: [{ timeout: 5000, maxRetries: 3,
    retryDelay: 1000, ...config }] and the instance headers
    [{ 'Content-Type': 'application/json', ...config.headers }]. *)
Definition new (config : HttpClientConfig) : HttpClient :=
  {| baseURL := cfg_baseURL config;
     timeout := orDefault 5000 (cfg_timeout config);
     maxRetries := orDefault 3 (cfg_maxRetries config);
     retryDelay := orDefault 1000 (cfg_retryDelay config);
     headers := ("Content-Type", Js.Str "application/json") :: orDefault [] (cfg_headers config) |}.

Record AxiosResponse : Type := {
  status : Z;
  data : Js.Value
}.

(** The rejection value of an attempt: [response] is absent when nothing
    came back from the peer. *)
Record AxiosError : Type := {
  message : string;
  code : option string;
  response : option AxiosResponse
}.

(** One outbound exchange as the axios instance issues it. *)
Record Request : Type := {
  req_verb : Verb;
  req_baseURL : string;
  req_timeout : Z;
  req_headers : list (string * Js.Value);
  req_url : string;
  req_data : Js.Value;
  req_config : Js.Value
}.

Inductive Event : Type :=
| Sent (attempt : nat) (request : Request)
| Slept (ms : Z).

(** The client's world: how many exchanges went out, and in what order
    exchanges and timer waits happened. *)
Record Net : Type := {
  calls : nat;
  trace : list Event
}.

Definition Task := Async Net AxiosError.

Definition codeIs (error : AxiosError) (c : string) : bool :=
  match code error with
  | Some c' => (c' =? c)%string
  | None => false
  end.

Definition shouldRetry (error : AxiosError) : bool :=
  match response error with None => true | Some _ => false end
  || match response error with
     | Some r => (500 <=? status r) && (status r <? 600)
     | None => false
     end
  || codeIs error "ECONNRESET"
  || codeIs error "ETIMEDOUT".

(** [delay(ms)]: the timer wait, recorded in the trace. *)
Definition delay (ms : Z) : Task unit :=
  modify (fun w => {| calls := calls w; trace := trace w ++ [Slept ms] |}).

Section Client.

(** The peer: what the [k]-th exchange of this client settles to. *)
Variable server : nat -> Request -> Settled AxiosResponse AxiosError.

Variable this : HttpClient.

(** The request the axios instance builds: [baseURL], [timeout] and the
    default headers come from the instance, the rest from the call. *)
Definition requestOf (verb : Verb) (url : string) (body config : Js.Value) : Request :=
  {| req_verb := verb; req_baseURL := baseURL this; req_timeout := timeout this;
     req_headers := headers this;
     req_url := url; req_data := body; req_config := config |}.

(** [this.client.<verb>(url, data, config)] *)
Definition exchange (verb : Verb) (url : string) (body config : Js.Value) : Task AxiosResponse :=
  fun w =>
    let request := requestOf verb url body config in
    (server (calls w) request,
     {| calls := S (calls w); trace := trace w ++ [Sent (calls w) request] |}).

Equations? retryRequest (requestFn : Task AxiosResponse) (retryCount : Z) (w : Net)
  : Settled AxiosResponse AxiosError * Net
  by wf (Z.to_nat (maxRetries this - retryCount)) lt :=
retryRequest requestFn retryCount w with requestFn w := {
  | (Fulfilled r, w1) := (Fulfilled r, w1);
  | (Rejected error, w1)
      with inspect ((retryCount <? maxRetries this) && shouldRetry error) := {
      | exist _ true Hretry :=
          retryRequest requestFn (retryCount + 1) (snd (delay (retryDelay this) w1));
      | exist _ false _ := (Rejected error, w1) } }.
Proof.
  apply andb_prop in Hretry. destruct Hretry as [Hlt _].
  apply Z.ltb_lt in Hlt. lia.
Qed.

Definition get (url : string) (config : Js.Value) : Task Js.Value :=
  response <- retryRequest (exchange GET url Js.Undefined config) 0 ;;
  ret (data response).

Definition post (url : string) (body config : Js.Value) : Task Js.Value :=
  response <- retryRequest (exchange POST url body config) 0 ;;
  ret (data response).

Definition put (url : string) (body config : Js.Value) : Task Js.Value :=
  response <- retryRequest (exchange PUT url body config) 0 ;;
  ret (data response).

Definition patch (url : string) (body config : Js.Value) : Task Js.Value :=
  response <- retryRequest (exchange PATCH url body config) 0 ;;
  ret (data response).

Definition delete (url : string) (config : Js.Value) : Task Js.Value :=
  response <- retryRequest (exchange DELETE url Js.Undefined config) 0 ;;
  ret (data response).

(** An attempt ends the loop when it succeeds, when its failure is not one
    the client retries, or when the retry budget is spent. *)
Definition stops (retryCount : Z) (o : Settled AxiosResponse AxiosError) : Prop :=
  match o with
  | Fulfilled _ => True
  | Rejected error => (retryCount <? maxRetries this) && shouldRetry error = false
  end.

(** Dispatch on the verb, for statements that range over every call. *)
Definition call (verb : Verb) (url : string) (body config : Js.Value) : Task Js.Value :=
  match verb with
  | GET => get url config
  | POST => post url body config
  | PUT => put url body config
  | PATCH => patch url body config
  | DELETE => delete url config
  end.

End Client.

(** The failures the specification calls retryable: nothing came back, or
    what came back is a server error. *)
Definition transient (error : AxiosError) : Prop :=
  response error = None \/
  exists r, response error = Some r /\ 500 <= status r < 600.

(** A failure that carries a server-error response. *)
Definition serverError (error : AxiosError) : Prop :=
  exists r, response error = Some r /\ 500 <= status r < 600.

(** What the caller of a public method sees of the last attempt. *)
Definition outcome (o : Settled AxiosResponse AxiosError) : Settled Js.Value AxiosError :=
  match o with
  | Fulfilled r => Fulfilled (data r)
  | Rejected error => Rejected error
  end.

(** What a call added to the trace. *)
Definition attempts (t : list Event) : nat :=
  List.length (filter (fun e => match e with Sent _ _ => true | Slept _ => false end) t).

Fixpoint waits (t : list Event) : list Z :=
  match t with
  | [] => []
  | Slept ms :: rest => ms :: waits rest
  | Sent _ _ :: rest => waits rest
  end.

(** The shape of a retried call: an attempt, then per retry one wait of
    [ms] followed by the next attempt. *)
Fixpoint retryTrace (ms : Z) (request : Request) (first : nat) (retries : nat) : list Event :=
  match retries with
  | O => [Sent first request]
  | S n => Sent first request :: Slept ms :: retryTrace ms request (S first) n
  end.

(** The body a verb really sends: [get] and [delete] pass none. *)
Definition sentBody (verb : Verb) (body : Js.Value) : Js.Value :=
  match verb with
  | GET | DELETE => Js.Undefined
  | POST | PUT | PATCH => body
  end.

(** *** Peers of the specification's scenarios *)

(** How axios settles a received response under its default status
    check: 2xx fulfils, anything else rejects with the response attached. *)
Definition settle (st : Z) (payload : Js.Value) : Settled AxiosResponse AxiosError :=
  let r := {| status := st; data := payload |} in
  if (200 <=? st) && (st <? 300) then Fulfilled r
  else Rejected {| message := "Request failed";
                   code := Some (if st <? 500 then "ERR_BAD_REQUEST" else "ERR_BAD_RESPONSE");
                   response := Some r |}.

Definition startNet : Net := {| calls := 0; trace := [] |}.

(** A client built with the defaults: 5000 ms, 3 retries, 1000 ms. *)
Definition userClient : HttpClient :=
  new {| cfg_baseURL := "http://user-service:3001"; cfg_timeout := None;
         cfg_maxRetries := None; cfg_retryDelay := None; cfg_headers := None |}.

(** 503 three times, then 200. *)
Definition recovering : nat -> Request -> Settled AxiosResponse AxiosError :=
  fun k _ => if (k <? 3)%nat then settle 503 Js.Null else settle 200 (Js.Str "ok").


(** No answer within the timeout, every time. *)
Definition unreachable : nat -> Request -> Settled AxiosResponse AxiosError :=
  fun _ _ => Rejected {| message := "timeout of 5000ms exceeded";
                         code := Some "ECONNABORTED"; response := None |}.


End HttpClient.

(** ** Regular expressions, as far as [isValidEmail] needs them *)

Module EmailRegex.

Inductive Regex : Type :=
| Never
| Empty
| Class (member : ascii -> bool)
| Seq (r1 r2 : Regex)
| Alt (r1 r2 : Regex)
| Star (r : Regex).

(** [r+] *)
Definition Plus (r : Regex) : Regex := Seq r (Star r).

Fixpoint nullable (r : Regex) : bool :=
  match r with
  | Never => false
  | Empty => true
  | Class _ => false
  | Seq r1 r2 => nullable r1 && nullable r2
  | Alt r1 r2 => nullable r1 || nullable r2
  | Star _ => true
  end.

(** The derivative of [r] by the code unit [c]. *)
Fixpoint deriv (c : ascii) (r : Regex) : Regex :=
  match r with
  | Never | Empty => Never
  | Class member => if member c then Empty else Never
  | Seq r1 r2 =>
      if nullable r1 then Alt (Seq (deriv c r1) r2) (deriv c r2)
      else Seq (deriv c r1) r2
  | Alt r1 r2 => Alt (deriv c r1) (deriv c r2)
  | Star r1 => Seq (deriv c r1) (Star r1)
  end.

(** [/^r$/.test(s)]: the whole of [s] is in the language of [r]. *)
Fixpoint test (r : Regex) (s : string) : bool :=
  match s with
  | EmptyString => nullable r
  | String c rest => test (deriv c r) rest
  end.

(** [\s] on 8-bit code units: tab, line feed, vertical tab, form feed,
    carriage return, space and the no-break space. *)
Definition isSpace (c : ascii) : bool :=
  let n := nat_of_ascii c in
  ((9 <=? n) && (n <=? 13))%nat || (n =? 32)%nat || (n =? 160)%nat.

(** [[^\s@]] *)
Definition notSpaceNorAt : Regex :=
  Class (fun c => negb (isSpace c || (c =? "@")%char)).

Definition Char (c : ascii) : Regex := Class (fun c' => (c' =? c)%char).

(** [/^[^\s@]+@[^\s@]+\.[^\s@]+$/] *)
Definition emailRegex : Regex :=
  Seq (Plus notSpaceNorAt)
    (Seq (Char "@")
       (Seq (Plus notSpaceNorAt)
          (Seq (Char ".") (Plus notSpaceNorAt)))).




End EmailRegex.

(** ** The notification pipeline (notification-service) *)

Module NotificationService.

Inductive NotificationType : Type := EMAIL | SMS | PUSH | IN_APP.

Inductive NotificationStatus : Type := PENDING | SENT | FAILED.

(** The [notifications] row. *)
Record Notification : Type := {
  id : string;
  type : NotificationType;
  title : string;
  message : string;
  recipientId : string;
  status : NotificationStatus;
  metadata : option Js.Value;
  templateId : option string;
  sentAt : option Z;
  errorMessage : option string;
  createdAt : Z;
  updatedAt : Z
}.

Record UserCreatedEventDto : Type := {
  userId : string;
  email : string;
  firstName : string;
  lastName : string;
  role : string;
  timestamp : string
}.

(** The welcome page: a fixed HTML template with two holes, kept as the
    values that fill them. *)
Record WelcomeHtml : Type := {
  helloName : string;
  withRole : string
}.

(** [EmailOptions]; the optional [text] is never passed. *)
Record EmailOptions : Type := {
  eo_to : string;
  eo_subject : string;
  eo_html : WelcomeHtml
}.

(** What [sendEmail] hands to [transporter.sendMail]; its [text] is the
    html with the tags stripped and is not kept apart. *)
Record MailOptions : Type := {
  from : string;
  to : string;
  subject : string;
  html : WelcomeHtml
}.

(** The argument of [createNotificationRecord]. *)
Record RecordData : Type := {
  d_type : NotificationType;
  d_title : string;
  d_message : string;
  d_recipientId : string;
  d_status : NotificationStatus;
  d_errorMessage : option string
}.

(** The service's world: the table with its insert counter, the calls
    made to the datastore and to the mail transport, and the clock. *)
Record World : Type := {
  table : list Notification;
  nextId : nat;
  saveCalls : nat;
  handedToTransport : list MailOptions;
  now : Z
}.

Definition Task := Async World Js.Error.

Section Service.

(** The SMTP transport: [None] when the [k]-th [sendMail] is accepted,
    otherwise the message of the error it throws. *)
Variable smtp : nat -> MailOptions -> option string.

(** The datastore: [None] when the [k]-th [save] commits, otherwise the
    message of the error it throws. *)
Variable db : nat -> option string.

(** [configService.get('EMAIL_FROM_NAME', 'MiniCRM Support')] and
    [configService.get('SMTP_USER')]. *)
Variable EMAIL_FROM_NAME : option string.
Variable SMTP_USER : option string.

(** A template-literal hole filled from a value that may be undefined. *)
Definition shown (o : option string) : string :=
  match o with Some s => s | None => "undefined" end.

(** [this.transporter.sendMail(mailOptions)] *)
Definition sendMail (mailOptions : MailOptions) : Task unit :=
  fun w =>
    let k := List.length (handedToTransport w) in
    let w1 := {| table := table w; nextId := nextId w; saveCalls := saveCalls w;
                 handedToTransport := handedToTransport w ++ [mailOptions];
                 now := now w |} in
    match smtp k mailOptions with
    | None => (Fulfilled tt, w1)
    | Some reason => (Rejected {| Js.message := reason |}, w1)
    end.

(** [EmailService.sendEmail(options)] *)
Definition sendEmail (options : EmailOptions) : Task unit :=
  tryCatch
    (let mailOptions :=
       {| from := Js.quote ++ orDefault "MiniCRM Support" EMAIL_FROM_NAME
                    ++ Js.quote ++ " <" ++ shown SMTP_USER ++ ">";
          to := eo_to options; subject := eo_subject options;
          html := eo_html options |} in
     sendMail mailOptions)
    (fun error => throw {| Js.message := "Email sending failed: " ++ Js.message error |}).

(** [EmailService.sendWelcomeEmail(to, firstName, role)] *)
Definition EmailService_sendWelcomeEmail (to_ firstName_ role_ : string) : Task unit :=
  sendEmail {| eo_to := to_; eo_subject := "Welcome to MiniCRM!";
               eo_html := {| helloName := firstName_; withRole := role_ |} |}.

Definition isValidEmail (email_ : string) : bool :=
  EmailRegex.test EmailRegex.emailRegex email_.

(** [!s] on a string. *)
Definition falsy (s : string) : bool := (s =? "")%string.

Definition validateUserCreatedEvent (event : UserCreatedEventDto) : Task unit :=
  if falsy (userId event) || falsy (email event) || falsy (firstName event)
     || falsy (lastName event) || falsy (role event)
  then throw {| Js.message := "User creation event missing required fields" |}
  else if negb (isValidEmail (email event))
  then throw {| Js.message := "Invalid email format: " ++ email event |}
  else ret tt.

Definition sendWelcomeEmail (event : UserCreatedEventDto) : Task unit :=
  EmailService_sendWelcomeEmail (email event) (firstName event) (role event).

(** The row a committed [save] leaves: the generated key and the two
    timestamps come from the datastore. *)
Definition inserted (data : RecordData) (w : World) : Notification :=
  {| id := Js.uuid (nextId w);
     type := d_type data; title := d_title data;
     message := d_message data; recipientId := d_recipientId data;
     status := d_status data; metadata := None; templateId := None;
     sentAt := None; errorMessage := d_errorMessage data;
     createdAt := now w; updatedAt := now w |}.

Definition committed (data : RecordData) (w : World) : World :=
  {| table := table w ++ [inserted data w]; nextId := S (nextId w);
     saveCalls := S (saveCalls w);
     handedToTransport := handedToTransport w; now := now w |}.

(** [this.notificationRepository.save(this.notificationRepository.create(data))] *)
Definition save (data : RecordData) : Task Notification :=
  fun w =>
    match db (saveCalls w) with
    | Some reason =>
        (Rejected {| Js.message := reason |},
         {| table := table w; nextId := nextId w; saveCalls := S (saveCalls w);
            handedToTransport := handedToTransport w; now := now w |})
    | None => (Fulfilled (inserted data w), committed data w)
    end.

Definition createNotificationRecord (data : RecordData) : Task unit :=
  save data ;;
  ret tt.

(** The template of both audit records. *)
Definition welcomeMessage (event : UserCreatedEventDto) : string :=
  "Welcome " ++ firstName event ++ "! Your account has been created with role: "
  ++ role event.

(** The two audit records the pipeline writes. *)
Definition sentRecord (event : UserCreatedEventDto) : RecordData :=
  {| d_type := EMAIL; d_title := "Welcome to MiniCRM!";
     d_message := welcomeMessage event; d_recipientId := userId event;
     d_status := SENT; d_errorMessage := None |}.

Definition failedRecord (event : UserCreatedEventDto) (error : Js.Error) : RecordData :=
  {| d_type := EMAIL; d_title := "Welcome to MiniCRM!";
     d_message := welcomeMessage event; d_recipientId := userId event;
     d_status := FAILED; d_errorMessage := Some (Js.message error) |}.

Definition processUserCreatedEvent (event : UserCreatedEventDto) : Task unit :=
  tryCatch
    (validateUserCreatedEvent event ;;
     sendWelcomeEmail event ;;
     createNotificationRecord (sentRecord event))
    (fun error =>
       createNotificationRecord (failedRecord event error) ;;
       throw error).

End Service.

(** The same world over other stored rows. *)
Definition withTable (rows : list Notification) (w : World) : World :=
  {| table := rows; nextId := nextId w; saveCalls := saveCalls w;
     handedToTransport := handedToTransport w; now := now w |}.

(** The status an invocation's outcome asks for. *)
Definition statusFor (o : Settled unit Js.Error) : NotificationStatus :=
  match o with
  | Fulfilled _ => SENT
  | Rejected _ => FAILED
  end.

(** The events of the specification's scenarios. *)
Definition notAnEmail : UserCreatedEventDto :=
  {| userId := "u1"; email := "not-an-email"; firstName := "Jo"; lastName := "Doe";
     role := "sales_rep"; timestamp := "2024-01-01T00:00:00Z" |}.

Definition jo : UserCreatedEventDto :=
  {| userId := "u1"; email := "a@b.com"; firstName := "Jo"; lastName := "Doe";
     role := "sales_rep"; timestamp := "2024-01-01T00:00:00Z" |}.

Definition emptyWorld : World :=
  {| table := []; nextId := 0; saveCalls := 0; handedToTransport := []; now := 0 |}.

End NotificationService.

(** ** Exceptions and the broker client shared by the write services *)

Module Nest.

(** What a service method can throw: a framework exception with its HTTP
    status, or a plain error of a collaborator. *)
Inductive Thrown : Type :=
| ConflictException (message : string)
| NotFoundException (message : string)
| Plain (error : Js.Error).

(** [error.message] *)
Definition messageOf (t : Thrown) : string :=
  match t with
  | ConflictException m | NotFoundException m => m
  | Plain e => Js.message e
  end.

(** What happens to one [kafkaClient.emit]: the event reaches the broker,
    the call throws on the spot, or it returns and the event is lost
    afterwards without the caller ever hearing of it. *)
Inductive Emit : Type :=
| Delivered
| Throws (reason : string)
| LostLater.

End Nest.

(** ** Topics and event payloads (kafka/kafka-config.ts) *)

Module Kafka.

Definition USER_CREATED : string := "user.created".
Definition LEAD_UPDATED : string := "lead.updated".
Definition LEAD_ASSIGNED : string := "lead.assigned".
Definition LEAD_STATUS_CHANGED : string := "lead.status_changed".

Record UserCreatedEvent : Type := {
  uc_userId : string;
  uc_email : string;
  uc_firstName : string;
  uc_lastName : string;
  uc_role : string;
  uc_timestamp : string
}.

Record LeadUpdatedEvent : Type := {
  lu_leadId : string;
  lu_firstName : option string;
  lu_lastName : option string;
  lu_email : option string;
  lu_status : option string;
  lu_timestamp : string
}.

Record LeadAssignedEvent : Type := {
  la_leadId : string;
  la_previousUserId : option string;
  la_newUserId : string;
  la_timestamp : string
}.

Record LeadStatusChangedEvent : Type := {
  ls_leadId : string;
  ls_previousStatus : string;
  ls_newStatus : string;
  ls_userId : string;
  ls_timestamp : string
}.

Inductive KafkaEvent : Type :=
| UserCreated (e : UserCreatedEvent)
| LeadUpdated (e : LeadUpdatedEvent)
| LeadAssigned (e : LeadAssignedEvent)
| LeadStatusChanged (e : LeadStatusChangedEvent).

End Kafka.

(** ** user-service: [createUser] *)

Module UserService.

Inductive UserRole : Type := ADMIN | MANAGER | SALES_REP.

(** The enum's string value. *)
Definition roleValue (r : UserRole) : string :=
  match r with
  | ADMIN => "admin"
  | MANAGER => "manager"
  | SALES_REP => "sales_rep"
  end.

(** A creation request; [role] already carries the DTO's default. *)
Record CreateUserDto : Type := {
  dto_firstName : string;
  dto_lastName : string;
  dto_email : string;
  dto_password : string;
  dto_role : UserRole
}.

(** Modelled from the spec: the [User] entity, whose class
    (apps/user-service/src/entities/user.entity.ts) is not among the
    sources.  The specification treats the datastore as a collaborator
    that stores entities by primary key and by e-mail; the columns are the
    ones [UserService] reads and writes.  A date is kept as its ISO-8601
    rendering. *)
Record User : Type := {
  id : string;
  firstName : string;
  lastName : string;
  email : string;
  password : string;
  role : UserRole;
  isActive : bool;
  createdAt : string;
  updatedAt : string
}.

Record UserResponseDto : Type := {
  r_id : string;
  r_firstName : string;
  r_lastName : string;
  r_email : string;
  r_role : UserRole;
  r_isActive : bool;
  r_createdAt : string;
  r_updatedAt : string
}.

Record World : Type := {
  users : list User;
  nextId : nat;
  dbCalls : nat;
  emitCalls : nat;
  published : list (string * Kafka.KafkaEvent);
  now : string
}.

Definition Task := Async World Nest.Thrown.

Definition mapToResponseDto (user : User) : UserResponseDto :=
  {| r_id := id user; r_firstName := firstName user; r_lastName := lastName user;
     r_email := email user; r_role := role user; r_isActive := isActive user;
     r_createdAt := createdAt user; r_updatedAt := updatedAt user |}.

Section Service.

(** The datastore: [None] when its [k]-th operation goes through. *)
Variable db : nat -> option string.

(** The broker client, per [emit]. *)
Variable kafka : nat -> Nest.Emit.

(** Modelled from the spec: the entity's column default for [isActive]
    and what its insert hook stores for the password; both are declared in
    the missing entity class. *)
Variable defaultIsActive : bool.
Variable storedPassword : string -> string.

Definition touchDb (w : World) : World :=
  {| users := users w; nextId := nextId w; dbCalls := S (dbCalls w);
     emitCalls := emitCalls w; published := published w; now := now w |}.

(** [this.userRepository.findOne({ where: { email } })] *)
Definition findOneByEmail (email_ : string) : Task (option User) :=
  fun w =>
    match db (dbCalls w) with
    | Some reason => (Rejected (Nest.Plain {| Js.message := reason |}), touchDb w)
    | None =>
        (Fulfilled (find (fun u => (email u =? email_)%string) (users w)), touchDb w)
    end.

(** The row an insert of [create(createUserDto)] commits. *)
Definition created (dto : CreateUserDto) (w : World) : User :=
  {| id := Js.uuid (nextId w);
     firstName := dto_firstName dto; lastName := dto_lastName dto;
     email := dto_email dto; password := storedPassword (dto_password dto);
     role := dto_role dto; isActive := defaultIsActive;
     createdAt := now w; updatedAt := now w |}.

(** [this.userRepository.save(this.userRepository.create(createUserDto))] *)
Definition saveNew (dto : CreateUserDto) : Task User :=
  fun w =>
    match db (dbCalls w) with
    | Some reason => (Rejected (Nest.Plain {| Js.message := reason |}), touchDb w)
    | None =>
        (Fulfilled (created dto w),
         {| users := users w ++ [created dto w]; nextId := S (nextId w);
            dbCalls := S (dbCalls w); emitCalls := emitCalls w;
            published := published w; now := now w |})
    end.

(** [this.kafkaClient.emit(topic, event)] *)
Definition emit (topic : string) (event : Kafka.KafkaEvent) : Task unit :=
  fun w =>
    let w1 delivered :=
      {| users := users w; nextId := nextId w; dbCalls := dbCalls w;
         emitCalls := S (emitCalls w);
         published := published w ++ delivered; now := now w |} in
    match kafka (emitCalls w) with
    | Nest.Delivered => (Fulfilled tt, w1 [(topic, event)])
    | Nest.LostLater => (Fulfilled tt, w1 [])
    | Nest.Throws reason => (Rejected (Nest.Plain {| Js.message := reason |}), w1 [])
    end.

Definition createUser (createUserDto : CreateUserDto) : Task UserResponseDto :=
  existingUser <- findOneByEmail (dto_email createUserDto) ;;
  match existingUser with
  | Some _ => throw (Nest.ConflictException "User with this email already exists")
  | None =>
      savedUser <- saveNew createUserDto ;;
      timestamp <- gets now ;;
      let event :=
        {| Kafka.uc_userId := id savedUser; Kafka.uc_email := email savedUser;
           Kafka.uc_firstName := firstName savedUser;
           Kafka.uc_lastName := lastName savedUser;
           Kafka.uc_role := roleValue (role savedUser);
           Kafka.uc_timestamp := timestamp |} in
      tryCatch (emit Kafka.USER_CREATED (Kafka.UserCreated event))
               (fun error => ret tt) ;;
      ret (mapToResponseDto savedUser)
  end.

End Service.

(** A registration and an empty service, for the examples. *)
Definition ada : CreateUserDto :=
  {| dto_firstName := "Ada"; dto_lastName := "Byron"; dto_email := "ada@example.com";
     dto_password := "secret1"; dto_role := SALES_REP |}.

Definition emptyWorld : World :=
  {| users := []; nextId := 0; dbCalls := 0; emitCalls := 0; published := [];
     now := "2024-01-01T00:00:00.000Z" |}.

End UserService.

(** ** lead-service: the writes that publish derived events *)

Module LeadService.

Inductive LeadStatus : Type :=
| NEW | CONTACTED | QUALIFIED | PROPOSAL | NEGOTIATION | CLOSED_WON | CLOSED_LOST.

Inductive LeadSource : Type :=
| WEBSITE | REFERRAL | SOCIAL_MEDIA | EMAIL_CAMPAIGN | PHONE_CALL | OTHER.

(** The enum's string value. *)
Definition statusValue (s : LeadStatus) : string :=
  match s with
  | NEW => "new"
  | CONTACTED => "contacted"
  | QUALIFIED => "qualified"
  | PROPOSAL => "proposal"
  | NEGOTIATION => "negotiation"
  | CLOSED_WON => "closed_won"
  | CLOSED_LOST => "closed_lost"
  end.

Definition statusEqb (a b : LeadStatus) : bool :=
  (statusValue a =? statusValue b)%string.

(** The [leads] row; nullable columns are options, a date is its
    ISO-8601 rendering. *)
Record Lead : Type := {
  id : string;
  firstName : string;
  lastName : string;
  email : string;
  phone : option string;
  company : option string;
  position : option string;
  notes : option string;
  status : LeadStatus;
  source : LeadSource;
  assignedUserId : option string;
  createdAt : string;
  updatedAt : string
}.

Record UpdateLeadDto : Type := {
  u_firstName : option string;
  u_lastName : option string;
  u_email : option string;
  u_phone : option string;
  u_company : option string;
  u_position : option string;
  u_notes : option string;
  u_status : option LeadStatus;
  u_source : option LeadSource;
  u_assignedUserId : option string
}.

Record AssignedUser : Type := {
  au_id : string;
  au_firstName : string;
  au_lastName : string;
  au_email : string
}.

Record LeadResponseDto : Type := {
  r_id : string;
  r_firstName : string;
  r_lastName : string;
  r_email : string;
  r_phone : option string;
  r_company : option string;
  r_position : option string;
  r_notes : option string;
  r_status : LeadStatus;
  r_source : LeadSource;
  r_assignedUserId : option string;
  r_assignedUser : option AssignedUser;
  r_createdAt : string;
  r_updatedAt : string
}.

Record World : Type := {
  leads : list Lead;
  dbCalls : nat;
  emitCalls : nat;
  published : list (string * Kafka.KafkaEvent);
  sdkCalls : nat;
  now : string
}.

Definition Task := Async World Nest.Thrown.

(** A string that may be null or undefined, in a condition. *)
Definition truthy (o : option string) : bool :=
  match o with
  | Some s => negb (s =? "")%string
  | None => false
  end.

(** [a !== b] on such strings. *)
Definition differs (a b : option string) : bool :=
  match a, b with
  | Some x, Some y => negb (x =? y)%string
  | None, None => false
  | _, _ => true
  end.

(** [Object.assign(lead, updateLeadDto)]: the fields the request carries
    overwrite the entity's. *)
Definition assign (lead : Lead) (dto : UpdateLeadDto) : Lead :=
  let over {A} (new : option A) (old : A) : A :=
    match new with Some v => v | None => old end in
  let overNullable (new old : option string) : option string :=
    match new with Some v => Some v | None => old end in
  {| id := id lead;
     firstName := over (u_firstName dto) (firstName lead);
     lastName := over (u_lastName dto) (lastName lead);
     email := over (u_email dto) (email lead);
     phone := overNullable (u_phone dto) (phone lead);
     company := overNullable (u_company dto) (company lead);
     position := overNullable (u_position dto) (position lead);
     notes := overNullable (u_notes dto) (notes lead);
     status := over (u_status dto) (status lead);
     source := over (u_source dto) (source lead);
     assignedUserId := overNullable (u_assignedUserId dto) (assignedUserId lead);
     createdAt := createdAt lead; updatedAt := updatedAt lead |}.

(** [lead.assignedUserId = userId] *)
Definition withAssignee (lead : Lead) (userId : string) : Lead :=
  {| id := id lead; firstName := firstName lead; lastName := lastName lead;
     email := email lead; phone := phone lead; company := company lead;
     position := position lead; notes := notes lead; status := status lead;
     source := source lead; assignedUserId := Some userId;
     createdAt := createdAt lead; updatedAt := updatedAt lead |}.

(** [lead.status = status] *)
Definition withStatus (lead : Lead) (st : LeadStatus) : Lead :=
  {| id := id lead; firstName := firstName lead; lastName := lastName lead;
     email := email lead; phone := phone lead; company := company lead;
     position := position lead; notes := notes lead; status := st;
     source := source lead; assignedUserId := assignedUserId lead;
     createdAt := createdAt lead; updatedAt := updatedAt lead |}.

(** The row as an update leaves it: the update timestamp is refreshed. *)
Definition stamped (lead : Lead) (at_ : string) : Lead :=
  {| id := id lead; firstName := firstName lead; lastName := lastName lead;
     email := email lead; phone := phone lead; company := company lead;
     position := position lead; notes := notes lead; status := status lead;
     source := source lead; assignedUserId := assignedUserId lead;
     createdAt := createdAt lead; updatedAt := at_ |}.

Section Service.

Variable db : nat -> option string.
Variable kafka : nat -> Nest.Emit.

(** [userSdkService.getUserById(id)], per call: the user service's
    answer as it comes back through the resilient client. *)
Variable userSdk : nat -> string -> Settled UserService.UserResponseDto Js.Error.

Definition touchDb (w : World) : World :=
  {| leads := leads w; dbCalls := S (dbCalls w); emitCalls := emitCalls w;
     published := published w; sdkCalls := sdkCalls w; now := now w |}.

(** [this.leadRepository.findOne({ where: { id } })] *)
Definition findOne (leadId : string) : Task (option Lead) :=
  fun w =>
    match db (dbCalls w) with
    | Some reason => (Rejected (Nest.Plain {| Js.message := reason |}), touchDb w)
    | None => (Fulfilled (find (fun l => (id l =? leadId)%string) (leads w)), touchDb w)
    end.

(** [this.leadRepository.save(lead)] for a loaded entity. *)
Definition save (lead : Lead) : Task Lead :=
  fun w =>
    match db (dbCalls w) with
    | Some reason => (Rejected (Nest.Plain {| Js.message := reason |}), touchDb w)
    | None =>
        let row := stamped lead (now w) in
        (Fulfilled row,
         {| leads := map (fun l => if (id l =? id row)%string then row else l) (leads w);
            dbCalls := S (dbCalls w); emitCalls := emitCalls w;
            published := published w; sdkCalls := sdkCalls w; now := now w |})
    end.

(** [this.kafkaClient.emit(topic, event)] *)
Definition emit (topic : string) (event : Kafka.KafkaEvent) : Task unit :=
  fun w =>
    let w1 delivered :=
      {| leads := leads w; dbCalls := dbCalls w; emitCalls := S (emitCalls w);
         published := published w ++ delivered; sdkCalls := sdkCalls w; now := now w |} in
    match kafka (emitCalls w) with
    | Nest.Delivered => (Fulfilled tt, w1 [(topic, event)])
    | Nest.LostLater => (Fulfilled tt, w1 [])
    | Nest.Throws reason => (Rejected (Nest.Plain {| Js.message := reason |}), w1 [])
    end.

(** [this.userSdkService.getUserById(userId)] *)
Definition getUserById (userId : string) : Task UserService.UserResponseDto :=
  fun w =>
    let w1 := {| leads := leads w; dbCalls := dbCalls w; emitCalls := emitCalls w;
                 published := published w; sdkCalls := S (sdkCalls w); now := now w |} in
    match userSdk (sdkCalls w) userId with
    | Fulfilled user => (Fulfilled user, w1)
    | Rejected error => (Rejected (Nest.Plain error), w1)
    end.

Definition mapToResponseDto (lead : Lead) : Task LeadResponseDto :=
  assignedUser <-
    (if truthy (assignedUserId lead)
     then tryCatch
            (user <- getUserById (orDefault "" (assignedUserId lead)) ;;
             ret (Some user))
            (fun error => ret None)
     else ret None) ;;
  ret {| r_id := id lead; r_firstName := firstName lead; r_lastName := lastName lead;
         r_email := email lead; r_phone := phone lead; r_company := company lead;
         r_position := position lead; r_notes := notes lead; r_status := status lead;
         r_source := source lead; r_assignedUserId := assignedUserId lead;
         r_assignedUser :=
           match assignedUser with
           | Some user =>
               if negb (UserService.r_id user =? "")%string
               then Some {| au_id := UserService.r_id user;
                            au_firstName := UserService.r_firstName user;
                            au_lastName := UserService.r_lastName user;
                            au_email := UserService.r_email user |}
               else None
           | None => None
           end;
         r_createdAt := createdAt lead; r_updatedAt := updatedAt lead |}.

Definition updateLead (leadId : string) (updateLeadDto : UpdateLeadDto)
  : Task LeadResponseDto :=
  found <- findOne leadId ;;
  match found with
  | None => throw (Nest.NotFoundException "Lead not found")
  | Some lead =>
      let previousStatus := status lead in
      let previousUserId := assignedUserId lead in
      updatedLead <- save (assign lead updateLeadDto) ;;
      timestamp <- gets now ;;
      emit Kafka.LEAD_UPDATED
        (Kafka.LeadUpdated
           {| Kafka.lu_leadId := id updatedLead;
              Kafka.lu_firstName := u_firstName updateLeadDto;
              Kafka.lu_lastName := u_lastName updateLeadDto;
              Kafka.lu_email := u_email updateLeadDto;
              Kafka.lu_status := option_map statusValue (u_status updateLeadDto);
              Kafka.lu_timestamp := timestamp |}) ;;
      match u_status updateLeadDto with
      | Some newStatus =>
          if negb (statusEqb newStatus previousStatus)
          then emit Kafka.LEAD_STATUS_CHANGED
                 (Kafka.LeadStatusChanged
                    {| Kafka.ls_leadId := id updatedLead;
                       Kafka.ls_previousStatus := statusValue previousStatus;
                       Kafka.ls_newStatus := statusValue newStatus;
                       Kafka.ls_userId := "system";
                       Kafka.ls_timestamp := timestamp |})
          else ret tt
      | None => ret tt
      end ;;
      (if truthy (u_assignedUserId updateLeadDto)
          && differs (u_assignedUserId updateLeadDto) previousUserId
       then emit Kafka.LEAD_ASSIGNED
              (Kafka.LeadAssigned
                 {| Kafka.la_leadId := id updatedLead;
                    Kafka.la_previousUserId := previousUserId;
                    Kafka.la_newUserId :=
                      orDefault "" (u_assignedUserId updateLeadDto);
                    Kafka.la_timestamp := timestamp |})
       else ret tt) ;;
      mapToResponseDto updatedLead
  end.

Definition assignLead (leadId userId : string) : Task LeadResponseDto :=
  found <- findOne leadId ;;
  match found with
  | None => throw (Nest.NotFoundException "Lead not found")
  | Some lead =>
      tryCatch (getUserById userId ;; ret tt)
               (fun error => throw (Nest.NotFoundException "User not found")) ;;
      let previousUserId := assignedUserId lead in
      updatedLead <- save (withAssignee lead userId) ;;
      timestamp <- gets now ;;
      emit Kafka.LEAD_ASSIGNED
        (Kafka.LeadAssigned
           {| Kafka.la_leadId := id updatedLead;
              Kafka.la_previousUserId := previousUserId;
              Kafka.la_newUserId := userId;
              Kafka.la_timestamp := timestamp |}) ;;
      mapToResponseDto updatedLead
  end.

Definition updateLeadStatus (leadId : string) (st : LeadStatus) : Task LeadResponseDto :=
  found <- findOne leadId ;;
  match found with
  | None => throw (Nest.NotFoundException "Lead not found")
  | Some lead =>
      let previousStatus := status lead in
      updatedLead <- save (withStatus lead st) ;;
      timestamp <- gets now ;;
      emit Kafka.LEAD_STATUS_CHANGED
        (Kafka.LeadStatusChanged
           {| Kafka.ls_leadId := id updatedLead;
              Kafka.ls_previousStatus := statusValue previousStatus;
              Kafka.ls_newStatus := statusValue st;
              Kafka.ls_userId := "system";
              Kafka.ls_timestamp := timestamp |}) ;;
      mapToResponseDto updatedLead
  end.

End Service.

(** The topics a list of published events is on. *)
Definition topics (events : list (string * Kafka.KafkaEvent)) : list string :=
  map fst events.

(** A stored lead, new and assigned to user u1, for the examples. *)
Definition acme : Lead :=
  {| id := "l1"; firstName := "Alice"; lastName := "Johnson";
     email := "alice@company.com"; phone := None; company := Some "Tech Corp";
     position := None; notes := None; status := NEW; source := WEBSITE;
     assignedUserId := Some "u1";
     createdAt := "2024-01-01T00:00:00.000Z"; updatedAt := "2024-01-01T00:00:00.000Z" |}.

Definition oneLead : World :=
  {| leads := [acme]; dbCalls := 0; emitCalls := 0; published := []; sdkCalls := 0;
     now := "2024-02-02T00:00:00.000Z" |}.

Definition u1 : UserService.UserResponseDto :=
  {| UserService.r_id := "u1"; UserService.r_firstName := "Jo";
     UserService.r_lastName := "Doe"; UserService.r_email := "a@b.com";
     UserService.r_role := UserService.SALES_REP; UserService.r_isActive := true;
     UserService.r_createdAt := "2024-01-01T00:00:00.000Z";
     UserService.r_updatedAt := "2024-01-01T00:00:00.000Z" |}.

(** An update request that carries nothing. *)
Definition noChange : UpdateLeadDto :=
  {| u_firstName := None; u_lastName := None; u_email := None; u_phone := None;
     u_company := None; u_position := None; u_notes := None; u_status := None;
     u_source := None; u_assignedUserId := None |}.

(** The same request with a status and an assignee. *)
Definition setting (st : option LeadStatus) (assignee : option string) : UpdateLeadDto :=
  {| u_firstName := None; u_lastName := None; u_email := None; u_phone := None;
     u_company := None; u_position := None; u_notes := None; u_status := st;
     u_source := None; u_assignedUserId := assignee |}.

End LeadService.

(** ** api-gateway: controller, router and the SDK services *)

Module Gateway.

Inductive Service : Type := UserSvc | LeadSvc.

(** One call on a service's [HttpClient], as an SDK method issues it. *)
Record HttpCall : Type := {
  service : Service;
  verb : HttpClient.Verb;
  url : string;
  body : Js.Value;
  config : Js.Value
}.

(** How a router method ends: it answers by itself, it returns the
    promise of an SDK call, or it throws an [HttpException]. *)
Inductive Routed : Type :=
| Respond (value : Js.Value)
| Forward (call : HttpCall)
| Raise (status : Z) (message : string).

(** The inbound request, as far as the controller reads it. *)
Record Request : Type := {
  method : string;
  req_url : string;
  headers : Js.Value
}.

(** *** UserSdkService *)

Definition UserSdk_createUser (createUserDto : Js.Value) : HttpCall :=
  {| service := UserSvc; verb := HttpClient.POST; url := "/users";
     body := createUserDto; config := Js.Undefined |}.

Definition UserSdk_getUserById (id : string) (headers_ : Js.Value) : HttpCall :=
  {| service := UserSvc; verb := HttpClient.GET; url := "/users/" ++ id;
     body := Js.Undefined; config := Js.Obj [("headers", headers_)] |}.

Definition UserSdk_getUserByEmail (email : string) (headers_ : Js.Value) : HttpCall :=
  {| service := UserSvc; verb := HttpClient.GET; url := "/users/email/" ++ email;
     body := Js.Undefined; config := Js.Obj [("headers", headers_)] |}.

Definition UserSdk_updateUser (id : string) (updateUserDto : Js.Value) : HttpCall :=
  {| service := UserSvc; verb := HttpClient.PATCH; url := "/users/" ++ id;
     body := updateUserDto; config := Js.Undefined |}.

Definition UserSdk_deleteUser (id : string) : HttpCall :=
  {| service := UserSvc; verb := HttpClient.DELETE; url := "/users/" ++ id;
     body := Js.Undefined; config := Js.Undefined |}.

Definition UserSdk_getAllUsers (headers_ : Js.Value) : HttpCall :=
  {| service := UserSvc; verb := HttpClient.GET; url := "/users";
     body := Js.Undefined; config := Js.Obj [("headers", headers_)] |}.

Definition UserSdk_login (loginDto : Js.Value) : HttpCall :=
  {| service := UserSvc; verb := HttpClient.POST; url := "/auth/login";
     body := loginDto; config := Js.Undefined |}.

Definition UserSdk_refreshToken (refreshToken : Js.Value) : HttpCall :=
  {| service := UserSvc; verb := HttpClient.POST; url := "/auth/refresh";
     body := Js.Obj [("refreshToken", refreshToken)]; config := Js.Undefined |}.

(** *** LeadSdkService *)

Definition LeadSdk_createLead (createLeadDto : Js.Value) : HttpCall :=
  {| service := LeadSvc; verb := HttpClient.POST; url := "/leads";
     body := createLeadDto; config := Js.Undefined |}.

Definition LeadSdk_getLeadById (id : string) : HttpCall :=
  {| service := LeadSvc; verb := HttpClient.GET; url := "/leads/" ++ id;
     body := Js.Undefined; config := Js.Undefined |}.

Definition LeadSdk_updateLead (id : string) (updateLeadDto : Js.Value) : HttpCall :=
  {| service := LeadSvc; verb := HttpClient.PATCH; url := "/leads/" ++ id;
     body := updateLeadDto; config := Js.Undefined |}.

Definition LeadSdk_deleteLead (id : string) : HttpCall :=
  {| service := LeadSvc; verb := HttpClient.DELETE; url := "/leads/" ++ id;
     body := Js.Undefined; config := Js.Undefined |}.

Definition LeadSdk_getAllLeads : HttpCall :=
  {| service := LeadSvc; verb := HttpClient.GET; url := "/leads";
     body := Js.Undefined; config := Js.Undefined |}.

Definition LeadSdk_getLeadsByUserId (userId : string) : HttpCall :=
  {| service := LeadSvc; verb := HttpClient.GET; url := "/leads/user/" ++ userId;
     body := Js.Undefined; config := Js.Undefined |}.

Definition LeadSdk_assignLead (leadId : string) (userId : Js.Value) : HttpCall :=
  {| service := LeadSvc; verb := HttpClient.PATCH; url := "/leads/" ++ leadId ++ "/assign";
     body := Js.Obj [("assignedUserId", userId)]; config := Js.Undefined |}.

Definition LeadSdk_updateLeadStatus (leadId : string) (status : Js.Value) : HttpCall :=
  {| service := LeadSvc; verb := HttpClient.PATCH; url := "/leads/" ++ leadId ++ "/status";
     body := Js.Obj [("status", status)]; config := Js.Undefined |}.

(** *** GatewayService *)

(** [body.key]: a property read that throws a TypeError off [undefined] and
    [null]; the router's catch turns it into a 500 with the error's
    message. *)
Definition member (v : Js.Value) (key : string) (k : Js.Value -> Routed) : Routed :=
  match v with
  | Js.Undefined =>
      Raise 500 ("Cannot read properties of undefined (reading '" ++ key ++ "')")
  | Js.Null =>
      Raise 500 ("Cannot read properties of null (reading '" ++ key ++ "')")
  | _ => k (Js.get v key)
  end.

Definition routeToUserService (method_ path : string) (body_ headers_ : Js.Value) : Routed :=
  let authHeader := Js.get headers_ "authorization" in
  let config_ :=
    if Js.truthy authHeader
    then Js.Obj [("headers", Js.Obj [("Authorization", authHeader)])]
    else Js.Undefined in
  if (method_ =? "GET")%string then
    if (path =? "/auth/validate")%string
    then Respond (Js.Obj [("message", Js.Str "Token is valid")])
    else if Js.startsWith path "/email/"
    then Forward (UserSdk_getUserByEmail (Js.replace path "/email/" "") config_)
    else if (path =? "/")%string
    then Forward (UserSdk_getAllUsers config_)
    else Forward (UserSdk_getUserById (Js.replace path "/" "") config_)
  else if (method_ =? "POST")%string then
    if (path =? "/auth/login")%string
    then Forward (UserSdk_login body_)
    else if (path =? "/auth/refresh")%string
    then member body_ "refreshToken" (fun t => Forward (UserSdk_refreshToken t))
    else Forward (UserSdk_createUser body_)
  else if (method_ =? "PATCH")%string then
    Forward (UserSdk_updateUser (Js.replace path "/" "") body_)
  else if (method_ =? "DELETE")%string then
    Forward (UserSdk_deleteUser (Js.replace path "/" ""))
  else Raise 405 "Method not allowed".

Definition routeToLeadService (method_ path : string) (body_ : Js.Value) : Routed :=
  if (method_ =? "GET")%string then
    if Js.startsWith path "/user/"
    then Forward (LeadSdk_getLeadsByUserId (Js.replace path "/user/" ""))
    else if (path =? "/")%string
    then Forward LeadSdk_getAllLeads
    else Forward (LeadSdk_getLeadById (Js.replace path "/" ""))
  else if (method_ =? "POST")%string then
    Forward (LeadSdk_createLead body_)
  else if (method_ =? "PATCH")%string then
    if Js.includes path "/assign"
    then member body_ "assignedUserId"
           (fun u => Forward (LeadSdk_assignLead
                                (Js.replace (Js.replace path "/assign" "") "/" "") u))
    else if Js.includes path "/status"
    then member body_ "status"
           (fun st => Forward (LeadSdk_updateLeadStatus
                                 (Js.replace (Js.replace path "/status" "") "/" "") st))
    else Forward (LeadSdk_updateLead (Js.replace path "/" "") body_)
  else if (method_ =? "DELETE")%string then
    Forward (LeadSdk_deleteLead (Js.replace path "/" ""))
  else Raise 405 "Method not allowed".

(** *** GatewayController *)

Definition routeUserService (req : Request) (body_ : Js.Value) : Routed :=
  routeToUserService (method req) (Js.replace (req_url req) "/users" "") body_ (headers req).

Definition routeLeadService (req : Request) (body_ : Js.Value) : Routed :=
  routeToLeadService (method req) (Js.replace (req_url req) "/leads" "") body_.

(** The Authorization header axios sends for a call: the entry of that
    name in the call's [config.headers]. *)
Definition authorizationSent (call : HttpCall) : Js.Value :=
  Js.get (Js.get (config call) "headers") "Authorization".

(** Whether a value holds the string [s] anywhere inside. *)
Fixpoint holds (s : string) (v : Js.Value) : bool :=
  match v with
  | Js.Str s' => (s' =? s)%string
  | Js.Arr items => existsb (holds s) items
  | Js.Obj fields => existsb (fun kv => holds s (snd kv)) fields
  | _ => false
  end.

(** A signed-in caller's request: the bearer credential of the examples. *)
Definition bearer : string := "Bearer eyJhbGciOi.payload.sig".

Definition signedIn (method_ url_ : string) : Request :=
  {| method := method_; req_url := url_;
     headers := Js.Obj [("host", Js.Str "localhost:3000");
                        ("authorization", Js.Str bearer)] |}.

End Gateway.

(** ** Further peers and clients for the retry loop *)

Module HttpClientCases.

(** A client that may not retry at all. *)
Definition singleShot : HttpClient.HttpClient :=
  HttpClient.new
    {| HttpClient.cfg_baseURL := "http://lead-service:3002";
       HttpClient.cfg_timeout := Some 2000; HttpClient.cfg_maxRetries := Some 0;
       HttpClient.cfg_retryDelay := Some 250; HttpClient.cfg_headers := None |}.

End HttpClientCases.

(** ** The pipeline's two exits, named for the statements about them *)

Module PipelineCases.

(** The world after a [save] the datastore refused. *)
Definition refused (w : NotificationService.World) : NotificationService.World :=
  {| NotificationService.table := NotificationService.table w;
     NotificationService.nextId := NotificationService.nextId w;
     NotificationService.saveCalls := S (NotificationService.saveCalls w);
     NotificationService.handedToTransport := NotificationService.handedToTransport w;
     NotificationService.now := NotificationService.now w |}.

(** How the catch block of [processUserCreatedEvent] ends for the error it
    caught: with that error once the Failed record is saved, with the
    datastore's error when that save is refused. *)
Definition caught (db : nat -> option string)
           (event : NotificationService.UserCreatedEventDto) (error : Js.Error)
           (w : NotificationService.World)
  : Settled unit Js.Error * NotificationService.World :=
  match db (NotificationService.saveCalls w) with
  | None =>
      (Rejected error,
       NotificationService.committed (NotificationService.failedRecord event error) w)
  | Some reason => (Rejected {| Js.message := reason |}, refused w)
  end.

(** The mail [sendWelcomeEmail] builds for an event. *)
Definition welcomeMail (EMAIL_FROM_NAME SMTP_USER : option string)
           (event : NotificationService.UserCreatedEventDto)
  : NotificationService.MailOptions :=
  {| NotificationService.from :=
       Js.quote ++ orDefault "MiniCRM Support" EMAIL_FROM_NAME ++ Js.quote
       ++ " <" ++ NotificationService.shown SMTP_USER ++ ">";
     NotificationService.to := NotificationService.email event;
     NotificationService.subject := "Welcome to MiniCRM!";
     NotificationService.html :=
       {| NotificationService.helloName := NotificationService.firstName event;
          NotificationService.withRole := NotificationService.role event |} |}.

(** The unit test's event with its e-mail address blanked. *)
Definition noAddress : NotificationService.UserCreatedEventDto :=
  {| NotificationService.userId := "123e4567-e89b-12d3-a456-426614174000";
     NotificationService.email := "";
     NotificationService.firstName := "John"; NotificationService.lastName := "Doe";
     NotificationService.role := "user";
     NotificationService.timestamp := "2023-01-01T00:00:00Z" |}.

End PipelineCases.

(** ** user-service: the reads *)

Module UserQueries.

Section Service.

Variable db : nat -> option string.

(** [this.userRepository.findOne({ where: { id } })] *)
Definition findOneById (id_ : string) : UserService.Task (option UserService.User) :=
  fun w =>
    match db (UserService.dbCalls w) with
    | Some reason =>
        (Rejected (Nest.Plain {| Js.message := reason |}), UserService.touchDb w)
    | None =>
        (Fulfilled (find (fun u => (UserService.id u =? id_)%string) (UserService.users w)),
         UserService.touchDb w)
    end.

(** [this.userRepository.find()] *)
Definition findAll : UserService.Task (list UserService.User) :=
  fun w =>
    match db (UserService.dbCalls w) with
    | Some reason =>
        (Rejected (Nest.Plain {| Js.message := reason |}), UserService.touchDb w)
    | None => (Fulfilled (UserService.users w), UserService.touchDb w)
    end.

Definition getUserById (id_ : string) : UserService.Task UserService.UserResponseDto :=
  user <- findOneById id_ ;;
  match user with
  | None => throw (Nest.NotFoundException "User not found")
  | Some u => ret (UserService.mapToResponseDto u)
  end.

Definition getUserByEmail (email_ : string) : UserService.Task UserService.UserResponseDto :=
  user <- UserService.findOneByEmail db email_ ;;
  match user with
  | None => throw (Nest.NotFoundException "User not found")
  | Some u => ret (UserService.mapToResponseDto u)
  end.

Definition getAllUsers : UserService.Task (list UserService.UserResponseDto) :=
  users_ <- findAll ;;
  ret (map UserService.mapToResponseDto users_).

End Service.

(** The key the next insert will get is not in use: what the datastore's
    key generation guarantees. *)
Definition nextKeyFresh (w : UserService.World) : Prop :=
  forall u, In u (UserService.users w) ->
            UserService.id u <> Js.uuid (UserService.nextId w).

End UserQueries.

(** ** lead-service: the reads *)

Module LeadQueries.

Section Service.

Variable db : nat -> option string.
Variable userSdk : nat -> string -> Settled UserService.UserResponseDto Js.Error.

(** [this.leadRepository.find()] *)
Definition findAll : LeadService.Task (list LeadService.Lead) :=
  fun w =>
    match db (LeadService.dbCalls w) with
    | Some reason =>
        (Rejected (Nest.Plain {| Js.message := reason |}), LeadService.touchDb w)
    | None => (Fulfilled (LeadService.leads w), LeadService.touchDb w)
    end.

(** The row filter of [{ where: { assignedUserId: userId } }]. *)
Definition assignedTo (userId : string) (lead : LeadService.Lead) : bool :=
  match LeadService.assignedUserId lead with
  | Some u => (u =? userId)%string
  | None => false
  end.

(** [this.leadRepository.find({ where: { assignedUserId: userId } })] *)
Definition findByAssignee (userId : string) : LeadService.Task (list LeadService.Lead) :=
  fun w =>
    match db (LeadService.dbCalls w) with
    | Some reason =>
        (Rejected (Nest.Plain {| Js.message := reason |}), LeadService.touchDb w)
    | None =>
        (Fulfilled (filter (assignedTo userId) (LeadService.leads w)),
         LeadService.touchDb w)
    end.

(** [Promise.all(items.map(f))]: the calls are issued in the order of the
    items and the results keep that order. *)
Fixpoint all {A B} (f : A -> LeadService.Task B) (items : list A)
  : LeadService.Task (list B) :=
  match items with
  | [] => ret []
  | item :: rest =>
      b <- f item ;;
      bs <- all f rest ;;
      ret (b :: bs)
  end.

Definition getLeadById (id_ : string) : LeadService.Task LeadService.LeadResponseDto :=
  found <- LeadService.findOne db id_ ;;
  match found with
  | None => throw (Nest.NotFoundException "Lead not found")
  | Some lead => LeadService.mapToResponseDto userSdk lead
  end.

Definition getAllLeads : LeadService.Task (list LeadService.LeadResponseDto) :=
  leads_ <- findAll ;;
  all (LeadService.mapToResponseDto userSdk) leads_.

Definition getLeadsByUserId (userId : string)
  : LeadService.Task (list LeadService.LeadResponseDto) :=
  leads_ <- findByAssignee userId ;;
  all (LeadService.mapToResponseDto userSdk) leads_.

End Service.

(** A second stored lead, unassigned, and a table with both. *)
Definition globex : LeadService.Lead :=
  {| LeadService.id := "l2"; LeadService.firstName := "Bob";
     LeadService.lastName := "Stone"; LeadService.email := "bob@globex.com";
     LeadService.phone := None; LeadService.company := None;
     LeadService.position := None; LeadService.notes := None;
     LeadService.status := LeadService.CONTACTED; LeadService.source := LeadService.REFERRAL;
     LeadService.assignedUserId := None;
     LeadService.createdAt := "2024-01-05T00:00:00.000Z";
     LeadService.updatedAt := "2024-01-05T00:00:00.000Z" |}.

Definition twoLeads : LeadService.World :=
  {| LeadService.leads := [LeadService.acme; globex]; LeadService.dbCalls := 0;
     LeadService.emitCalls := 0; LeadService.published := [];
     LeadService.sdkCalls := 0; LeadService.now := "2024-02-02T00:00:00.000Z" |}.

End LeadQueries.

(** ** Inbound URLs of the gateway *)

Module GatewayCases.

(** A path segment in the sense of the routers: no [/] inside. *)
Fixpoint slashFree (s : string) : bool :=
  match s with
  | EmptyString => true
  | String c rest => negb (c =? "/")%char && slashFree rest
  end.

(** The request the controller sees for a method and a URL. *)
Definition inbound (method_ url_ : string) (headers_ : Js.Value) : Gateway.Request :=
  {| Gateway.method := method_; Gateway.req_url := url_; Gateway.headers := headers_ |}.

(** The [config] the user router builds from the inbound headers. *)
Definition userConfig (headers_ : Js.Value) : Js.Value :=
  if Js.truthy (Js.get headers_ "authorization")
  then Js.Obj [("headers", Js.Obj [("Authorization", Js.get headers_ "authorization")])]
  else Js.Undefined.

End GatewayCases.

(** ** user-service: sign-in and token checks *)

Module Auth.

(** What the three methods can throw: the framework's 401, or whatever a
    collaborator threw. *)
Inductive Thrown : Type :=
| UnauthorizedException (message : string)
| Service (t : Nest.Thrown).

(** The claims the service signs and reads back. *)
Record JwtPayload : Type := {
  sub : string;
  p_email : string;
  p_role : UserService.UserRole
}.

Record LoginDto : Type := {
  l_email : string;
  l_password : string
}.

Record AuthResponseDto : Type := {
  a_user : UserService.UserResponseDto;
  a_accessToken : string;
  a_refreshToken : string
}.

Definition Task := Async UserService.World Thrown.

Section Service.

Variable db : nat -> option string.

(** [this.jwtService.verify(token)]: the payload, or the error thrown for
    a token that is malformed, expired or signed with another key. *)
Variable verify : string -> Settled JwtPayload Js.Error.

(** [this.jwtService.sign(payload, { expiresIn })] *)
Variable sign : JwtPayload -> option string -> Settled string Js.Error.

(** [user.validatePassword(password)], a method of the entity class, which
    is not among the sources: kept as the comparison it stands for. *)
Variable validatePassword : UserService.User -> string -> bool.

(** A repository call inside these methods. *)
Definition repo {A} (call : UserService.Task A) : Task A :=
  fun w =>
    match call w with
    | (Fulfilled a, w1) => (Fulfilled a, w1)
    | (Rejected t, w1) => (Rejected (Service t), w1)
    end.

(** A call on the [JwtService]. *)
Definition jwt {A} (result : Settled A Js.Error) : Task A :=
  fun w =>
    match result with
    | Fulfilled a => (Fulfilled a, w)
    | Rejected error => (Rejected (Service (Nest.Plain error)), w)
    end.

Definition login (loginDto : LoginDto) : Task AuthResponseDto :=
  found <- repo (UserService.findOneByEmail db (l_email loginDto)) ;;
  match found with
  | None => throw (UnauthorizedException "Invalid credentials")
  | Some user =>
      if negb (validatePassword user (l_password loginDto))
      then throw (UnauthorizedException "Invalid credentials")
      else if negb (UserService.isActive user)
      then throw (UnauthorizedException "User account is deactivated")
      else
        let payload := {| sub := UserService.id user;
                          p_email := UserService.email user;
                          p_role := UserService.role user |} in
        accessToken <- jwt (sign payload None) ;;
        refreshToken_ <- jwt (sign payload (Some "7d")) ;;
        ret {| a_user := UserService.mapToResponseDto user;
               a_accessToken := accessToken;
               a_refreshToken := refreshToken_ |}
  end.

Definition validateToken (token : string) : Task UserService.UserResponseDto :=
  tryCatch
    (payload <- jwt (verify token) ;;
     found <- repo (UserQueries.findOneById db (sub payload)) ;;
     match found with
     | None => throw (UnauthorizedException "Invalid token")
     | Some user =>
         if negb (UserService.isActive user)
         then throw (UnauthorizedException "Invalid token")
         else ret (UserService.mapToResponseDto user)
     end)
    (fun error => throw (UnauthorizedException "Invalid token")).

Definition refreshToken (refreshToken_ : string) : Task AuthResponseDto :=
  tryCatch
    (payload <- jwt (verify refreshToken_) ;;
     found <- repo (UserQueries.findOneById db (sub payload)) ;;
     match found with
     | None => throw (UnauthorizedException "Invalid refresh token")
     | Some user =>
         if negb (UserService.isActive user)
         then throw (UnauthorizedException "Invalid refresh token")
         else
           let newPayload := {| sub := UserService.id user;
                                p_email := UserService.email user;
                                p_role := UserService.role user |} in
           accessToken <- jwt (sign newPayload None) ;;
           newRefreshToken <- jwt (sign newPayload (Some "7d")) ;;
           ret {| a_user := UserService.mapToResponseDto user;
                  a_accessToken := accessToken;
                  a_refreshToken := newRefreshToken |}
     end)
    (fun error => throw (UnauthorizedException "Invalid refresh token")).

End Service.

(** A stored account, a world that holds it, and a token service whose
    tokens are the subject with the lifetime appended. *)
Definition grace (active : bool) : UserService.User :=
  {| UserService.id := "u7"; UserService.firstName := "Grace";
     UserService.lastName := "Hopper"; UserService.email := "grace@example.com";
     UserService.password := "$2b$10$hash"; UserService.role := UserService.MANAGER;
     UserService.isActive := active;
     UserService.createdAt := "2024-01-01T00:00:00.000Z";
     UserService.updatedAt := "2024-01-01T00:00:00.000Z" |}.

Definition holding (user : UserService.User) : UserService.World :=
  {| UserService.users := [user]; UserService.nextId := 8; UserService.dbCalls := 0;
     UserService.emitCalls := 0; UserService.published := [];
     UserService.now := "2024-03-03T00:00:00.000Z" |}.

Definition signer (payload : JwtPayload) (expiresIn : option string)
  : Settled string Js.Error :=
  Fulfilled (sub payload ++ "." ++ orDefault "1h" expiresIn).

Definition verifier (token : string) : Settled JwtPayload Js.Error :=
  if (token =? "u7.1h")%string
  then Fulfilled {| sub := "u7"; p_email := "grace@example.com";
                    p_role := UserService.MANAGER |}
  else Rejected {| Js.message := "jwt malformed" |}.

End Auth.

(** ** Creation, update and deletion of rows, with their events *)

Module Lifecycle.

Definition USER_UPDATED : string := "user.updated".
Definition USER_DELETED : string := "user.deleted".
Definition LEAD_DELETED : string := "lead.deleted".

Record UserUpdatedEvent : Type := {
  uu_userId : string;
  uu_email : option string;
  uu_firstName : option string;
  uu_lastName : option string;
  uu_role : option string;
  uu_timestamp : string
}.

Record UserDeletedEvent : Type := {
  ud_userId : string;
  ud_timestamp : string
}.

Record LeadCreatedEvent : Type := {
  lc_leadId : string;
  lc_firstName : string;
  lc_lastName : string;
  lc_email : string;
  lc_assignedUserId : option string;
  lc_source : string;
  lc_timestamp : string
}.

Record LeadDeletedEvent : Type := {
  ld_leadId : string;
  ld_timestamp : string
}.

Inductive Event : Type :=
| UserUpdated (e : UserUpdatedEvent)
| UserDeleted (e : UserDeletedEvent)
| LeadCreated (e : LeadCreatedEvent)
| LeadDeleted (e : LeadDeletedEvent).

(** A service's world together with the events of the kinds above that
    reached the broker. *)
Record Logged (W : Type) : Type := {
  store : W;
  outbox : list (string * Event)
}.
Arguments store {W} _.
Arguments outbox {W} _.

(** A step of the service on its own world. *)
Definition onStore {W E A} (step : Async W E A) : Async (Logged W) E A :=
  fun w =>
    let (result, s) := step (store w) in
    (result, {| store := s; outbox := outbox w |}).



Section Leads.

Variable db : nat -> option string.
Variable kafka : nat -> Nest.Emit.
Variable userSdk : nat -> string -> Settled UserService.UserResponseDto Js.Error.

(** The primary key the datastore generates in its [k]-th operation. *)
Variable newId : nat -> string.

Definition LeadTask := Async (Logged LeadService.World) Nest.Thrown.

(** [this.kafkaClient.emit(topic, event)] *)
Definition emitLead (topic : string) (event : Event) : LeadTask unit :=
  fun w =>
    let s := store w in
    let s1 :=
      {| LeadService.leads := LeadService.leads s;
         LeadService.dbCalls := LeadService.dbCalls s;
         LeadService.emitCalls := S (LeadService.emitCalls s);
         LeadService.published := LeadService.published s;
         LeadService.sdkCalls := LeadService.sdkCalls s;
         LeadService.now := LeadService.now s |} in
    match kafka (LeadService.emitCalls s) with
    | Nest.Delivered =>
        (Fulfilled tt, {| store := s1; outbox := outbox w ++ [(topic, event)] |})
    | Nest.LostLater => (Fulfilled tt, {| store := s1; outbox := outbox w |})
    | Nest.Throws reason =>
        (Rejected (Nest.Plain {| Js.message := reason |}),
         {| store := s1; outbox := outbox w |})
    end.



(** [this.leadRepository.remove(lead)]: the row with the entity's key
    goes. *)
Definition removeLead (lead : LeadService.Lead) : LeadService.Task unit :=
  fun w =>
    match db (LeadService.dbCalls w) with
    | Some reason =>
        (Rejected (Nest.Plain {| Js.message := reason |}), LeadService.touchDb w)
    | None =>
        (Fulfilled tt,
         {| LeadService.leads :=
              filter (fun l => negb (LeadService.id l =? LeadService.id lead)%string)
                     (LeadService.leads w);
            LeadService.dbCalls := S (LeadService.dbCalls w);
            LeadService.emitCalls := LeadService.emitCalls w;
            LeadService.published := LeadService.published w;
            LeadService.sdkCalls := LeadService.sdkCalls w;
            LeadService.now := LeadService.now w |})
    end.


Definition deleteLead (id_ : string) : LeadTask unit :=
  found <- onStore (LeadService.findOne db id_) ;;
  match found with
  | None => throw (Nest.NotFoundException "Lead not found")
  | Some lead =>
      onStore (removeLead lead) ;;
      timestamp <- gets (fun w => LeadService.now (store w)) ;;
      emitLead LEAD_DELETED
        (LeadDeleted {| ld_leadId := id_; ld_timestamp := timestamp |})
  end.

End Leads.

Record UpdateUserDto : Type := {
  u_firstName : option string;
  u_lastName : option string;
  u_email : option string;
  u_role : option UserService.UserRole
}.

(** [Object.assign(user, updateUserDto)]: the fields the request carries
    overwrite the entity's. *)
Definition assignUser (user : UserService.User) (dto : UpdateUserDto) : UserService.User :=
  {| UserService.id := UserService.id user;
     UserService.firstName := orDefault (UserService.firstName user) (u_firstName dto);
     UserService.lastName := orDefault (UserService.lastName user) (u_lastName dto);
     UserService.email := orDefault (UserService.email user) (u_email dto);
     UserService.password := UserService.password user;
     UserService.role := orDefault (UserService.role user) (u_role dto);
     UserService.isActive := UserService.isActive user;
     UserService.createdAt := UserService.createdAt user;
     UserService.updatedAt := UserService.updatedAt user |}.

Section Users.

Variable db : nat -> option string.
Variable kafka : nat -> Nest.Emit.

(** The row the datastore keeps and returns for a saved entity: what the
    update hooks and generated columns of the entity class, which is not
    among the sources, make of it. *)
Variable persisted : UserService.User -> UserService.World -> UserService.User.

Definition UserTask := Async (Logged UserService.World) Nest.Thrown.

(** [this.kafkaClient.emit(topic, event)] *)
Definition emitUser (topic : string) (event : Event) : UserTask unit :=
  fun w =>
    let s := store w in
    let s1 :=
      {| UserService.users := UserService.users s;
         UserService.nextId := UserService.nextId s;
         UserService.dbCalls := UserService.dbCalls s;
         UserService.emitCalls := S (UserService.emitCalls s);
         UserService.published := UserService.published s;
         UserService.now := UserService.now s |} in
    match kafka (UserService.emitCalls s) with
    | Nest.Delivered =>
        (Fulfilled tt, {| store := s1; outbox := outbox w ++ [(topic, event)] |})
    | Nest.LostLater => (Fulfilled tt, {| store := s1; outbox := outbox w |})
    | Nest.Throws reason =>
        (Rejected (Nest.Plain {| Js.message := reason |}),
         {| store := s1; outbox := outbox w |})
    end.

(** [this.userRepository.remove(user)] *)
Definition removeUser (user : UserService.User) : UserService.Task unit :=
  fun w =>
    match db (UserService.dbCalls w) with
    | Some reason =>
        (Rejected (Nest.Plain {| Js.message := reason |}), UserService.touchDb w)
    | None =>
        (Fulfilled tt,
         {| UserService.users :=
              filter (fun u => negb (UserService.id u =? UserService.id user)%string)
                     (UserService.users w);
            UserService.nextId := UserService.nextId w;
            UserService.dbCalls := S (UserService.dbCalls w);
            UserService.emitCalls := UserService.emitCalls w;
            UserService.published := UserService.published w;
            UserService.now := UserService.now w |})
    end.

(** [this.userRepository.save(user)] for a loaded entity: the row with
    the entity's key is replaced. *)
Definition saveUser (user : UserService.User) : UserService.Task UserService.User :=
  fun w =>
    match db (UserService.dbCalls w) with
    | Some reason =>
        (Rejected (Nest.Plain {| Js.message := reason |}), UserService.touchDb w)
    | None =>
        let row := persisted user w in
        (Fulfilled row,
         {| UserService.users :=
              map (fun u => if (UserService.id u =? UserService.id user)%string
                            then row else u)
                  (UserService.users w);
            UserService.nextId := UserService.nextId w;
            UserService.dbCalls := S (UserService.dbCalls w);
            UserService.emitCalls := UserService.emitCalls w;
            UserService.published := UserService.published w;
            UserService.now := UserService.now w |})
    end.

Definition updateUser (id_ : string) (updateUserDto : UpdateUserDto)
  : UserTask UserService.UserResponseDto :=
  found <- onStore (UserQueries.findOneById db id_) ;;
  match found with
  | None => throw (Nest.NotFoundException "User not found")
  | Some user =>
      (if LeadService.truthy (u_email updateUserDto)
          && negb (orDefault "" (u_email updateUserDto) =? UserService.email user)%string
       then
         existingUser <-
           onStore (UserService.findOneByEmail db (orDefault "" (u_email updateUserDto))) ;;
         match existingUser with
         | Some _ =>
             throw (Nest.ConflictException "User with this email already exists")
         | None => ret tt
         end
       else ret tt) ;;
      updatedUser <- onStore (saveUser (assignUser user updateUserDto)) ;;
      timestamp <- gets (fun w => UserService.now (store w)) ;;
      emitUser USER_UPDATED
        (UserUpdated
           {| uu_userId := UserService.id updatedUser;
              uu_email := u_email updateUserDto;
              uu_firstName := u_firstName updateUserDto;
              uu_lastName := u_lastName updateUserDto;
              uu_role := option_map UserService.roleValue (u_role updateUserDto);
              uu_timestamp := timestamp |}) ;;
      ret (UserService.mapToResponseDto updatedUser)
  end.

Definition deleteUser (id_ : string) : UserTask unit :=
  found <- onStore (UserQueries.findOneById db id_) ;;
  match found with
  | None => throw (Nest.NotFoundException "User not found")
  | Some user =>
      onStore (removeUser user) ;;
      timestamp <- gets (fun w => UserService.now (store w)) ;;
      emitUser USER_DELETED
        (UserDeleted {| ud_userId := id_; ud_timestamp := timestamp |})
  end.

End Users.

(** A service's world with nothing sent yet. *)
Definition quiet {W} (s : W) : Logged W := {| store := s; outbox := [] |}.

(** An update that moves a user to another address, and a datastore that
    stores entities as they are but for the update timestamp. *)
Definition moving (address : string) : UpdateUserDto :=
  {| u_firstName := None; u_lastName := None; u_email := Some address; u_role := None |}.

Definition stampedUser (user : UserService.User) (w : UserService.World)
  : UserService.User :=
  {| UserService.id := UserService.id user;
     UserService.firstName := UserService.firstName user;
     UserService.lastName := UserService.lastName user;
     UserService.email := UserService.email user;
     UserService.password := UserService.password user;
     UserService.role := UserService.role user;
     UserService.isActive := UserService.isActive user;
     UserService.createdAt := UserService.createdAt user;
     UserService.updatedAt := UserService.now w |}.

(** Two stored accounts. *)
Definition heidi : UserService.User :=
  {| UserService.id := "u8"; UserService.firstName := "Heidi";
     UserService.lastName := "Lamarr"; UserService.email := "heidi@example.com";
     UserService.password := "$2b$10$other"; UserService.role := UserService.SALES_REP;
     UserService.isActive := true;
     UserService.createdAt := "2024-01-02T00:00:00.000Z";
     UserService.updatedAt := "2024-01-02T00:00:00.000Z" |}.

Definition twoUsers : UserService.World :=
  {| UserService.users := [Auth.grace true; heidi]; UserService.nextId := 9;
     UserService.dbCalls := 0; UserService.emitCalls := 0; UserService.published := [];
     UserService.now := "2024-03-03T00:00:00.000Z" |}.


End Lifecycle.

(** * Part II: properties *)

Lemma uuid_inj (m n : nat) : Js.uuid m = Js.uuid n -> m = n.
Proof.
  unfold Js.uuid. intros H.
  apply (f_equal NilEmpty.uint_of_string) in H.
  rewrite !NilEmpty.usu in H.
  injection H as H. now apply Unsigned.to_uint_inj.
Qed.

Example replace_first_only : Js.replace "/a/b" "/" "" = "a/b"%string.
Proof. reflexivity. Qed.

Example replace_absent : Js.replace "abc" "/x" "" = "abc"%string.
Proof. reflexivity. Qed.

Example replace_in_the_middle : Js.replace "/l1/assign" "/assign" "" = "/l1"%string.
Proof. reflexivity. Qed.

Example includes_in_the_middle : Js.includes "/l1/status" "/status" = true.
Proof. reflexivity. Qed.

Example startsWith_is_anchored : Js.startsWith "/x/email/a" "/email/" = false.
Proof. reflexivity. Qed.

(** ** The address pattern *)

Section RegexTheory.

Import EmailRegex.










End RegexTheory.

(** The address pattern on the specification's examples and their
    neighbours. *)
Example email_pattern_accepts :
  map NotificationService.isValidEmail ["a@b.com"; "test@example.com"; "a@b.c.d"; "a.b@c.d"]
  = [true; true; true; true].
Proof. vm_compute. reflexivity. Qed.

Example email_pattern_rejects :
  map NotificationService.isValidEmail
    ["not-an-email"; "invalid-email"; "a@b"; "@b.c"; "a@.c"; "a@b."; "a@@b.c"; "a b@c.d"]
  = [false; false; false; false; false; false; false; false].
Proof. vm_compute. reflexivity. Qed.

(** ** The retry loop *)

Section RetryLoop.

Import HttpClient.

Variable server : nat -> Request -> Settled AxiosResponse AxiosError.
Variable this : HttpClient.

Lemma retryRequest_unfold (requestFn : Task AxiosResponse) (retryCount : Z) (w : Net) :
  retryRequest this requestFn retryCount w =
  match requestFn w with
  | (Fulfilled r, w1) => (Fulfilled r, w1)
  | (Rejected error, w1) =>
      if (retryCount <? maxRetries this) && shouldRetry error
      then retryRequest this requestFn (retryCount + 1) (snd (delay (retryDelay this) w1))
      else (Rejected error, w1)
  end.
Proof.
  funelim (retryRequest this requestFn retryCount w);
    match goal with H : requestFn _ = _ |- _ => rewrite H end;
    try match goal with H : (_ && _)%bool = _ |- _ => rewrite H end;
    reflexivity.
Qed.

Lemma retryRequest_run (request : Request) (n : nat) :
  forall (retryCount : Z) (w : Net) (requestFn : Task AxiosResponse),
    (forall w', requestFn w' =
       (server (calls w') request,
        {| calls := S (calls w'); trace := trace w' ++ [Sent (calls w') request] |})) ->
    (forall k, (k < n)%nat ->
       exists error, server (calls w + k)%nat request = Rejected error /\
                     shouldRetry error = true /\
                     retryCount + Z.of_nat k < maxRetries this) ->
    stops this (retryCount + Z.of_nat n) (server (calls w + n)%nat request) ->
    retryRequest this requestFn retryCount w =
    (server (calls w + n)%nat request,
     {| calls := S (calls w + n);
        trace := trace w ++ retryTrace (retryDelay this) request (calls w) n |}).
Proof.
  induction n as [|n IH]; intros retryCount w requestFn Hfn Hfail Hstop.
  - rewrite retryRequest_unfold, Hfn. rewrite Nat.add_0_r, Z.add_0_r in *.
    destruct (server (calls w) request) as [r|error]; simpl in *.
    + reflexivity.
    + now rewrite Hstop.
  - rewrite retryRequest_unfold, Hfn.
    destruct (Hfail 0%nat ltac:(lia)) as (error & Hs & Hr & Hlt).
    rewrite Nat.add_0_r in Hs. rewrite Hs, Hr.
    replace (retryCount <? maxRetries this) with true
      by (symmetry; apply Z.ltb_lt; lia).
    cbn [andb delay modify snd calls trace].
    rewrite (IH (retryCount + 1)); cbn [calls trace].
    + replace (S (calls w) + n)%nat with (calls w + S n)%nat by lia.
      rewrite <- !app_assoc. reflexivity.
    + exact Hfn.
    + intros k Hk. replace (S (calls w) + k)%nat with (calls w + S k)%nat by lia.
      destruct (Hfail (S k) ltac:(lia)) as (e & He & Hre & Hlt').
      exists e. repeat split; [exact He|exact Hre|lia].
    + replace (S (calls w) + n)%nat with (calls w + S n)%nat by lia.
      replace (retryCount + 1 + Z.of_nat n) with (retryCount + Z.of_nat (S n)) by lia.
      exact Hstop.
Qed.

(** Every run has such a description: the loop stops at the first attempt
    that [stops], at the latest when the budget is spent. *)
Lemma retryRequest_stops_somewhere (request : Request) (budget : nat) :
  forall (retryCount : Z) (first : nat),
    maxRetries this - retryCount <= Z.of_nat budget ->
    exists n,
      (forall k, (k < n)%nat ->
         exists error, server (first + k)%nat request = Rejected error /\
                       shouldRetry error = true /\
                       retryCount + Z.of_nat k < maxRetries this) /\
      stops this (retryCount + Z.of_nat n) (server (first + n)%nat request).
Proof.
  induction budget as [|b IH]; intros retryCount first Hb.
  - exists 0%nat. split; [intros k Hk; lia|].
    rewrite Nat.add_0_r, Z.add_0_r.
    destruct (server first request); simpl; [exact I|].
    replace (retryCount <? maxRetries this) with false; [reflexivity|].
    symmetry. apply Z.ltb_ge. lia.
  - destruct (server first request) as [r|error] eqn:Hs.
    + exists 0%nat. split; [intros k Hk; lia|].
      now rewrite Nat.add_0_r, Hs.
    + destruct ((retryCount <? maxRetries this) && shouldRetry error) eqn:Hc.
      * apply andb_prop in Hc. destruct Hc as [Hlt Hr]. apply Z.ltb_lt in Hlt.
        destruct (IH (retryCount + 1) (S first) ltac:(lia)) as (n & Hpre & Hstop).
        exists (S n). split.
        -- intros [|k] Hk.
           ++ exists error. rewrite Nat.add_0_r. repeat split; [exact Hs|exact Hr|lia].
           ++ destruct (Hpre k ltac:(lia)) as (e & He & Hre & Hlt').
              exists e. replace (first + S k)%nat with (S first + k)%nat by lia.
              repeat split; [exact He|exact Hre|lia].
        -- replace (first + S n)%nat with (S first + n)%nat by lia.
           replace (retryCount + Z.of_nat (S n)) with (retryCount + 1 + Z.of_nat n) by lia.
           exact Hstop.
      * exists 0%nat. split; [intros k Hk; lia|].
        rewrite Nat.add_0_r, Z.add_0_r, Hs. exact Hc.
Qed.

Lemma attempts_retryTrace (ms : Z) (request : Request) (n : nat) :
  forall first, attempts (retryTrace ms request first n) = S n.
Proof.
  induction n as [|n IH]; intros first; [reflexivity|].
  unfold attempts in *. simpl. now rewrite IH.
Qed.

Lemma waits_retryTrace (ms : Z) (request : Request) (n : nat) :
  forall first, waits (retryTrace ms request first n) = repeat ms n.
Proof.
  induction n as [|n IH]; intros first; [reflexivity|].
  simpl. now rewrite IH.
Qed.

Lemma transient_shouldRetry (error : AxiosError) :
  transient error -> shouldRetry error = true.
Proof.
  unfold transient, shouldRetry. intros [H|(r & H & Hlo & Hhi)]; rewrite H; [reflexivity|].
  simpl. replace (500 <=? status r) with true by (symmetry; apply Z.leb_le; lia).
  replace (status r <? 600) with true by (symmetry; apply Z.ltb_lt; lia).
  reflexivity.
Qed.


(** The public methods run the loop from [retryCount = 0] and hand back
    the body of the response, or the rejection as it is. *)
Lemma call_run (verb : Verb) (url : string) (body config : Js.Value) (w : Net) (n : nat) :
  let request := requestOf this verb url (sentBody verb body) config in
  (forall k, (k < n)%nat ->
     exists error, server (calls w + k)%nat request = Rejected error /\
                   shouldRetry error = true /\
                   Z.of_nat k < maxRetries this) ->
  stops this (Z.of_nat n) (server (calls w + n)%nat request) ->
  call server this verb url body config w =
  (outcome (server (calls w + n)%nat request),
   {| calls := S (calls w + n);
      trace := trace w ++ retryTrace (retryDelay this) request (calls w) n |}).
Proof.
  intros request Hfail Hstop.
  assert (Hrun : forall requestFn,
    (forall w', requestFn w' =
       (server (calls w') request,
        {| calls := S (calls w'); trace := trace w' ++ [Sent (calls w') request] |})) ->
    bind (retryRequest this requestFn 0) (fun response => ret (data response)) w =
    (outcome (server (calls w + n)%nat request),
     {| calls := S (calls w + n);
        trace := trace w ++ retryTrace (retryDelay this) request (calls w) n |})).
  { intros requestFn Hfn. unfold bind.
    rewrite (@retryRequest_run request n 0 w requestFn Hfn Hfail Hstop).
    destruct (server (calls w + n)%nat request); reflexivity. }
  destruct verb; apply Hrun; intros w'; reflexivity.
Qed.

End RetryLoop.




(** C2.  When every attempt fails with a retryable failure (no response,
    or a response with status 500-599), the call makes exactly
    [maxRetries + 1] attempts, waits [retryDelay] between each two
    consecutive attempts and nowhere else, and rejects with the error
    object of the last attempt itself. *)
Theorem exhausted_retries_reject_with_last_error :
  forall (server : nat -> HttpClient.Request ->
                   Settled HttpClient.AxiosResponse HttpClient.AxiosError)
         (this : HttpClient.HttpClient) (verb : HttpClient.Verb) (url : string)
         (body config : Js.Value) (w : HttpClient.Net),
  let request :=
    HttpClient.requestOf this verb url (HttpClient.sentBody verb body) config in
  let n := Z.to_nat (HttpClient.maxRetries this) in
  0 <= HttpClient.maxRetries this ->
  (forall k, exists error,
     server (HttpClient.calls w + k)%nat request = Rejected error /\
     HttpClient.transient error) ->
  exists last added,
    server (HttpClient.calls w + n)%nat request = Rejected last /\
    HttpClient.call server this verb url body config w =
    (Rejected last,
     {| HttpClient.calls := S (HttpClient.calls w + n);
        HttpClient.trace := HttpClient.trace w ++ added |}) /\
    added = HttpClient.retryTrace (HttpClient.retryDelay this) request (HttpClient.calls w) n /\
    Z.of_nat (HttpClient.attempts added) = HttpClient.maxRetries this + 1 /\
    HttpClient.waits added = repeat (HttpClient.retryDelay this) n.
Proof.
  intros server this verb url body config w request n Hmax Hall.
  destruct (Hall n) as (last & Hlast & _).
  exists last, (HttpClient.retryTrace (HttpClient.retryDelay this) request (HttpClient.calls w) n).
  split; [exact Hlast|]. split; [|split; [reflexivity|split]].
  - pose proof (@call_run server this verb url body config w n) as Hrun.
    cbv zeta in Hrun. fold request in Hrun. rewrite Hlast in Hrun. apply Hrun.
    + intros k Hk. destruct (Hall k) as (e & He & Ht).
      exists e. repeat split; [exact He|now apply transient_shouldRetry|lia].
    + simpl. replace (Z.of_nat n <? HttpClient.maxRetries this) with false; [reflexivity|].
      symmetry. apply Z.ltb_ge. lia.
  - rewrite attempts_retryTrace. lia.
  - apply waits_retryTrace.
Qed.

Lemma exhausted_retries_reject_with_last_error_witness :
  exists last added,
    HttpClient.unreachable 3%nat
      (HttpClient.requestOf HttpClient.userClient HttpClient.GET "/users/7"
         Js.Undefined Js.Undefined) = Rejected last /\
    HttpClient.call HttpClient.unreachable HttpClient.userClient HttpClient.GET
      "/users/7" Js.Undefined Js.Undefined HttpClient.startNet =
    (Rejected last, {| HttpClient.calls := 4; HttpClient.trace := added |}) /\
    added = HttpClient.retryTrace 1000
              (HttpClient.requestOf HttpClient.userClient HttpClient.GET "/users/7"
                 Js.Undefined Js.Undefined) 0 3 /\
    Z.of_nat (HttpClient.attempts added) = 4 /\
    HttpClient.waits added = [1000; 1000; 1000].
Proof.
  apply (exhausted_retries_reject_with_last_error HttpClient.unreachable
           HttpClient.userClient HttpClient.GET "/users/7" Js.Undefined Js.Undefined
           HttpClient.startNet).
  - simpl. lia.
  - intros k. eexists. split; [reflexivity|]. left. reflexivity.
Defined.

(** C3.  When the first [n] attempts fail with server-error responses,
    [n] is at most [maxRetries], and the next attempt is answered without
    error, the call returns the decoded body of that answer after [n + 1]
    attempts and [n] waits of [retryDelay].  At [maxRetries = 3],
    [retryDelay = 1000] and the peer 503, 503, 503, 200 this is four
    attempts, success, and three waits (the witness below). *)
Theorem recovers_after_server_errors :
  forall (server : nat -> HttpClient.Request ->
                   Settled HttpClient.AxiosResponse HttpClient.AxiosError)
         (this : HttpClient.HttpClient) (verb : HttpClient.Verb) (url : string)
         (body config : Js.Value) (w : HttpClient.Net) (n : nat)
         (success : HttpClient.AxiosResponse),
  let request :=
    HttpClient.requestOf this verb url (HttpClient.sentBody verb body) config in
  Z.of_nat n <= HttpClient.maxRetries this ->
  (forall k, (k < n)%nat ->
     exists error,
       server (HttpClient.calls w + k)%nat request = Rejected error /\
       HttpClient.serverError error) ->
  server (HttpClient.calls w + n)%nat request = Fulfilled success ->
  exists added,
    HttpClient.call server this verb url body config w =
    (Fulfilled (HttpClient.data success),
     {| HttpClient.calls := S (HttpClient.calls w + n);
        HttpClient.trace := HttpClient.trace w ++ added |}) /\
    added = HttpClient.retryTrace (HttpClient.retryDelay this) request (HttpClient.calls w) n /\
    HttpClient.attempts added = S n /\
    HttpClient.waits added = repeat (HttpClient.retryDelay this) n.
Proof.
  intros server this verb url body config w n success request Hle Hfail Hok.
  exists (HttpClient.retryTrace (HttpClient.retryDelay this) request (HttpClient.calls w) n).
  split; [|split; [reflexivity|split]].
  - pose proof (@call_run server this verb url body config w n) as Hrun.
    cbv zeta in Hrun. fold request in Hrun. rewrite Hok in Hrun. apply Hrun.
    + intros k Hk. destruct (Hfail k Hk) as (e & He & Hse).
      exists e. repeat split; [exact He| |lia].
      apply transient_shouldRetry. right. exact Hse.
    + exact I.
  - apply attempts_retryTrace.
  - apply waits_retryTrace.
Qed.

Lemma recovers_after_server_errors_witness :
  exists added,
    HttpClient.call HttpClient.recovering HttpClient.userClient HttpClient.GET
      "/users/7" Js.Undefined Js.Undefined HttpClient.startNet =
    (Fulfilled (Js.Str "ok"), {| HttpClient.calls := 4; HttpClient.trace := added |}) /\
    added = HttpClient.retryTrace 1000
              (HttpClient.requestOf HttpClient.userClient HttpClient.GET "/users/7"
                 Js.Undefined Js.Undefined) 0 3 /\
    HttpClient.attempts added = 4%nat /\
    HttpClient.waits added = [1000; 1000; 1000].
Proof.
  apply (recovers_after_server_errors HttpClient.recovering HttpClient.userClient
           HttpClient.GET "/users/7" Js.Undefined Js.Undefined HttpClient.startNet 3
           {| HttpClient.status := 200; HttpClient.data := Js.Str "ok" |}).
  - simpl. lia.
  - intros k Hk.
    exists {| HttpClient.message := "Request failed";
              HttpClient.code := Some "ERR_BAD_RESPONSE";
              HttpClient.response :=
                Some {| HttpClient.status := 503; HttpClient.data := Js.Null |} |}.
    split.
    + destruct k as [|[|[|k]]]; [reflexivity | reflexivity | reflexivity | lia].
    + eexists. split; [reflexivity|]. simpl. lia.
  - reflexivity.
Defined.

(** ** The notification pipeline *)

Section Pipeline.

Import NotificationService.

Variable smtp : nat -> MailOptions -> option string.
Variable db : nat -> option string.
Variable EMAIL_FROM_NAME : option string.
Variable SMTP_USER : option string.

#[local] Abbreviation sendWelcome := (sendWelcomeEmail smtp EMAIL_FROM_NAME SMTP_USER).
#[local] Abbreviation process := (processUserCreatedEvent smtp db EMAIL_FROM_NAME SMTP_USER).

Lemma validate_keeps_world (event : UserCreatedEventDto) (w : World) :
  snd (validateUserCreatedEvent event w) = w.
Proof.
  unfold validateUserCreatedEvent.
  destruct (falsy _ || falsy _ || falsy _ || falsy _ || falsy _); [reflexivity|].
  destruct (negb _); reflexivity.
Qed.

Lemma sendWelcome_keeps_store (event : UserCreatedEventDto) (w : World) :
  table (snd (sendWelcome event w)) = table w /\
  nextId (snd (sendWelcome event w)) = nextId w /\
  saveCalls (snd (sendWelcome event w)) = saveCalls w /\
  now (snd (sendWelcome event w)) = now w.
Proof.
  unfold sendWelcomeEmail, EmailService_sendWelcomeEmail, sendEmail,
    tryCatch, sendMail, throw.
  destruct (smtp _ _); cbn; auto.
Qed.

(** The whole behaviour of one invocation whose [save] commits. *)
Lemma process_commits (event : UserCreatedEventDto) (w : World) :
  db (saveCalls w) = None ->
  process event w =
  match validateUserCreatedEvent event w with
  | (Rejected error, _) => (Rejected error, committed (failedRecord event error) w)
  | (Fulfilled _, _) =>
      match sendWelcome event w with
      | (Rejected error, w1) => (Rejected error, committed (failedRecord event error) w1)
      | (Fulfilled _, w1) => (Fulfilled tt, committed (sentRecord event) w1)
      end
  end.
Proof.
  intros Hdb.
  pose proof (validate_keeps_world event w) as Hv.
  pose proof (sendWelcome_keeps_store event w) as (_ & _ & Hs & _).
  unfold processUserCreatedEvent, createNotificationRecord, tryCatch, bind, save.
  destruct (validateUserCreatedEvent event w) as [[[]|error] w0]; cbn in Hv; subst w0.
  - destruct (sendWelcome event w) as [[[]|error] w1]; cbn in Hs |- *;
      rewrite Hs, Hdb; reflexivity.
  - rewrite Hdb. reflexivity.
Qed.

Lemma validate_error_nonempty (event : UserCreatedEventDto) (w : World) (error : Js.Error) :
  fst (validateUserCreatedEvent event w) = Rejected error ->
  Js.message error <> EmptyString.
Proof.
  unfold validateUserCreatedEvent.
  destruct (falsy _ || falsy _ || falsy _ || falsy _ || falsy _).
  - cbn. intros [= <-]. discriminate.
  - destruct (negb _); cbn; [|discriminate]. intros [= <-]. discriminate.
Qed.

Lemma sendWelcome_error_nonempty (event : UserCreatedEventDto) (w : World) (error : Js.Error) :
  fst (sendWelcome event w) = Rejected error ->
  Js.message error <> EmptyString.
Proof.
  unfold sendWelcomeEmail, EmailService_sendWelcomeEmail, sendEmail,
    tryCatch, sendMail, throw.
  destruct (smtp _ _); cbn; [|discriminate]. intros [= <-]. discriminate.
Qed.


Lemma sendWelcome_withTable (event : UserCreatedEventDto) (rows : list Notification)
      (w : World) :
  sendWelcome event (withTable rows w) =
  (fst (sendWelcome event w), withTable rows (snd (sendWelcome event w))).
Proof.
  unfold sendWelcomeEmail, EmailService_sendWelcomeEmail, sendEmail,
    tryCatch, sendMail, throw, withTable.
  cbn. destruct (smtp _ _); reflexivity.
Qed.

Lemma validate_withTable (event : UserCreatedEventDto) (rows : list Notification)
      (w : World) :
  fst (validateUserCreatedEvent event (withTable rows w)) =
  fst (validateUserCreatedEvent event w).
Proof.
  unfold validateUserCreatedEvent.
  destruct (falsy _ || falsy _ || falsy _ || falsy _ || falsy _); [reflexivity|].
  destruct (negb _); reflexivity.
Qed.

(** One invocation whose [save] commits appends one row, whose content
    does not depend on the rows already stored. *)
Lemma process_adds_one (event : UserCreatedEventDto) (w : World) :
  db (saveCalls w) = None ->
  exists r,
    table (snd (process event w)) = (table w ++ [r])%list /\
    id r = Js.uuid (nextId w) /\
    nextId (snd (process event w)) = S (nextId w) /\
    saveCalls (snd (process event w)) = S (saveCalls w) /\
    recipientId r = userId event /\
    status r = statusFor (fst (process event w)) /\
    forall rows,
      fst (process event (withTable rows w)) = fst (process event w) /\
      table (snd (process event (withTable rows w))) = (rows ++ [r])%list.
Proof.
  intros Hdb.
  pose proof (sendWelcome_keeps_store event w) as (Ht & Hn & Hs & _).
  pose proof (validate_keeps_world event w) as Hw.
  assert (Hrows : forall rows,
    process event (withTable rows w) =
    match validateUserCreatedEvent event w with
    | (Rejected error, _) =>
        (Rejected error, committed (failedRecord event error) (withTable rows w))
    | (Fulfilled _, _) =>
        match sendWelcome event w with
        | (Rejected error, w1) =>
            (Rejected error, committed (failedRecord event error) (withTable rows w1))
        | (Fulfilled _, w1) =>
            (Fulfilled tt, committed (sentRecord event) (withTable rows w1))
        end
    end).
  { intros rows. rewrite process_commits by exact Hdb.
    pose proof (validate_withTable event rows w) as Hv.
    rewrite sendWelcome_withTable.
    destruct (validateUserCreatedEvent event (withTable rows w)) as [o1 x1].
    destruct (validateUserCreatedEvent event w) as [o2 x2].
    cbn in Hv. subst o2. destruct o1 as [[]|e]; [|reflexivity].
    destruct (sendWelcome event w) as [[[]|e] w1]; reflexivity. }
  rewrite (process_commits event w Hdb). setoid_rewrite Hrows.
  destruct (validateUserCreatedEvent event w) as [[[]|e] w0]; cbn in Hw; subst w0.
  - destruct (sendWelcome event w) as [[[]|e] w1]; cbn in Ht, Hn, Hs |- *.
    + exists (inserted (sentRecord event) w1). cbn. rewrite Ht, Hn, Hs.
      repeat split; reflexivity.
    + exists (inserted (failedRecord event e) w1). cbn. rewrite Ht, Hn, Hs.
      repeat split; reflexivity.
  - exists (inserted (failedRecord event e) w). cbn.
    repeat split; reflexivity.
Qed.

End Pipeline.

(** C5.  An event that passes validation and whose welcome e-mail is
    accepted leaves exactly one new record: status Sent, type email,
    recipient the event's userId, title "Welcome to MiniCRM!", a message
    built from the event's firstName and role, no error detail; and the
    invocation returns normally.  (The datastore commits the save.) *)
Theorem accepted_event_is_recorded_sent :
  forall (smtp : nat -> NotificationService.MailOptions -> option string)
         (db : nat -> option string) (EMAIL_FROM_NAME SMTP_USER : option string)
         (event : NotificationService.UserCreatedEventDto)
         (w : NotificationService.World),
  fst (NotificationService.validateUserCreatedEvent event w) = Fulfilled tt ->
  fst (NotificationService.sendWelcomeEmail smtp EMAIL_FROM_NAME SMTP_USER event w)
    = Fulfilled tt ->
  db (NotificationService.saveCalls w) = None ->
  exists r w',
    NotificationService.processUserCreatedEvent smtp db EMAIL_FROM_NAME SMTP_USER event w
      = (Fulfilled tt, w') /\
    NotificationService.table w' = (NotificationService.table w ++ [r])%list /\
    NotificationService.status r = NotificationService.SENT /\
    NotificationService.type r = NotificationService.EMAIL /\
    NotificationService.recipientId r = NotificationService.userId event /\
    NotificationService.title r = "Welcome to MiniCRM!" /\
    NotificationService.message r =
      "Welcome " ++ NotificationService.firstName event
      ++ "! Your account has been created with role: "
      ++ NotificationService.role event /\
    NotificationService.errorMessage r = None.
Proof.
  intros smtp db FROM USER event w Hv Hs Hdb.
  pose proof (sendWelcome_keeps_store smtp FROM USER event w) as (Ht & _).
  rewrite (process_commits smtp db FROM USER event w Hdb).
  destruct (NotificationService.validateUserCreatedEvent event w) as [[[]|e] w0];
    [|discriminate Hv].
  destruct (NotificationService.sendWelcomeEmail smtp FROM USER event w) as [[[]|e] w1];
    [|discriminate Hs].
  cbn in Ht.
  exists (NotificationService.inserted (NotificationService.sentRecord event) w1),
         (NotificationService.committed (NotificationService.sentRecord event) w1).
  cbn. rewrite Ht. repeat split; reflexivity.
Qed.

Lemma accepted_event_is_recorded_sent_witness :
  exists r w',
    NotificationService.processUserCreatedEvent (fun _ _ => None) (fun _ => None)
      None (Some "crm@example.com") NotificationService.jo NotificationService.emptyWorld
      = (Fulfilled tt, w') /\
    NotificationService.table w' = ([] ++ [r])%list /\
    NotificationService.status r = NotificationService.SENT /\
    NotificationService.type r = NotificationService.EMAIL /\
    NotificationService.recipientId r = "u1" /\
    NotificationService.title r = "Welcome to MiniCRM!" /\
    NotificationService.message r =
      "Welcome " ++ "Jo" ++ "! Your account has been created with role: " ++ "sales_rep" /\
    NotificationService.errorMessage r = None.
Proof.
  apply (accepted_event_is_recorded_sent (fun _ _ => None) (fun _ => None)
           None (Some "crm@example.com") NotificationService.jo
           NotificationService.emptyWorld).
  - vm_compute. reflexivity.
  - vm_compute. reflexivity.
  - reflexivity.
Defined.

(** C4.  When validation fails, or validation passes and the welcome
    e-mail fails, the invocation ends as "write the Failed record, then
    throw the error it caught": exactly one record is added, with status
    Failed and the caught error's non-empty message as its detail, the
    record is in the table when the rejection reaches the caller, and the
    rejection is the original error.  (The datastore commits the save.) *)
Theorem failed_event_is_recorded_then_raised :
  forall (smtp : nat -> NotificationService.MailOptions -> option string)
         (db : nat -> option string) (EMAIL_FROM_NAME SMTP_USER : option string)
         (event : NotificationService.UserCreatedEventDto)
         (w : NotificationService.World) (error : Js.Error),
  fst (NotificationService.validateUserCreatedEvent event w) = Rejected error \/
  (fst (NotificationService.validateUserCreatedEvent event w) = Fulfilled tt /\
   fst (NotificationService.sendWelcomeEmail smtp EMAIL_FROM_NAME SMTP_USER event w)
     = Rejected error) ->
  db (NotificationService.saveCalls w) = None ->
  exists r w1 w',
    NotificationService.processUserCreatedEvent smtp db EMAIL_FROM_NAME SMTP_USER event w
      = (Rejected error, w') /\
    (NotificationService.createNotificationRecord db
       (NotificationService.failedRecord event error) ;;
     (throw error : NotificationService.Task unit)) w1
      = (Rejected error, w') /\
    NotificationService.table w1 = NotificationService.table w /\
    NotificationService.table w' = (NotificationService.table w ++ [r])%list /\
    NotificationService.saveCalls w' = S (NotificationService.saveCalls w) /\
    NotificationService.status r = NotificationService.FAILED /\
    NotificationService.errorMessage r = Some (Js.message error) /\
    Js.message error <> EmptyString.
Proof.
  intros smtp db FROM USER event w error Hfail Hdb.
  pose proof (sendWelcome_keeps_store smtp FROM USER event w) as (Ht & _ & Hs & _).
  pose proof (validate_keeps_world event w) as Hw.
  pose proof (validate_error_nonempty event w) as Hne1.
  pose proof (sendWelcome_error_nonempty smtp FROM USER event w) as Hne2.
  rewrite (process_commits smtp db FROM USER event w Hdb).
  destruct (NotificationService.validateUserCreatedEvent event w) as [[[]|e] w0];
    cbn in Hw; subst w0.
  - destruct Hfail as [Hv|[_ Hm]]; [discriminate Hv|].
    destruct (NotificationService.sendWelcomeEmail smtp FROM USER event w) as [[[]|e] w1];
      [discriminate Hm|].
    cbn in Hm, Ht, Hs. injection Hm as ->.
    exists (NotificationService.inserted (NotificationService.failedRecord event error) w1),
           w1,
           (NotificationService.committed (NotificationService.failedRecord event error) w1).
    unfold NotificationService.createNotificationRecord, NotificationService.save, bind.
    rewrite Hs, Hdb. cbn. rewrite Ht, Hs.
    repeat split; try reflexivity. apply Hne2. reflexivity.
  - destruct Hfail as [Hv|[Hv _]]; [|discriminate Hv].
    cbn in Hv. injection Hv as ->.
    exists (NotificationService.inserted (NotificationService.failedRecord event error) w),
           w,
           (NotificationService.committed (NotificationService.failedRecord event error) w).
    unfold NotificationService.createNotificationRecord, NotificationService.save, bind.
    rewrite Hdb. cbn.
    repeat split; try reflexivity. apply Hne1. reflexivity.
Qed.

Lemma failed_event_is_recorded_then_raised_witness :
  exists r w1 w',
    NotificationService.processUserCreatedEvent
      (fun _ _ => Some "connect ECONNREFUSED") (fun _ => None)
      None (Some "crm@example.com") NotificationService.jo NotificationService.emptyWorld
      = (Rejected {| Js.message := "Email sending failed: connect ECONNREFUSED" |}, w') /\
    (NotificationService.createNotificationRecord (fun _ => None)
       (NotificationService.failedRecord NotificationService.jo
          {| Js.message := "Email sending failed: connect ECONNREFUSED" |}) ;;
     (throw {| Js.message := "Email sending failed: connect ECONNREFUSED" |}
        : NotificationService.Task unit)) w1
      = (Rejected {| Js.message := "Email sending failed: connect ECONNREFUSED" |}, w') /\
    NotificationService.table w1 = [] /\
    NotificationService.table w' = ([] ++ [r])%list /\
    NotificationService.saveCalls w' = 1%nat /\
    NotificationService.status r = NotificationService.FAILED /\
    NotificationService.errorMessage r
      = Some "Email sending failed: connect ECONNREFUSED" /\
    "Email sending failed: connect ECONNREFUSED" <> EmptyString.
Proof.
  apply (failed_event_is_recorded_then_raised
           (fun _ _ => Some "connect ECONNREFUSED") (fun _ => None)
           None (Some "crm@example.com") NotificationService.jo
           NotificationService.emptyWorld
           {| Js.message := "Email sending failed: connect ECONNREFUSED" |}).
  - right. split; vm_compute; reflexivity.
  - reflexivity.
Defined.

(** C6.  An event with every required field present whose e-mail address
    does not match the address pattern is rejected by validation with
    "Invalid email format: <address>"; nothing is handed to the mail
    transport, and exactly one record is added, with status Failed and that
    message as its error detail.  (The datastore commits the save.) *)
Theorem invalid_email_short_circuits :
  forall (smtp : nat -> NotificationService.MailOptions -> option string)
         (db : nat -> option string) (EMAIL_FROM_NAME SMTP_USER : option string)
         (event : NotificationService.UserCreatedEventDto)
         (w : NotificationService.World),
  NotificationService.userId event <> EmptyString ->
  NotificationService.email event <> EmptyString ->
  NotificationService.firstName event <> EmptyString ->
  NotificationService.lastName event <> EmptyString ->
  NotificationService.role event <> EmptyString ->
  NotificationService.isValidEmail (NotificationService.email event) = false ->
  db (NotificationService.saveCalls w) = None ->
  exists r w',
    NotificationService.processUserCreatedEvent smtp db EMAIL_FROM_NAME SMTP_USER event w
      = (Rejected {| Js.message :=
                       "Invalid email format: " ++ NotificationService.email event |},
         w') /\
    NotificationService.handedToTransport w' = NotificationService.handedToTransport w /\
    NotificationService.table w' = (NotificationService.table w ++ [r])%list /\
    NotificationService.status r = NotificationService.FAILED /\
    NotificationService.errorMessage r
      = Some ("Invalid email format: " ++ NotificationService.email event).
Proof.
  intros smtp db FROM USER event w Hu He Hf Hl Hr Hbad Hdb.
  rewrite (process_commits smtp db FROM USER event w Hdb).
  unfold NotificationService.validateUserCreatedEvent, NotificationService.falsy.
  apply String.eqb_neq in Hu, He, Hf, Hl, Hr.
  rewrite Hu, He, Hf, Hl, Hr, Hbad. cbn.
  eexists. eexists. repeat split; reflexivity.
Qed.

Lemma invalid_email_short_circuits_witness :
  exists r w',
    NotificationService.processUserCreatedEvent (fun _ _ => None) (fun _ => None)
      None (Some "crm@example.com") NotificationService.notAnEmail
      NotificationService.emptyWorld
      = (Rejected {| Js.message := "Invalid email format: " ++ "not-an-email" |}, w') /\
    NotificationService.handedToTransport w' = [] /\
    NotificationService.table w' = ([] ++ [r])%list /\
    NotificationService.status r = NotificationService.FAILED /\
    NotificationService.errorMessage r
      = Some ("Invalid email format: " ++ "not-an-email").
Proof.
  apply (invalid_email_short_circuits (fun _ _ => None) (fun _ => None)
           None (Some "crm@example.com") NotificationService.notAnEmail
           NotificationService.emptyWorld).
  - discriminate.
  - discriminate.
  - discriminate.
  - discriminate.
  - discriminate.
  - vm_compute. reflexivity.
  - reflexivity.
Defined.

(** C9.  Processing the same event twice in a row adds two records, one
    per invocation, with different keys; each carries the event's userId
    and the status of its own invocation's outcome, whatever that outcome
    is; and an invocation does the same and writes the same record over
    any other stored rows, so nothing stored is consulted.  (The datastore
    commits every save.) *)
Theorem redelivery_adds_a_second_record :
  forall (smtp : nat -> NotificationService.MailOptions -> option string)
         (db : nat -> option string) (EMAIL_FROM_NAME SMTP_USER : option string)
         (event : NotificationService.UserCreatedEventDto)
         (w : NotificationService.World),
  (forall k, db k = None) ->
  let process :=
    NotificationService.processUserCreatedEvent smtp db EMAIL_FROM_NAME SMTP_USER event in
  let first := process w in
  let second := process (snd first) in
  exists r1 r2,
    NotificationService.table (snd first) = (NotificationService.table w ++ [r1])%list /\
    NotificationService.table (snd second) = (NotificationService.table w ++ [r1; r2])%list /\
    NotificationService.id r1 <> NotificationService.id r2 /\
    NotificationService.recipientId r1 = NotificationService.userId event /\
    NotificationService.recipientId r2 = NotificationService.userId event /\
    NotificationService.status r1 = NotificationService.statusFor (fst first) /\
    NotificationService.status r2 = NotificationService.statusFor (fst second) /\
    (forall rows,
       fst (process (NotificationService.withTable rows w)) = fst first /\
       NotificationService.table (snd (process (NotificationService.withTable rows w)))
         = (rows ++ [r1])%list) /\
    (forall rows,
       fst (process (NotificationService.withTable rows (snd first))) = fst second /\
       NotificationService.table
         (snd (process (NotificationService.withTable rows (snd first))))
         = (rows ++ [r2])%list).
Proof.
  intros smtp db FROM USER event w Hdb process first second.
  destruct (process_adds_one smtp db FROM USER event w (Hdb _))
    as (r1 & Ht1 & Hid1 & Hn1 & _ & Hrc1 & Hst1 & Hrows1).
  destruct (process_adds_one smtp db FROM USER event (snd first) (Hdb _))
    as (r2 & Ht2 & Hid2 & _ & _ & Hrc2 & Hst2 & Hrows2).
  exists r1, r2. fold process in Ht1, Hn1, Hst1, Hrows1, Ht2, Hid2, Hst2, Hrows2.
  fold first in Ht1, Hn1, Hst1, Hrows1, Ht2, Hid2, Hst2, Hrows2.
  fold second in Ht2, Hst2, Hrows2.
  repeat split; try assumption; try apply Hrows1; try apply Hrows2.
  - rewrite Ht2, Ht1, <- app_assoc. reflexivity.
  - rewrite Hid1, Hid2, Hn1. intros Heq. apply uuid_inj in Heq. lia.
Qed.

Lemma redelivery_adds_a_second_record_witness :
  exists r1 r2,
    NotificationService.table
      (snd (NotificationService.processUserCreatedEvent
              (fun k _ => if (k =? 0)%nat then Some "greylisted" else None)
              (fun _ => None) None (Some "crm@example.com") NotificationService.jo
              (snd (NotificationService.processUserCreatedEvent
                      (fun k _ => if (k =? 0)%nat then Some "greylisted" else None)
                      (fun _ => None) None (Some "crm@example.com")
                      NotificationService.jo NotificationService.emptyWorld))))
    = [r1; r2] /\
    NotificationService.id r1 <> NotificationService.id r2 /\
    NotificationService.status r1 = NotificationService.FAILED /\
    NotificationService.status r2 = NotificationService.SENT.
Proof.
  destruct (redelivery_adds_a_second_record
              (fun k _ => if (k =? 0)%nat then Some "greylisted" else None)
              (fun _ => None) None (Some "crm@example.com")
              NotificationService.jo NotificationService.emptyWorld
              (fun k => eq_refl))
    as (r1 & r2 & _ & Ht & Hid & _ & _ & Hs1 & Hs2 & _).
  exists r1, r2. split; [exact Ht|]. split; [exact Hid|]. split; [exact Hs1|exact Hs2].
Defined.

(** When the datastore refuses the save of the Sent record, the catch
    block runs although the e-mail went out: the audit row says Failed and
    the caller sees the datastore's error. *)
Example refused_sent_record_is_retried_as_failed :
  let run :=
    NotificationService.processUserCreatedEvent (fun _ _ => None)
      (fun k => if (k =? 0)%nat then Some "deadlock detected" else None)
      None (Some "crm@example.com") NotificationService.jo
      NotificationService.emptyWorld in
  fst run = Rejected {| Js.message := "deadlock detected" |} /\
  map NotificationService.status (NotificationService.table (snd run))
    = [NotificationService.FAILED] /\
  List.length (NotificationService.handedToTransport (snd run)) = 1%nat.
Proof. vm_compute. repeat split. Qed.

(** ** user-service *)



(** ** lead-service *)

Section LeadWrites.

Import LeadService.

Variable db : nat -> option string.
Variable kafka : nat -> Nest.Emit.
Variable userSdk : nat -> string -> Settled UserService.UserResponseDto Js.Error.

Lemma mapToResponseDto_published (lead : Lead) (w : World) :
  published (snd (mapToResponseDto userSdk lead w)) = published w.
Proof.
  unfold mapToResponseDto, bind, tryCatch, getUserById, ret.
  destruct (truthy (assignedUserId lead)); [|reflexivity].
  destruct (userSdk _ _); reflexivity.
Qed.

Lemma emit_published (topic : string) (event : Kafka.KafkaEvent) (w : World) :
  published (snd (emit kafka topic event w)) = published w \/
  published (snd (emit kafka topic event w)) = (published w ++ [(topic, event)])%list.
Proof.
  unfold emit. destruct (kafka _); cbn; rewrite ?app_nil_r; auto.
Qed.

(** [updateLead] guards both derived events: a request that leaves the
    status and the assignee as they are publishes nothing but
    lead.updated, whatever the broker client does. *)
Lemma updateLead_noop_publishes_no_derived_event
      (leadId : string) (lead : Lead) (dto : UpdateLeadDto) (w : World) :
  find (fun l => (id l =? leadId)%string) (leads w) = Some lead ->
  db (dbCalls w) = None ->
  db (S (dbCalls w)) = None ->
  u_status dto = None \/ u_status dto = Some (status lead) ->
  truthy (u_assignedUserId dto) = false \/ u_assignedUserId dto = assignedUserId lead ->
  forall topic event,
    In (topic, event) (published (snd (updateLead db kafka userSdk leadId dto w))) ->
    In (topic, event) (published w) \/ topic = Kafka.LEAD_UPDATED.
Proof.
  intros Hfind Hdb1 Hdb2 Hst Has topic event.
  assert (Hs : match u_status dto with
               | Some newStatus => negb (statusEqb newStatus (status lead))
               | None => false
               end = false).
  { destruct Hst as [->| ->]; [reflexivity|].
    unfold statusEqb. now rewrite String.eqb_refl. }
  assert (Ha : truthy (u_assignedUserId dto)
               && differs (u_assignedUserId dto) (assignedUserId lead) = false).
  { destruct Has as [->| ->]; [reflexivity|].
    destruct (assignedUserId lead) as [u|]; cbn; [|reflexivity].
    rewrite String.eqb_refl. apply andb_false_r. }
  unfold updateLead, bind, findOne. rewrite Hdb1, Hfind.
  unfold save. cbn [touchDb dbCalls]. rewrite Hdb2.
  unfold gets. rewrite Ha.
  set (w2 := {| leads := _ |}).
  set (ev := Kafka.LeadUpdated _).
  pose proof (emit_published Kafka.LEAD_UPDATED ev w2) as Hemit.
  assert (Hend : forall w3,
            published w3 = published w2 \/
            published w3 = (published w2 ++ [(Kafka.LEAD_UPDATED, ev)])%list ->
            In (topic, event) (published w3) ->
            In (topic, event) (published w) \/ topic = Kafka.LEAD_UPDATED).
  { intros w3 [Hp|Hp] Hin; rewrite Hp in Hin; subst w2; cbn [published touchDb] in Hin.
    - now left.
    - apply in_app_or in Hin. destruct Hin as [Hin|[Hin|[]]]; [now left|].
      injection Hin as <- _. now right. }
  destruct (emit kafka Kafka.LEAD_UPDATED ev w2) as [[[]|e] w3]; cbn [snd] in Hemit.
  - destruct (u_status dto) as [newStatus|]; [rewrite Hs|]; cbn [ret];
      rewrite mapToResponseDto_published; now apply Hend.
  - now apply Hend.
Qed.

(** C8 (what the code does where the claim fails).  The status a lead
    already has, set again through [updateLeadStatus], and the assignee a
    lead already has, set again through [assignLead]: each call publishes
    its derived event (lead.status_changed, lead.assigned) all the same,
    with equal previous and new values.  Only [updateLead] compares the
    new value with the previous one, see
    [updateLead_noop_publishes_no_derived_event]. *)
Theorem noop_status_and_assignment_still_publish
      (leadId : string) (lead : Lead) (w : World) :
  find (fun l => (id l =? leadId)%string) (leads w) = Some lead ->
  db (dbCalls w) = None ->
  db (S (dbCalls w)) = None ->
  kafka (emitCalls w) = Nest.Delivered ->
  published (snd (updateLeadStatus db kafka userSdk leadId (status lead) w)) =
    (published w ++
     [(Kafka.LEAD_STATUS_CHANGED,
       Kafka.LeadStatusChanged
         {| Kafka.ls_leadId := id lead;
            Kafka.ls_previousStatus := statusValue (status lead);
            Kafka.ls_newStatus := statusValue (status lead);
            Kafka.ls_userId := "system";
            Kafka.ls_timestamp := now w |})])%list /\
  forall userId user,
    assignedUserId lead = Some userId ->
    userSdk (sdkCalls w) userId = Fulfilled user ->
    published (snd (assignLead db kafka userSdk leadId userId w)) =
      (published w ++
       [(Kafka.LEAD_ASSIGNED,
         Kafka.LeadAssigned
           {| Kafka.la_leadId := id lead;
              Kafka.la_previousUserId := Some userId;
              Kafka.la_newUserId := userId;
              Kafka.la_timestamp := now w |})])%list.
Proof.
  intros Hfind Hdb1 Hdb2 Hk. split.
  - unfold updateLeadStatus, bind, findOne. rewrite Hdb1, Hfind.
    unfold save. cbn [touchDb dbCalls]. rewrite Hdb2.
    unfold gets, emit. cbn [emitCalls touchDb]. rewrite Hk.
    rewrite mapToResponseDto_published. reflexivity.
  - intros userId user Hassigned Hu.
    unfold assignLead, bind, findOne. rewrite Hdb1, Hfind.
    unfold tryCatch, bind, getUserById. cbn [touchDb sdkCalls]. rewrite Hu.
    unfold ret, save. cbn [dbCalls touchDb]. rewrite Hdb2.
    unfold gets, emit. cbn [emitCalls touchDb]. rewrite Hk.
    rewrite mapToResponseDto_published. cbn. rewrite Hassigned. reflexivity.
Qed.

End LeadWrites.

Lemma noop_status_and_assignment_still_publish_witness :
  LeadService.published
    (snd (LeadService.updateLeadStatus (fun _ => None) (fun _ => Nest.Delivered)
            (fun _ _ => Fulfilled LeadService.u1) "l1" LeadService.NEW
            LeadService.oneLead)) =
    [(Kafka.LEAD_STATUS_CHANGED,
      Kafka.LeadStatusChanged
        {| Kafka.ls_leadId := "l1"; Kafka.ls_previousStatus := "new";
           Kafka.ls_newStatus := "new"; Kafka.ls_userId := "system";
           Kafka.ls_timestamp := "2024-02-02T00:00:00.000Z" |})] /\
  LeadService.published
    (snd (LeadService.assignLead (fun _ => None) (fun _ => Nest.Delivered)
            (fun _ _ => Fulfilled LeadService.u1) "l1" "u1" LeadService.oneLead)) =
    [(Kafka.LEAD_ASSIGNED,
      Kafka.LeadAssigned
        {| Kafka.la_leadId := "l1"; Kafka.la_previousUserId := Some "u1";
           Kafka.la_newUserId := "u1";
           Kafka.la_timestamp := "2024-02-02T00:00:00.000Z" |})].
Proof.
  destruct (noop_status_and_assignment_still_publish (fun _ => None)
              (fun _ => Nest.Delivered) (fun _ _ => Fulfilled LeadService.u1)
              "l1" LeadService.acme LeadService.oneLead
              eq_refl eq_refl eq_refl eq_refl) as [Hstatus Hassign].
  split.
  - exact Hstatus.
  - exact (Hassign "u1" LeadService.u1 eq_refl eq_refl).
Defined.

(** The same two no-op values sent through [updateLead] publish
    lead.updated alone. *)
Example updateLead_noop_topics :
  LeadService.topics
    (LeadService.published
       (snd (LeadService.updateLead (fun _ => None) (fun _ => Nest.Delivered)
               (fun _ _ => Fulfilled LeadService.u1) "l1"
               (LeadService.setting (Some LeadService.NEW) (Some "u1"))
               LeadService.oneLead)))
  = ["lead.updated"].
Proof. vm_compute. reflexivity. Qed.

Example updateLead_change_topics :
  LeadService.topics
    (LeadService.published
       (snd (LeadService.updateLead (fun _ => None) (fun _ => Nest.Delivered)
               (fun _ _ => Fulfilled LeadService.u1) "l1"
               (LeadService.setting (Some LeadService.QUALIFIED) (Some "u2"))
               LeadService.oneLead)))
  = ["lead.updated"; "lead.status_changed"; "lead.assigned"].
Proof. vm_compute. reflexivity. Qed.

(** ** api-gateway *)

(** C10 (what the code does where the claim fails).  On the lead-service
    routes the inbound headers never reach the router: whatever headers a
    request carries, the routing result is the same as with none, and a
    forwarded call has no config at all, hence no Authorization header. *)
Theorem lead_routes_forward_no_credential :
  forall (req : Gateway.Request) (body : Js.Value),
    Gateway.routeLeadService req body =
    Gateway.routeLeadService
      {| Gateway.method := Gateway.method req; Gateway.req_url := Gateway.req_url req;
         Gateway.headers := Js.Undefined |} body /\
    match Gateway.routeLeadService req body with
    | Gateway.Forward call =>
        Gateway.config call = Js.Undefined /\
        Gateway.authorizationSent call = Js.Undefined
    | _ => True
    end.
Proof.
  intros req body. split; [reflexivity|].
  unfold Gateway.routeLeadService, Gateway.routeToLeadService, Gateway.member.
  repeat match goal with
         | |- context [if ?c then _ else _] => destruct c
         | |- context [match body with _ => _ end] => destruct body
         end; cbn; auto.
Qed.

(** The failing input of C10: a signed-in GET /leads/ goes out as a bare
    GET /leads. *)
Example signed_in_lead_listing_goes_out_bare :
  Gateway.routeLeadService (Gateway.signedIn "GET" "/leads/") Js.Undefined
  = Gateway.Forward
      {| Gateway.service := Gateway.LeadSvc; Gateway.verb := HttpClient.GET;
         Gateway.url := "/leads"; Gateway.body := Js.Undefined;
         Gateway.config := Js.Undefined |}.
Proof. reflexivity. Qed.

(** On the user-service GET routes the credential is handed over, but one
    level too deep: the router wraps it as [{ headers: { Authorization } }]
    and the SDK wraps that again as [{ headers }], so the call's config
    holds the credential while its [headers.Authorization] is undefined. *)
Lemma user_get_routes_nest_the_credential (path : string) (body : Js.Value) (cred : string) :
  cred <> EmptyString ->
  path <> "/auth/validate" ->
  exists call,
    Gateway.routeToUserService "GET" path body
      (Js.Obj [("authorization", Js.Str cred)]) = Gateway.Forward call /\
    Gateway.config call =
      Js.Obj [("headers", Js.Obj [("headers", Js.Obj [("Authorization", Js.Str cred)])])] /\
    Gateway.holds cred (Gateway.config call) = true /\
    Gateway.authorizationSent call = Js.Undefined.
Proof.
  intros Hcred Hpath.
  apply String.eqb_neq in Hcred, Hpath.
  unfold Gateway.routeToUserService. cbn. rewrite Hcred, Hpath. cbn.
  destruct (Js.startsWith path "/email/"); [|destruct (path =? "/")%string];
    eexists; (split; [reflexivity|]); cbn; rewrite String.eqb_refl; auto.
Qed.

(** The user-service routes other than GET forward no config either. *)
Lemma user_write_routes_forward_no_credential
      (method path : string) (body headers : Js.Value) (call : Gateway.HttpCall) :
  method <> "GET" ->
  Gateway.routeToUserService method path body headers = Gateway.Forward call ->
  Gateway.config call = Js.Undefined.
Proof.
  intros Hm. apply String.eqb_neq in Hm.
  unfold Gateway.routeToUserService, Gateway.member. rewrite Hm.
  repeat match goal with
         | |- context [if ?c then _ else _] => destruct c
         | |- context [match body with _ => _ end] => destruct body
         end; intros [= <-] || discriminate; reflexivity.
Qed.

Example signed_in_user_lookup_nests_the_credential :
  exists call,
    Gateway.routeUserService (Gateway.signedIn "GET" "/users/42") Js.Undefined
      = Gateway.Forward call /\
    Gateway.url call = "/users/42" /\
    Gateway.holds Gateway.bearer (Gateway.config call) = true /\
    Gateway.authorizationSent call = Js.Undefined.
Proof. eexists. repeat split. Qed.

(** The router's path arithmetic on the documented routes. *)
Example lead_assign_route :
  Gateway.routeLeadService (Gateway.signedIn "PATCH" "/leads/l1/assign")
    (Js.Obj [("assignedUserId", Js.Str "u1")])
  = Gateway.Forward
      {| Gateway.service := Gateway.LeadSvc; Gateway.verb := HttpClient.PATCH;
         Gateway.url := "/leads/l1/assign";
         Gateway.body := Js.Obj [("assignedUserId", Js.Str "u1")];
         Gateway.config := Js.Undefined |}.
Proof. reflexivity. Qed.

Example lead_status_route_without_body :
  Gateway.routeLeadService (Gateway.signedIn "PATCH" "/leads/l1/status") Js.Undefined
  = Gateway.Raise 500 "Cannot read properties of undefined (reading 'status')".
Proof. reflexivity. Qed.

Example unknown_method_is_refused :
  Gateway.routeUserService (Gateway.signedIn "PUT" "/users/42") Js.Undefined
  = Gateway.Raise 405 "Method not allowed".
Proof. reflexivity. Qed.

(** * Part III: further properties of the code *)

(** ** The retry loop, for every peer *)

(** X1.  Whatever the peer does, a call is a run of [n] retried failures
    followed by one last attempt whose outcome is the call's outcome: [n]
    is at most [maxRetries] (and 0 when that is negative), every one of the
    [n] failures is one [shouldRetry] accepts, each retry re-sends the same
    request after one wait of exactly [retryDelay], and nothing is sent
    after the last attempt. *)
Theorem every_call_is_a_bounded_retry_run :
  forall (server : nat -> HttpClient.Request ->
                   Settled HttpClient.AxiosResponse HttpClient.AxiosError)
         (this : HttpClient.HttpClient) (verb : HttpClient.Verb) (url : string)
         (body config : Js.Value) (w : HttpClient.Net),
  exists n : nat,
    Z.of_nat n <= Z.max 0 (HttpClient.maxRetries this) /\
    (forall k, (k < n)%nat ->
       exists error,
         server (HttpClient.calls w + k)%nat
           (HttpClient.requestOf this verb url (HttpClient.sentBody verb body) config)
         = Rejected error /\
         HttpClient.shouldRetry error = true) /\
    HttpClient.call server this verb url body config w =
    (HttpClient.outcome
       (server (HttpClient.calls w + n)%nat
          (HttpClient.requestOf this verb url (HttpClient.sentBody verb body) config)),
     {| HttpClient.calls := S (HttpClient.calls w + n);
        HttpClient.trace :=
          HttpClient.trace w ++
          HttpClient.retryTrace (HttpClient.retryDelay this)
            (HttpClient.requestOf this verb url (HttpClient.sentBody verb body) config)
            (HttpClient.calls w) n |}) /\
    HttpClient.attempts
      (HttpClient.retryTrace (HttpClient.retryDelay this)
         (HttpClient.requestOf this verb url (HttpClient.sentBody verb body) config)
         (HttpClient.calls w) n) = S n /\
    HttpClient.waits
      (HttpClient.retryTrace (HttpClient.retryDelay this)
         (HttpClient.requestOf this verb url (HttpClient.sentBody verb body) config)
         (HttpClient.calls w) n) = repeat (HttpClient.retryDelay this) n.
Proof.
  intros server this verb url body config w.
  destruct (@retryRequest_stops_somewhere server this
              (HttpClient.requestOf this verb url (HttpClient.sentBody verb body) config)
              (Z.to_nat (HttpClient.maxRetries this)) 0 (HttpClient.calls w)
              ltac:(lia)) as (n & Hpre & Hstop).
  exists n. split; [|split; [|split; [|split]]].
  - destruct n as [|n]; [lia|].
    destruct (Hpre n ltac:(lia)) as (_ & _ & _ & Hlt). lia.
  - intros k Hk. destruct (Hpre k Hk) as (e & He & Hr & _). eauto.
  - apply call_run; [|exact Hstop].
    intros k Hk. destruct (Hpre k Hk) as (e & He & Hr & Hlt).
    exists e. repeat split; [exact He|exact Hr|lia].
  - apply attempts_retryTrace.
  - apply waits_retryTrace.
Qed.

(** X2.  With [maxRetries] zero or negative no failure is retried: the
    call is the single exchange, its outcome handed on as it is. *)
Theorem without_retry_budget_one_attempt :
  forall (server : nat -> HttpClient.Request ->
                   Settled HttpClient.AxiosResponse HttpClient.AxiosError)
         (this : HttpClient.HttpClient) (verb : HttpClient.Verb) (url : string)
         (body config : Js.Value) (w : HttpClient.Net),
  HttpClient.maxRetries this <= 0 ->
  HttpClient.call server this verb url body config w =
  (HttpClient.outcome
     (server (HttpClient.calls w)
        (HttpClient.requestOf this verb url (HttpClient.sentBody verb body) config)),
   {| HttpClient.calls := S (HttpClient.calls w);
      HttpClient.trace :=
        HttpClient.trace w ++
        [HttpClient.Sent (HttpClient.calls w)
           (HttpClient.requestOf this verb url (HttpClient.sentBody verb body) config)] |}).
Proof.
  intros server this verb url body config w Hmax.
  pose proof (@call_run server this verb url body config w 0) as Hrun.
  cbv zeta in Hrun. rewrite Nat.add_0_r in Hrun. apply Hrun.
  - intros k Hk. lia.
  - destruct (server _ _); simpl; [exact I|].
    replace (0 <? HttpClient.maxRetries this) with false; [reflexivity|].
    symmetry. apply Z.ltb_ge. lia.
Qed.

Lemma without_retry_budget_one_attempt_witness :
  HttpClient.call HttpClient.unreachable HttpClientCases.singleShot HttpClient.POST
    "/leads" (Js.Obj [("email", Js.Str "alice@company.com")]) Js.Undefined
    HttpClient.startNet =
  (HttpClient.outcome
     (HttpClient.unreachable 0%nat
        (HttpClient.requestOf HttpClientCases.singleShot HttpClient.POST "/leads"
           (Js.Obj [("email", Js.Str "alice@company.com")]) Js.Undefined)),
   {| HttpClient.calls := 1;
      HttpClient.trace :=
        [HttpClient.Sent 0
           (HttpClient.requestOf HttpClientCases.singleShot HttpClient.POST "/leads"
              (Js.Obj [("email", Js.Str "alice@company.com")]) Js.Undefined)] |}).
Proof.
  apply (without_retry_budget_one_attempt HttpClient.unreachable
           HttpClientCases.singleShot HttpClient.POST "/leads"
           (Js.Obj [("email", Js.Str "alice@company.com")]) Js.Undefined
           HttpClient.startNet).
  simpl. lia.
Defined.

(** ** The notification pipeline, for every datastore and transport *)

Section PipelineAnyStore.

Import NotificationService.

Variable smtp : nat -> MailOptions -> option string.
Variable db : nat -> option string.
Variable EMAIL_FROM_NAME : option string.
Variable SMTP_USER : option string.

#[local] Abbreviation sendWelcome' := (sendWelcomeEmail smtp EMAIL_FROM_NAME SMTP_USER).
#[local] Abbreviation process' := (processUserCreatedEvent smtp db EMAIL_FROM_NAME SMTP_USER).

Lemma sendWelcome_run (event : UserCreatedEventDto) (w : World) :
  sendWelcome' event w =
  (match smtp (List.length (handedToTransport w))
           (PipelineCases.welcomeMail EMAIL_FROM_NAME SMTP_USER event) with
   | None => Fulfilled tt
   | Some reason => Rejected {| Js.message := "Email sending failed: " ++ reason |}
   end,
   {| table := table w; nextId := nextId w; saveCalls := saveCalls w;
      handedToTransport :=
        handedToTransport w ++ [PipelineCases.welcomeMail EMAIL_FROM_NAME SMTP_USER event];
      now := now w |}).
Proof.
  unfold sendWelcomeEmail, EmailService_sendWelcomeEmail, sendEmail, tryCatch, sendMail,
    throw, PipelineCases.welcomeMail.
  cbn. destruct (smtp _ _); reflexivity.
Qed.

(** One invocation, whatever the datastore does. *)
Lemma process_cases (event : UserCreatedEventDto) (w : World) :
  process' event w =
  match validateUserCreatedEvent event w with
  | (Rejected error, _) => PipelineCases.caught db event error w
  | (Fulfilled _, _) =>
      match sendWelcome' event w with
      | (Rejected error, w1) => PipelineCases.caught db event error w1
      | (Fulfilled _, w1) =>
          match db (saveCalls w1) with
          | None => (Fulfilled tt, committed (sentRecord event) w1)
          | Some reason =>
              PipelineCases.caught db event {| Js.message := reason |}
                (PipelineCases.refused w1)
          end
      end
  end.
Proof.
  pose proof (validate_keeps_world event w) as Hv.
  unfold processUserCreatedEvent, createNotificationRecord, tryCatch, bind, save,
    PipelineCases.caught, PipelineCases.refused, throw, ret.
  destruct (validateUserCreatedEvent event w) as [[[]|error] w0]; cbn in Hv; subst w0.
  - destruct (sendWelcome' event w) as [[[]|error] w1].
    + destruct (db (saveCalls w1)); [|reflexivity].
      cbn. destruct (db (S (saveCalls w1))); reflexivity.
    + destruct (db (saveCalls w1)); reflexivity.
  - destruct (db (saveCalls w)); reflexivity.
Qed.

End PipelineAnyStore.

(** X3.  An event with any of userId, email, firstName, lastName or role
    empty is rejected with "User creation event missing required fields",
    whatever its e-mail address looks like: the address pattern is not
    consulted, nothing is handed to the mail transport, and (the datastore
    committing the save) exactly one Failed record carries that message. *)
Theorem missing_field_is_rejected_first :
  forall (smtp : nat -> NotificationService.MailOptions -> option string)
         (db : nat -> option string) (EMAIL_FROM_NAME SMTP_USER : option string)
         (event : NotificationService.UserCreatedEventDto)
         (w : NotificationService.World),
  NotificationService.userId event = EmptyString \/
  NotificationService.email event = EmptyString \/
  NotificationService.firstName event = EmptyString \/
  NotificationService.lastName event = EmptyString \/
  NotificationService.role event = EmptyString ->
  db (NotificationService.saveCalls w) = None ->
  exists r w',
    NotificationService.processUserCreatedEvent smtp db EMAIL_FROM_NAME SMTP_USER event w
      = (Rejected {| Js.message := "User creation event missing required fields" |}, w') /\
    NotificationService.handedToTransport w' = NotificationService.handedToTransport w /\
    NotificationService.table w' = (NotificationService.table w ++ [r])%list /\
    NotificationService.status r = NotificationService.FAILED /\
    NotificationService.errorMessage r
      = Some "User creation event missing required fields".
Proof.
  intros smtp db FROM USER event w Hmissing Hdb.
  rewrite (process_cases smtp db FROM USER event w).
  assert (Hv : NotificationService.validateUserCreatedEvent event w =
               (Rejected {| Js.message := "User creation event missing required fields" |},
                w)).
  { unfold NotificationService.validateUserCreatedEvent, NotificationService.falsy.
    destruct Hmissing as [H|[H|[H|[H|H]]]]; rewrite H; cbn;
      rewrite ?orb_true_r; reflexivity. }
  rewrite Hv. unfold PipelineCases.caught. rewrite Hdb.
  eexists. eexists. repeat split; reflexivity.
Qed.

Lemma missing_field_is_rejected_first_witness :
  exists r w',
    NotificationService.processUserCreatedEvent (fun _ _ => None) (fun _ => None)
      None (Some "crm@example.com") PipelineCases.noAddress
      NotificationService.emptyWorld
      = (Rejected {| Js.message := "User creation event missing required fields" |}, w') /\
    NotificationService.handedToTransport w' = [] /\
    NotificationService.table w' = ([] ++ [r])%list /\
    NotificationService.status r = NotificationService.FAILED /\
    NotificationService.errorMessage r
      = Some "User creation event missing required fields".
Proof.
  apply (missing_field_is_rejected_first (fun _ _ => None) (fun _ => None)
           None (Some "crm@example.com") PipelineCases.noAddress
           NotificationService.emptyWorld).
  - right. left. reflexivity.
  - reflexivity.
Defined.

(** X4.  [sendWelcomeEmail] hands exactly one mail to the transport, to
    the event's address, with the subject "Welcome to MiniCRM!" and the
    page filled from firstName and role, and touches nothing else.  It
    fulfils exactly when the transport accepts that mail; a transport error
    comes back as a new error whose message is "Email sending failed: "
    followed by the transport's own message. *)
Theorem welcome_mail_is_handed_over_once :
  forall (smtp : nat -> NotificationService.MailOptions -> option string)
         (EMAIL_FROM_NAME SMTP_USER : option string)
         (event : NotificationService.UserCreatedEventDto)
         (w : NotificationService.World),
  exists mail,
    NotificationService.handedToTransport
      (snd (NotificationService.sendWelcomeEmail smtp EMAIL_FROM_NAME SMTP_USER event w))
      = (NotificationService.handedToTransport w ++ [mail])%list /\
    NotificationService.to mail = NotificationService.email event /\
    NotificationService.subject mail = "Welcome to MiniCRM!" /\
    NotificationService.helloName (NotificationService.html mail)
      = NotificationService.firstName event /\
    NotificationService.withRole (NotificationService.html mail)
      = NotificationService.role event /\
    NotificationService.table
      (snd (NotificationService.sendWelcomeEmail smtp EMAIL_FROM_NAME SMTP_USER event w))
      = NotificationService.table w /\
    fst (NotificationService.sendWelcomeEmail smtp EMAIL_FROM_NAME SMTP_USER event w)
      = match smtp (List.length (NotificationService.handedToTransport w)) mail with
        | None => Fulfilled tt
        | Some reason =>
            Rejected {| Js.message := "Email sending failed: " ++ reason |}
        end.
Proof.
  intros smtp FROM USER event w.
  exists (PipelineCases.welcomeMail FROM USER event).
  rewrite sendWelcome_run. repeat split; reflexivity.
Qed.

(** X5.  Whatever the datastore and the transport do, one invocation of
    [processUserCreatedEvent] leaves the stored rows as they are and adds
    at most one, calls [save] at most twice, and hands at most one mail to
    the transport. *)
Theorem one_invocation_adds_at_most_one_row :
  forall (smtp : nat -> NotificationService.MailOptions -> option string)
         (db : nat -> option string) (EMAIL_FROM_NAME SMTP_USER : option string)
         (event : NotificationService.UserCreatedEventDto)
         (w : NotificationService.World),
  let w' :=
    snd (NotificationService.processUserCreatedEvent smtp db EMAIL_FROM_NAME SMTP_USER
           event w) in
  exists rows mails,
    NotificationService.table w' = (NotificationService.table w ++ rows)%list /\
    (List.length rows <= 1)%nat /\
    NotificationService.nextId w' = (NotificationService.nextId w + List.length rows)%nat /\
    (NotificationService.saveCalls w < NotificationService.saveCalls w'
     <= NotificationService.saveCalls w + 2)%nat /\
    NotificationService.handedToTransport w'
      = (NotificationService.handedToTransport w ++ mails)%list /\
    (List.length mails <= 1)%nat.
Proof.
  intros smtp db FROM USER event w w'. subst w'.
  pose proof (validate_keeps_world event w) as Hv.
  rewrite (process_cases smtp db FROM USER event w), sendWelcome_run.
  unfold PipelineCases.caught, PipelineCases.refused.
  destruct (NotificationService.validateUserCreatedEvent event w) as [[[]|e] w0];
    cbn in Hv; subst w0.
  - destruct (smtp _ _) as [refusal|]; cbn [NotificationService.saveCalls].
    + destruct (db (NotificationService.saveCalls w));
        [exists [], [PipelineCases.welcomeMail FROM USER event]
        |eexists [_], [PipelineCases.welcomeMail FROM USER event]];
        cbn; rewrite ?app_nil_r; repeat split; auto; lia.
    + destruct (db (NotificationService.saveCalls w)) as [reason|].
      * cbn. destruct (db (S (NotificationService.saveCalls w)));
          [exists [], [PipelineCases.welcomeMail FROM USER event]
          |eexists [_], [PipelineCases.welcomeMail FROM USER event]];
          cbn; rewrite ?app_nil_r; repeat split; auto; lia.
      * eexists [_], [PipelineCases.welcomeMail FROM USER event].
        cbn. repeat split; auto; lia.
  - destruct (db (NotificationService.saveCalls w));
      [exists [], []|eexists [_], []];
      cbn; rewrite ?app_nil_r; repeat split; auto; lia.
Qed.

(** X6.  [processUserCreatedEvent] never reports success without its
    effects: when it fulfils, the event passed validation, one mail to the
    event's address was handed to the transport and accepted, and the one
    row added is the Sent record of this event. *)
Theorem success_means_mail_sent_and_recorded :
  forall (smtp : nat -> NotificationService.MailOptions -> option string)
         (db : nat -> option string) (EMAIL_FROM_NAME SMTP_USER : option string)
         (event : NotificationService.UserCreatedEventDto)
         (w : NotificationService.World),
  fst (NotificationService.processUserCreatedEvent smtp db EMAIL_FROM_NAME SMTP_USER
         event w) = Fulfilled tt ->
  exists r mail,
    fst (NotificationService.validateUserCreatedEvent event w) = Fulfilled tt /\
    smtp (List.length (NotificationService.handedToTransport w)) mail = None /\
    NotificationService.to mail = NotificationService.email event /\
    NotificationService.handedToTransport
      (snd (NotificationService.processUserCreatedEvent smtp db EMAIL_FROM_NAME
              SMTP_USER event w))
      = (NotificationService.handedToTransport w ++ [mail])%list /\
    NotificationService.table
      (snd (NotificationService.processUserCreatedEvent smtp db EMAIL_FROM_NAME
              SMTP_USER event w))
      = (NotificationService.table w ++ [r])%list /\
    NotificationService.status r = NotificationService.SENT /\
    NotificationService.recipientId r = NotificationService.userId event /\
    NotificationService.errorMessage r = None.
Proof.
  intros smtp db FROM USER event w.
  pose proof (validate_keeps_world event w) as Hv.
  rewrite (process_cases smtp db FROM USER event w), sendWelcome_run.
  unfold PipelineCases.caught.
  destruct (NotificationService.validateUserCreatedEvent event w) as [[[]|e] w0];
    cbn in Hv; subst w0.
  - destruct (smtp _ _) as [reason|] eqn:Hsmtp; cbn [NotificationService.saveCalls].
    + destruct (db (NotificationService.saveCalls w)); discriminate.
    + destruct (db (NotificationService.saveCalls w)) as [reason|].
      * cbn. destruct (db (S (NotificationService.saveCalls w))); discriminate.
      * intros _. eexists. exists (PipelineCases.welcomeMail FROM USER event).
        cbn. repeat split; try reflexivity. exact Hsmtp.
  - destruct (db (NotificationService.saveCalls w)); discriminate.
Qed.

Lemma success_means_mail_sent_and_recorded_witness :
  exists r mail,
    fst (NotificationService.validateUserCreatedEvent NotificationService.jo
           NotificationService.emptyWorld) = Fulfilled tt /\
    (fun (_ : nat) (_ : NotificationService.MailOptions) => @None string) 0%nat mail
      = None /\
    NotificationService.to mail = "a@b.com" /\
    NotificationService.handedToTransport
      (snd (NotificationService.processUserCreatedEvent (fun _ _ => None)
              (fun _ => None) None (Some "crm@example.com") NotificationService.jo
              NotificationService.emptyWorld))
      = ([] ++ [mail])%list /\
    NotificationService.table
      (snd (NotificationService.processUserCreatedEvent (fun _ _ => None)
              (fun _ => None) None (Some "crm@example.com") NotificationService.jo
              NotificationService.emptyWorld))
      = ([] ++ [r])%list /\
    NotificationService.status r = NotificationService.SENT /\
    NotificationService.recipientId r = "u1" /\
    NotificationService.errorMessage r = None.
Proof.
  apply (success_means_mail_sent_and_recorded (fun _ _ => None) (fun _ => None)
           None (Some "crm@example.com") NotificationService.jo
           NotificationService.emptyWorld).
  vm_compute. reflexivity.
Defined.

(** X7.  When the save of the Failed record is itself refused, no audit
    row exists and the caller sees the datastore's error in place of the
    failure that was caught: the validation or mail error is lost. *)
Theorem refused_audit_write_masks_the_failure :
  forall (smtp : nat -> NotificationService.MailOptions -> option string)
         (db : nat -> option string) (EMAIL_FROM_NAME SMTP_USER : option string)
         (event : NotificationService.UserCreatedEventDto)
         (w : NotificationService.World) (error : Js.Error) (reason : string),
  fst (NotificationService.validateUserCreatedEvent event w) = Rejected error \/
  (fst (NotificationService.validateUserCreatedEvent event w) = Fulfilled tt /\
   fst (NotificationService.sendWelcomeEmail smtp EMAIL_FROM_NAME SMTP_USER event w)
     = Rejected error) ->
  db (NotificationService.saveCalls w) = Some reason ->
  fst (NotificationService.processUserCreatedEvent smtp db EMAIL_FROM_NAME SMTP_USER
         event w) = Rejected {| Js.message := reason |} /\
  NotificationService.table
    (snd (NotificationService.processUserCreatedEvent smtp db EMAIL_FROM_NAME SMTP_USER
            event w)) = NotificationService.table w.
Proof.
  intros smtp db FROM USER event w error reason Hfail Hdb.
  pose proof (validate_keeps_world event w) as Hv.
  rewrite (process_cases smtp db FROM USER event w).
  rewrite sendWelcome_run in *.
  unfold PipelineCases.caught.
  destruct (NotificationService.validateUserCreatedEvent event w) as [[[]|e] w0];
    cbn in Hv; subst w0.
  - destruct Hfail as [Hf|[_ Hf]]; [discriminate Hf|]. cbn [fst] in Hf.
    destruct (smtp _ _); [|discriminate Hf].
    cbn [NotificationService.saveCalls]. rewrite Hdb. split; reflexivity.
  - rewrite Hdb. split; reflexivity.
Qed.

Lemma refused_audit_write_masks_the_failure_witness :
  fst (NotificationService.processUserCreatedEvent (fun _ _ => None)
         (fun _ => Some "connection terminated") None (Some "crm@example.com")
         NotificationService.notAnEmail NotificationService.emptyWorld)
    = Rejected {| Js.message := "connection terminated" |} /\
  NotificationService.table
    (snd (NotificationService.processUserCreatedEvent (fun _ _ => None)
            (fun _ => Some "connection terminated") None (Some "crm@example.com")
            NotificationService.notAnEmail NotificationService.emptyWorld)) = [].
Proof.
  apply (refused_audit_write_masks_the_failure (fun _ _ => None)
           (fun _ => Some "connection terminated") None (Some "crm@example.com")
           NotificationService.notAnEmail NotificationService.emptyWorld
           {| Js.message := "Invalid email format: not-an-email" |}
           "connection terminated").
  - left. vm_compute. reflexivity.
  - reflexivity.
Defined.

(** X8.  The save of the Sent record sits inside the try block: when the
    datastore refuses it and commits the next save, the mail has gone out,
    yet the one row added says Failed, with the datastore's message as
    its error detail, and the caller sees that datastore error. *)
Theorem refused_sent_write_is_recorded_failed :
  forall (smtp : nat -> NotificationService.MailOptions -> option string)
         (db : nat -> option string) (EMAIL_FROM_NAME SMTP_USER : option string)
         (event : NotificationService.UserCreatedEventDto)
         (w : NotificationService.World) (reason : string),
  fst (NotificationService.validateUserCreatedEvent event w) = Fulfilled tt ->
  fst (NotificationService.sendWelcomeEmail smtp EMAIL_FROM_NAME SMTP_USER event w)
    = Fulfilled tt ->
  db (NotificationService.saveCalls w) = Some reason ->
  db (S (NotificationService.saveCalls w)) = None ->
  exists r mail,
    fst (NotificationService.processUserCreatedEvent smtp db EMAIL_FROM_NAME SMTP_USER
           event w) = Rejected {| Js.message := reason |} /\
    NotificationService.handedToTransport
      (snd (NotificationService.processUserCreatedEvent smtp db EMAIL_FROM_NAME
              SMTP_USER event w))
      = (NotificationService.handedToTransport w ++ [mail])%list /\
    NotificationService.table
      (snd (NotificationService.processUserCreatedEvent smtp db EMAIL_FROM_NAME
              SMTP_USER event w))
      = (NotificationService.table w ++ [r])%list /\
    NotificationService.status r = NotificationService.FAILED /\
    NotificationService.errorMessage r = Some reason.
Proof.
  intros smtp db FROM USER event w reason Hvalid Hmail Hdb1 Hdb2.
  pose proof (validate_keeps_world event w) as Hv.
  rewrite (process_cases smtp db FROM USER event w).
  rewrite sendWelcome_run in *.
  unfold PipelineCases.caught, PipelineCases.refused.
  destruct (NotificationService.validateUserCreatedEvent event w) as [[[]|e] w0];
    [|discriminate Hvalid].
  cbn [fst] in Hmail. destruct (smtp _ _); [discriminate Hmail|].
  cbn [NotificationService.saveCalls]. rewrite Hdb1.
  cbn [NotificationService.saveCalls]. rewrite Hdb2.
  eexists. exists (PipelineCases.welcomeMail FROM USER event).
  cbn. repeat split; reflexivity.
Qed.

Lemma refused_sent_write_is_recorded_failed_witness :
  exists r mail,
    fst (NotificationService.processUserCreatedEvent (fun _ _ => None)
           (fun k => if (k =? 0)%nat then Some "deadlock detected" else None)
           None (Some "crm@example.com") NotificationService.jo
           NotificationService.emptyWorld)
      = Rejected {| Js.message := "deadlock detected" |} /\
    NotificationService.handedToTransport
      (snd (NotificationService.processUserCreatedEvent (fun _ _ => None)
              (fun k => if (k =? 0)%nat then Some "deadlock detected" else None)
              None (Some "crm@example.com") NotificationService.jo
              NotificationService.emptyWorld))
      = ([] ++ [mail])%list /\
    NotificationService.table
      (snd (NotificationService.processUserCreatedEvent (fun _ _ => None)
              (fun k => if (k =? 0)%nat then Some "deadlock detected" else None)
              None (Some "crm@example.com") NotificationService.jo
              NotificationService.emptyWorld))
      = ([] ++ [r])%list /\
    NotificationService.status r = NotificationService.FAILED /\
    NotificationService.errorMessage r = Some "deadlock detected".
Proof.
  apply (refused_sent_write_is_recorded_failed (fun _ _ => None)
           (fun k => if (k =? 0)%nat then Some "deadlock detected" else None)
           None (Some "crm@example.com") NotificationService.jo
           NotificationService.emptyWorld "deadlock detected").
  - vm_compute. reflexivity.
  - vm_compute. reflexivity.
  - reflexivity.
  - reflexivity.
Defined.

(** ** user-service, beyond the publish failure *)

Section UserWrites.

Import UserService.

Variable db : nat -> option string.
Variable kafka : nat -> Nest.Emit.
Variable defaultIsActive : bool.
Variable storedPassword : string -> string.

#[local] Abbreviation create := (createUser db kafka defaultIsActive storedPassword).

Lemma find_email_none (e : string) (l : list User) :
  find (fun u => (email u =? e)%string) l = None -> ~ In e (map email l).
Proof.
  induction l as [|u l IH]; simpl; [intros _ []|].
  destruct (String.eqb_spec (email u) e) as [Heq|Hne]; [discriminate|].
  intros Hf [Hin|Hin]; [contradiction|now apply IH].
Qed.

(** The user the insert of [createUser] stores, and the event built from
    it. *)
Lemma createUser_cases (dto : CreateUserDto) (w : World) :
  let saved := created defaultIsActive storedPassword dto (touchDb w) in
  let event :=
    (Kafka.USER_CREATED,
     Kafka.UserCreated
       {| Kafka.uc_userId := id saved; Kafka.uc_email := email saved;
          Kafka.uc_firstName := firstName saved; Kafka.uc_lastName := lastName saved;
          Kafka.uc_role := roleValue (role saved); Kafka.uc_timestamp := now w |}) in
  (users (snd (create dto w)) = users w /\
   published (snd (create dto w)) = published w /\
   (exists t, fst (create dto w) = Rejected t)) \/
  (db (dbCalls w) = None /\ db (S (dbCalls w)) = None /\
   find (fun u => (email u =? dto_email dto)%string) (users w) = None /\
   fst (create dto w) = Fulfilled (mapToResponseDto saved) /\
   users (snd (create dto w)) = (users w ++ [saved])%list /\
   (published (snd (create dto w)) = published w \/
    published (snd (create dto w)) = (published w ++ [event])%list)).
Proof.
  intros saved event. subst saved event.
  unfold createUser, bind, findOneByEmail.
  destruct (db (dbCalls w)) as [reason|] eqn:Hdb1.
  - left. cbn. eauto.
  - destruct (find _ (users w)) as [u|] eqn:Hfind.
    + left. cbn. eauto.
    + unfold saveNew. cbn [touchDb dbCalls].
      destruct (db (S (dbCalls w))) as [reason|] eqn:Hdb2.
      * left. cbn. eauto.
      * right. unfold gets, tryCatch, emit, ret. cbn -[Js.uuid].
        destruct (kafka (emitCalls w)); cbn -[Js.uuid]; rewrite ?app_nil_r;
          repeat split; auto.
Qed.

End UserWrites.

(** X9.  [createUser] with an e-mail address that a stored user already
    has is refused with the conflict "User with this email already exists":
    no row is added, nothing is published, and the broker client is not
    called. *)
Theorem createUser_refuses_a_taken_email :
  forall (db : nat -> option string) (kafka : nat -> Nest.Emit)
         (defaultIsActive : bool) (storedPassword : string -> string)
         (dto : UserService.CreateUserDto) (w : UserService.World)
         (holder : UserService.User),
  In holder (UserService.users w) ->
  UserService.email holder = UserService.dto_email dto ->
  db (UserService.dbCalls w) = None ->
  UserService.createUser db kafka defaultIsActive storedPassword dto w =
  (Rejected (Nest.ConflictException "User with this email already exists"),
   UserService.touchDb w).
Proof.
  intros db kafka active stored dto w holder Hin Hemail Hdb.
  unfold UserService.createUser, bind, UserService.findOneByEmail. rewrite Hdb.
  destruct (find _ (UserService.users w)) as [u|] eqn:Hfind; [reflexivity|].
  exfalso. apply (find_email_none _ _ Hfind).
  rewrite <- Hemail. now apply in_map.
Qed.

Lemma createUser_refuses_a_taken_email_witness :
  UserService.createUser (fun _ => None) (fun _ => Nest.Delivered) true (fun p => p)
    UserService.ada
    (snd (UserService.createUser (fun _ => None) (fun _ => Nest.Delivered) true
            (fun p => p) UserService.ada UserService.emptyWorld)) =
  (Rejected (Nest.ConflictException "User with this email already exists"),
   UserService.touchDb
     (snd (UserService.createUser (fun _ => None) (fun _ => Nest.Delivered) true
             (fun p => p) UserService.ada UserService.emptyWorld))).
Proof.
  apply (createUser_refuses_a_taken_email (fun _ => None) (fun _ => Nest.Delivered)
           true (fun p => p) UserService.ada _
           (UserService.created true (fun p => p) UserService.ada
              (UserService.touchDb UserService.emptyWorld))).
  - vm_compute. left. reflexivity.
  - reflexivity.
  - reflexivity.
Defined.




Lemma find_last {A} (f : A -> bool) (l : list A) (x : A) :
  find f l = None -> f x = true -> find f (l ++ [x]) = Some x.
Proof.
  induction l as [|a l IH]; simpl; intros Hnone Hx.
  - now rewrite Hx.
  - destruct (f a); [discriminate|auto].
Qed.

Lemma find_none_iff {A} (f : A -> bool) (l : list A) :
  (forall a, In a l -> f a = false) -> find f l = None.
Proof.
  induction l as [|a l IH]; simpl; intros H; [reflexivity|].
  rewrite (H a (or_introl eq_refl)). apply IH. intros b Hb. apply H. now right.
Qed.

(** X12.  What [createUser] returned can be read back: on the world the
    creation left, [getUserByEmail] with the request's address returns the
    very DTO the creation returned, and so does [getUserById] with that
    DTO's id when the generated key was fresh. *)
Theorem created_user_can_be_read_back :
  forall (db : nat -> option string) (kafka : nat -> Nest.Emit)
         (defaultIsActive : bool) (storedPassword : string -> string)
         (dto : UserService.CreateUserDto) (w : UserService.World)
         (returned : UserService.UserResponseDto),
  let w1 := snd (UserService.createUser db kafka defaultIsActive storedPassword dto w) in
  fst (UserService.createUser db kafka defaultIsActive storedPassword dto w)
    = Fulfilled returned ->
  db (UserService.dbCalls w1) = None ->
  UserQueries.getUserByEmail db (UserService.dto_email dto) w1
    = (Fulfilled returned, UserService.touchDb w1) /\
  (UserQueries.nextKeyFresh w ->
   UserQueries.getUserById db (UserService.r_id returned) w1
     = (Fulfilled returned, UserService.touchDb w1)).
Proof.
  intros db kafka active stored dto w returned w1 Hok Hdb. subst w1.
  destruct (createUser_cases db kafka active stored dto w)
    as [(_ & _ & t & Ht)|(_ & _ & Hfree & Hf & Hu & _)].
  - rewrite Ht in Hok. discriminate.
  - rewrite Hf in Hok. injection Hok as <-. split.
    + unfold UserQueries.getUserByEmail, bind, UserService.findOneByEmail.
      rewrite Hdb, Hu, (find_last _ _ _ Hfree); [reflexivity|].
      cbn. apply String.eqb_refl.
    + intros Hfresh.
      unfold UserQueries.getUserById, bind, UserQueries.findOneById.
      rewrite Hdb, Hu, find_last; [reflexivity| |].
      * apply find_none_iff. intros u Hin. apply String.eqb_neq.
        cbn -[Js.uuid]. now apply Hfresh.
      * cbn -[Js.uuid]. apply String.eqb_refl.
Qed.

Lemma created_user_can_be_read_back_witness :
  UserQueries.getUserByEmail (fun _ => None) "ada@example.com"
    (snd (UserService.createUser (fun _ => None) (fun _ => Nest.Delivered) true
            (fun p => p) UserService.ada UserService.emptyWorld))
    = (Fulfilled
         (UserService.mapToResponseDto
            (UserService.created true (fun p => p) UserService.ada
               (UserService.touchDb UserService.emptyWorld))),
       UserService.touchDb
         (snd (UserService.createUser (fun _ => None) (fun _ => Nest.Delivered) true
                 (fun p => p) UserService.ada UserService.emptyWorld))) /\
  UserQueries.getUserById (fun _ => None) "0"
    (snd (UserService.createUser (fun _ => None) (fun _ => Nest.Delivered) true
            (fun p => p) UserService.ada UserService.emptyWorld))
    = (Fulfilled
         (UserService.mapToResponseDto
            (UserService.created true (fun p => p) UserService.ada
               (UserService.touchDb UserService.emptyWorld))),
       UserService.touchDb
         (snd (UserService.createUser (fun _ => None) (fun _ => Nest.Delivered) true
                 (fun p => p) UserService.ada UserService.emptyWorld))).
Proof.
  destruct (created_user_can_be_read_back (fun _ => None) (fun _ => Nest.Delivered)
              true (fun p => p) UserService.ada UserService.emptyWorld
              (UserService.mapToResponseDto
                 (UserService.created true (fun p => p) UserService.ada
                    (UserService.touchDb UserService.emptyWorld)))
              eq_refl eq_refl) as [Hemail Hid].
  split; [exact Hemail|].
  apply Hid. intros u [].
Defined.

(** X13.  A lookup that matches no stored user is refused with the
    not-found error "User not found", by id and by e-mail address alike,
    and changes nothing but the count of datastore calls. *)
Theorem lookup_of_a_missing_user_is_not_found :
  forall (db : nat -> option string) (key : string) (w : UserService.World),
  db (UserService.dbCalls w) = None ->
  ((forall u, In u (UserService.users w) -> UserService.id u <> key) ->
   UserQueries.getUserById db key w
     = (Rejected (Nest.NotFoundException "User not found"), UserService.touchDb w)) /\
  ((forall u, In u (UserService.users w) -> UserService.email u <> key) ->
   UserQueries.getUserByEmail db key w
     = (Rejected (Nest.NotFoundException "User not found"), UserService.touchDb w)).
Proof.
  intros db key w Hdb. split; intros Hmiss.
  - unfold UserQueries.getUserById, bind, UserQueries.findOneById.
    rewrite Hdb, find_none_iff; [reflexivity|].
    intros u Hin. apply String.eqb_neq. now apply Hmiss.
  - unfold UserQueries.getUserByEmail, bind, UserService.findOneByEmail.
    rewrite Hdb, find_none_iff; [reflexivity|].
    intros u Hin. apply String.eqb_neq. now apply Hmiss.
Qed.

Lemma lookup_of_a_missing_user_is_not_found_witness :
  UserQueries.getUserById (fun _ => None) "42" UserService.emptyWorld
    = (Rejected (Nest.NotFoundException "User not found"),
       UserService.touchDb UserService.emptyWorld) /\
  UserQueries.getUserByEmail (fun _ => None) "nobody@example.com" UserService.emptyWorld
    = (Rejected (Nest.NotFoundException "User not found"),
       UserService.touchDb UserService.emptyWorld).
Proof.
  destruct (lookup_of_a_missing_user_is_not_found (fun _ => None) "42"
              UserService.emptyWorld eq_refl) as [Hid _].
  destruct (lookup_of_a_missing_user_is_not_found (fun _ => None) "nobody@example.com"
              UserService.emptyWorld eq_refl) as [_ Hemail].
  split; [apply Hid|apply Hemail]; intros u [].
Defined.

(** ** lead-service, beyond the derived events *)

Section LeadEdges.

Import LeadService.

Variable db : nat -> option string.
Variable kafka : nat -> Nest.Emit.
Variable userSdk : nat -> string -> Settled UserService.UserResponseDto Js.Error.

Lemma find_lead_id (leadId : string) (lead : Lead) (rows : list Lead) :
  find (fun l => (id l =? leadId)%string) rows = Some lead -> id lead = leadId.
Proof.
  intros H. apply find_some in H. destruct H as [_ H]. now apply String.eqb_eq.
Qed.

(** After the save of a row, a lookup by its id finds the saved row. *)
Lemma find_after_save (leadId : string) (lead row : Lead) (rows : list Lead) :
  find (fun l => (id l =? leadId)%string) rows = Some lead ->
  id row = leadId ->
  find (fun l => (id l =? leadId)%string)
       (map (fun l => if (id l =? id row)%string then row else l) rows) = Some row.
Proof.
  intros Hfind Hrow. subst leadId.
  induction rows as [|a rows IH]; simpl in *; [discriminate|].
  destruct (id a =? id row)%string eqn:Ha.
  - now rewrite String.eqb_refl.
  - rewrite Ha. auto.
Qed.


Lemma mapToResponseDto_run (lead : Lead) (w : World) :
  exists dto,
    fst (mapToResponseDto userSdk lead w) = Fulfilled dto /\
    r_id dto = id lead /\ r_status dto = status lead /\
    r_assignedUserId dto = assignedUserId lead /\
    leads (snd (mapToResponseDto userSdk lead w)) = leads w /\
    published (snd (mapToResponseDto userSdk lead w)) = published w /\
    sdkCalls (snd (mapToResponseDto userSdk lead w))
      = (sdkCalls w + if truthy (assignedUserId lead) then 1 else 0)%nat /\
    (forall error,
       userSdk (sdkCalls w) (orDefault "" (assignedUserId lead)) = Rejected error ->
       r_assignedUser dto = None) /\
    (truthy (assignedUserId lead) = false -> r_assignedUser dto = None).
Proof.
  unfold mapToResponseDto, bind, tryCatch, getUserById, ret.
  destruct (truthy (assignedUserId lead)).
  - destruct (userSdk _ _) as [user|e] eqn:Hu; eexists; cbn;
      repeat split; try reflexivity; try lia; try discriminate.
  - eexists. cbn. repeat split; try reflexivity; lia.
Qed.

End LeadEdges.

(** X14.  A write to a lead that is not stored is refused with the
    not-found error "Lead not found" by [updateLead], [assignLead] and
    [updateLeadStatus] alike: nothing is saved or published and the user
    service is not asked; only the one lookup reaches the datastore. *)
Theorem writes_to_a_missing_lead_are_not_found :
  forall (db : nat -> option string) (kafka : nat -> Nest.Emit)
         (userSdk : nat -> string -> Settled UserService.UserResponseDto Js.Error)
         (leadId : string) (w : LeadService.World),
  (forall l, In l (LeadService.leads w) -> LeadService.id l <> leadId) ->
  db (LeadService.dbCalls w) = None ->
  (forall dto,
     LeadService.updateLead db kafka userSdk leadId dto w
       = (Rejected (Nest.NotFoundException "Lead not found"), LeadService.touchDb w)) /\
  (forall userId,
     LeadService.assignLead db kafka userSdk leadId userId w
       = (Rejected (Nest.NotFoundException "Lead not found"), LeadService.touchDb w)) /\
  (forall st,
     LeadService.updateLeadStatus db kafka userSdk leadId st w
       = (Rejected (Nest.NotFoundException "Lead not found"), LeadService.touchDb w)).
Proof.
  intros db kafka userSdk leadId w Hmiss Hdb.
  assert (Hfind : find (fun l => (LeadService.id l =? leadId)%string)
                       (LeadService.leads w) = None).
  { apply find_none_iff. intros l Hin. apply String.eqb_neq. now apply Hmiss. }
  repeat split; intros;
    unfold LeadService.updateLead, LeadService.assignLead, LeadService.updateLeadStatus,
      bind, LeadService.findOne;
    rewrite Hdb, Hfind; reflexivity.
Qed.

Lemma writes_to_a_missing_lead_are_not_found_witness :
  LeadService.updateLeadStatus (fun _ => None) (fun _ => Nest.Delivered)
    (fun _ _ => Fulfilled LeadService.u1) "l2" LeadService.QUALIFIED LeadService.oneLead
  = (Rejected (Nest.NotFoundException "Lead not found"),
     LeadService.touchDb LeadService.oneLead).
Proof.
  apply (writes_to_a_missing_lead_are_not_found (fun _ => None) (fun _ => Nest.Delivered)
           (fun _ _ => Fulfilled LeadService.u1) "l2" LeadService.oneLead).
  - intros l [<-|[]]. discriminate.
  - reflexivity.
Defined.

(** X15.  [assignLead] checks the user before it writes: when the lookup
    of the user fails, for whatever reason, the call is refused with the
    not-found error "User not found", the lead keeps its assignee and
    nothing is published. *)
Theorem assignLead_refuses_an_unverified_user :
  forall (db : nat -> option string) (kafka : nat -> Nest.Emit)
         (userSdk : nat -> string -> Settled UserService.UserResponseDto Js.Error)
         (leadId userId : string) (lead : LeadService.Lead) (w : LeadService.World)
         (error : Js.Error),
  find (fun l => (LeadService.id l =? leadId)%string) (LeadService.leads w) = Some lead ->
  db (LeadService.dbCalls w) = None ->
  userSdk (LeadService.sdkCalls w) userId = Rejected error ->
  fst (LeadService.assignLead db kafka userSdk leadId userId w)
    = Rejected (Nest.NotFoundException "User not found") /\
  LeadService.leads (snd (LeadService.assignLead db kafka userSdk leadId userId w))
    = LeadService.leads w /\
  LeadService.published (snd (LeadService.assignLead db kafka userSdk leadId userId w))
    = LeadService.published w /\
  LeadService.dbCalls (snd (LeadService.assignLead db kafka userSdk leadId userId w))
    = S (LeadService.dbCalls w).
Proof.
  intros db kafka userSdk leadId userId lead w error Hfind Hdb Hu.
  unfold LeadService.assignLead, bind, LeadService.findOne. rewrite Hdb, Hfind.
  unfold tryCatch, bind, LeadService.getUserById.
  cbn [LeadService.touchDb LeadService.sdkCalls]. rewrite Hu.
  repeat split; reflexivity.
Qed.

Lemma assignLead_refuses_an_unverified_user_witness :
  fst (LeadService.assignLead (fun _ => None) (fun _ => Nest.Delivered)
         (fun _ _ => Rejected {| Js.message := "timeout of 5000ms exceeded" |})
         "l1" "u2" LeadService.oneLead)
    = Rejected (Nest.NotFoundException "User not found") /\
  LeadService.leads
    (snd (LeadService.assignLead (fun _ => None) (fun _ => Nest.Delivered)
            (fun _ _ => Rejected {| Js.message := "timeout of 5000ms exceeded" |})
            "l1" "u2" LeadService.oneLead))
    = [LeadService.acme] /\
  LeadService.published
    (snd (LeadService.assignLead (fun _ => None) (fun _ => Nest.Delivered)
            (fun _ _ => Rejected {| Js.message := "timeout of 5000ms exceeded" |})
            "l1" "u2" LeadService.oneLead))
    = [] /\
  LeadService.dbCalls
    (snd (LeadService.assignLead (fun _ => None) (fun _ => Nest.Delivered)
            (fun _ _ => Rejected {| Js.message := "timeout of 5000ms exceeded" |})
            "l1" "u2" LeadService.oneLead))
    = 1%nat.
Proof.
  apply (assignLead_refuses_an_unverified_user (fun _ => None) (fun _ => Nest.Delivered)
           (fun _ _ => Rejected {| Js.message := "timeout of 5000ms exceeded" |})
           "l1" "u2" LeadService.acme LeadService.oneLead
           {| Js.message := "timeout of 5000ms exceeded" |}).
  - reflexivity.
  - reflexivity.
  - reflexivity.
Defined.







(** X19.  Building a lead's response never fails on the user service:
    [mapToResponseDto] always fulfils with the lead's own id, status and
    assignee id; it asks the user service once when the lead has an
    assignee and not at all otherwise, and when that lookup fails the
    response simply has no [assignedUser]. *)
Theorem lead_response_tolerates_user_service_failure :
  forall (userSdk : nat -> string -> Settled UserService.UserResponseDto Js.Error)
         (lead : LeadService.Lead) (w : LeadService.World),
  exists dto,
    fst (LeadService.mapToResponseDto userSdk lead w) = Fulfilled dto /\
    LeadService.r_id dto = LeadService.id lead /\
    LeadService.r_status dto = LeadService.status lead /\
    LeadService.r_assignedUserId dto = LeadService.assignedUserId lead /\
    LeadService.sdkCalls (snd (LeadService.mapToResponseDto userSdk lead w))
      = (LeadService.sdkCalls w
         + if LeadService.truthy (LeadService.assignedUserId lead) then 1 else 0)%nat /\
    (forall error,
       userSdk (LeadService.sdkCalls w) (orDefault "" (LeadService.assignedUserId lead))
         = Rejected error ->
       LeadService.r_assignedUser dto = None) /\
    (LeadService.truthy (LeadService.assignedUserId lead) = false ->
     LeadService.r_assignedUser dto = None).
Proof.
  intros userSdk lead w.
  destruct (mapToResponseDto_run userSdk lead w)
    as (dto & H1 & H2 & H3 & H4 & _ & _ & H5 & H6 & H7).
  exists dto. repeat split; assumption.
Qed.

(** ** lead-service: reads *)

Section LeadReads.

Import LeadService.

Variable db : nat -> option string.
Variable userSdk : nat -> string -> Settled UserService.UserResponseDto Js.Error.

Lemma all_responses (rows : list Lead) :
  forall w,
  exists dtos w',
    LeadQueries.all (mapToResponseDto userSdk) rows w = (Fulfilled dtos, w') /\
    map r_id dtos = map id rows /\
    map r_status dtos = map status rows /\
    map r_assignedUserId dtos = map assignedUserId rows /\
    leads w' = leads w /\
    published w' = published w.
Proof.
  induction rows as [|row rows IH]; intros w; simpl.
  - exists [], w. repeat split; reflexivity.
  - destruct (mapToResponseDto_run userSdk row w)
      as (dto & Hf & Hid & Hst & Has & Hl & Hp & _).
    unfold bind.
    destruct (mapToResponseDto userSdk row w) as [o w1]. cbn in Hf, Hl, Hp. subst o.
    destruct (IH w1) as (dtos & w2 & Hrun & Hids & Hsts & Hass & Hls & Hps).
    rewrite Hrun. exists (dto :: dtos), w2. cbn.
    rewrite Hid, Hst, Has, Hids, Hsts, Hass, Hls, Hps, Hl, Hp.
    repeat split; reflexivity.
Qed.

End LeadReads.

(** X20.  [getLeadsByUserId] answers with exactly the stored leads whose
    assignee is the given user, in table order, one response each; it does
    not fail when the user service does, and it stores and publishes
    nothing. *)
Theorem getLeadsByUserId_lists_the_assigned_leads :
  forall (db : nat -> option string)
         (userSdk : nat -> string -> Settled UserService.UserResponseDto Js.Error)
         (userId : string) (w : LeadService.World),
  db (LeadService.dbCalls w) = None ->
  exists dtos,
    fst (LeadQueries.getLeadsByUserId db userSdk userId w) = Fulfilled dtos /\
    map LeadService.r_id dtos
      = map LeadService.id
          (filter (LeadQueries.assignedTo userId) (LeadService.leads w)) /\
    Forall (fun dto => LeadService.r_assignedUserId dto = Some userId) dtos /\
    LeadService.leads (snd (LeadQueries.getLeadsByUserId db userSdk userId w))
      = LeadService.leads w /\
    LeadService.published (snd (LeadQueries.getLeadsByUserId db userSdk userId w))
      = LeadService.published w.
Proof.
  intros db userSdk userId w Hdb.
  unfold LeadQueries.getLeadsByUserId, bind, LeadQueries.findByAssignee.
  rewrite Hdb.
  destruct (all_responses userSdk
              (filter (LeadQueries.assignedTo userId) (LeadService.leads w))
              (LeadService.touchDb w)) as (dtos & w' & Hrun & Hids & _ & Has & Hl & Hp).
  rewrite Hrun. exists dtos. cbn [fst snd].
  split; [reflexivity|]. split; [exact Hids|].
  split; [|split; [exact Hl | exact Hp]].
  apply Forall_forall. intros dto Hin.
  apply (in_map LeadService.r_assignedUserId) in Hin. rewrite Has in Hin.
  apply in_map_iff in Hin. destruct Hin as (row & Hrow & Hin).
  apply filter_In in Hin. destruct Hin as [_ Ha].
  unfold LeadQueries.assignedTo in Ha. rewrite <- Hrow.
  destruct (LeadService.assignedUserId row) as [u|]; [|discriminate].
  apply String.eqb_eq in Ha. now subst.
Qed.

Lemma getLeadsByUserId_lists_the_assigned_leads_witness :
  exists dtos,
    fst (LeadQueries.getLeadsByUserId (fun _ => None)
           (fun _ _ => Rejected {| Js.message := "timeout of 5000ms exceeded" |})
           "u1" LeadQueries.twoLeads) = Fulfilled dtos /\
    map LeadService.r_id dtos = ["l1"] /\
    Forall (fun dto => LeadService.r_assignedUserId dto = Some "u1") dtos /\
    LeadService.leads
      (snd (LeadQueries.getLeadsByUserId (fun _ => None)
              (fun _ _ => Rejected {| Js.message := "timeout of 5000ms exceeded" |})
              "u1" LeadQueries.twoLeads))
      = [LeadService.acme; LeadQueries.globex] /\
    LeadService.published
      (snd (LeadQueries.getLeadsByUserId (fun _ => None)
              (fun _ _ => Rejected {| Js.message := "timeout of 5000ms exceeded" |})
              "u1" LeadQueries.twoLeads)) = [].
Proof.
  apply (getLeadsByUserId_lists_the_assigned_leads (fun _ => None)
           (fun _ _ => Rejected {| Js.message := "timeout of 5000ms exceeded" |})
           "u1" LeadQueries.twoLeads).
  reflexivity.
Defined.

(** ** A status write read back *)

Section LeadReadBack.

Import LeadService.

Variable db : nat -> option string.
Variable kafka : nat -> Nest.Emit.
Variable userSdk : nat -> string -> Settled UserService.UserResponseDto Js.Error.

Lemma mapToResponseDto_store (lead : Lead) (w : World) :
  leads (snd (mapToResponseDto userSdk lead w)) = leads w /\
  dbCalls (snd (mapToResponseDto userSdk lead w)) = dbCalls w.
Proof.
  unfold mapToResponseDto, bind, tryCatch, getUserById, ret.
  destruct (truthy (assignedUserId lead)); [|split; reflexivity].
  destruct (userSdk _ _); split; reflexivity.
Qed.

(** The store as [updateLeadStatus] leaves it once both datastore calls
    went through, whatever the broker client did afterwards. *)
Lemma updateLeadStatus_store (leadId : string) (st : LeadStatus) (lead : Lead) (w : World) :
  find (fun l => (id l =? leadId)%string) (leads w) = Some lead ->
  db (dbCalls w) = None ->
  db (S (dbCalls w)) = None ->
  let row := stamped (withStatus lead st) (now w) in
  leads (snd (updateLeadStatus db kafka userSdk leadId st w))
    = map (fun l => if (id l =? id row)%string then row else l) (leads w) /\
  dbCalls (snd (updateLeadStatus db kafka userSdk leadId st w)) = S (S (dbCalls w)).
Proof.
  intros Hfind Hdb1 Hdb2 row. subst row.
  unfold updateLeadStatus, bind, findOne. rewrite Hdb1, Hfind.
  unfold save. cbn [touchDb dbCalls]. rewrite Hdb2.
  unfold gets, emit. cbn [emitCalls touchDb].
  destruct (kafka (emitCalls w)); cbn [fst snd];
    try (match goal with
         | |- context [mapToResponseDto userSdk ?l ?w0] =>
             destruct (mapToResponseDto_store l w0) as [Hl Hd]; rewrite Hl, Hd
         end);
    split; reflexivity.
Qed.

End LeadReadBack.

(** X21.  A status write is durable from the moment its save went through:
    whatever the broker client does with the event afterwards, even when it
    throws and [updateLeadStatus] rejects, a following [getLeadById]
    answers with the lead under its id and with the new status. *)
Theorem status_write_is_read_back :
  forall (db : nat -> option string) (kafka : nat -> Nest.Emit)
         (userSdk : nat -> string -> Settled UserService.UserResponseDto Js.Error)
         (leadId : string) (st : LeadService.LeadStatus)
         (lead : LeadService.Lead) (w : LeadService.World),
  find (fun l => (LeadService.id l =? leadId)%string) (LeadService.leads w) = Some lead ->
  db (LeadService.dbCalls w) = None ->
  db (S (LeadService.dbCalls w)) = None ->
  db (S (S (LeadService.dbCalls w))) = None ->
  exists dto,
    fst (LeadQueries.getLeadById db userSdk leadId
           (snd (LeadService.updateLeadStatus db kafka userSdk leadId st w)))
      = Fulfilled dto /\
    LeadService.r_id dto = leadId /\
    LeadService.r_status dto = st.
Proof.
  intros db kafka userSdk leadId st lead w Hfind Hdb1 Hdb2 Hdb3.
  destruct (updateLeadStatus_store db kafka userSdk leadId st lead w Hfind Hdb1 Hdb2)
    as [Hl Hd].
  pose proof (find_lead_id leadId lead _ Hfind) as Hid.
  unfold LeadQueries.getLeadById, bind, LeadService.findOne.
  rewrite Hd, Hdb3, Hl.
  rewrite (find_after_save leadId lead
             (LeadService.stamped (LeadService.withStatus lead st) (LeadService.now w))
             _ Hfind Hid).
  match goal with
  | |- context [LeadService.mapToResponseDto userSdk ?l ?w0] =>
      destruct (mapToResponseDto_run userSdk l w0) as (dto & Hf & Hi & Hs & _)
  end.
  exists dto. split; [exact Hf|]. split; [rewrite Hi; exact Hid|rewrite Hs; reflexivity].
Qed.

Lemma status_write_is_read_back_witness :
  exists dto,
    fst (LeadQueries.getLeadById (fun _ => None) (fun _ _ => Fulfilled LeadService.u1) "l1"
           (snd (LeadService.updateLeadStatus (fun _ => None)
                   (fun _ => Nest.Throws "broker unreachable")
                   (fun _ _ => Fulfilled LeadService.u1) "l1" LeadService.QUALIFIED
                   LeadService.oneLead)))
      = Fulfilled dto /\
    LeadService.r_id dto = "l1" /\
    LeadService.r_status dto = LeadService.QUALIFIED.
Proof.
  apply (status_write_is_read_back (fun _ => None)
           (fun _ => Nest.Throws "broker unreachable")
           (fun _ _ => Fulfilled LeadService.u1) "l1" LeadService.QUALIFIED
           LeadService.acme LeadService.oneLead eq_refl eq_refl eq_refl eq_refl).
Defined.

(** ** The gateway's routers on whole families of requests *)

Section StringScan.

Lemma prefix_app (p r : string) : String.prefix p (p ++ r) = true.
Proof.
  induction p as [|a p IH]; simpl; [now destruct r|].
  destruct (ascii_dec a a) as [_|Hne]; [exact IH|now elim Hne].
Qed.

Lemma substring_whole (s : string) : String.substring 0 (String.length s) s = s.
Proof. induction s as [|c s IH]; simpl; [reflexivity|now rewrite IH]. Qed.

Lemma substring_skip (p r : string) (n : nat) :
  String.substring (String.length p) n (p ++ r) = String.substring 0 n r.
Proof. induction p as [|a p IH]; simpl; [reflexivity|exact IH]. Qed.

Lemma length_app (p r : string) :
  String.length (p ++ r) = (String.length p + String.length r)%nat.
Proof. induction p as [|a p IH]; simpl; [reflexivity|now rewrite IH]. Qed.

(** [(p + r).replace(p, '')] is [r]. *)
Lemma replace_leading (p r : string) : Js.replace (p ++ r) p "" = r.
Proof.
  unfold Js.replace.
  assert (H : forall s, Js.replaceFirst p "" s
                        = if String.prefix p s
                          then (String.substring (String.length p)
                                  (String.length s - String.length p) s)
                          else match s with
                               | EmptyString => EmptyString
                               | String c rest => String c (Js.replaceFirst p "" rest)
                               end).
  { intros s. destruct s; reflexivity. }
  rewrite H, prefix_app, substring_skip, length_app.
  replace (String.length p + String.length r - String.length p)%nat
    with (String.length r) by lia.
  apply substring_whole.
Qed.

Lemma prefix_inv (p s : string) :
  String.prefix p s = true -> exists r, s = (p ++ r)%string.
Proof.
  revert s. induction p as [|a p IH]; intros s H.
  - exists s. reflexivity.
  - destruct s as [|b s]; simpl in H; [discriminate|].
    destruct (ascii_dec a b) as [->|]; [|discriminate].
    destruct (IH s H) as [r ->]. exists r. reflexivity.
Qed.

Lemma slashFree_app (a b : string) :
  GatewayCases.slashFree (a ++ b)
  = GatewayCases.slashFree a && GatewayCases.slashFree b.
Proof.
  induction a as [|c a IH]; simpl; [reflexivity|].
  rewrite IH. now rewrite andb_assoc.
Qed.

(** A pattern with a [/] inside starts nowhere in a slash-free string. *)
Lemma slashFree_no_prefix (p s : string) :
  GatewayCases.slashFree s = true -> GatewayCases.slashFree p = false ->
  String.prefix p s = false.
Proof.
  intros Hs Hp. destruct (String.prefix p s) eqn:E; [|reflexivity].
  apply prefix_inv in E. destruct E as [r ->].
  rewrite slashFree_app, Hp in Hs. discriminate.
Qed.

Lemma slashFree_not_included (p s : string) :
  GatewayCases.slashFree s = true -> GatewayCases.slashFree p = false ->
  Js.includes s p = false.
Proof.
  intros Hs Hp. induction s as [|c s IH].
  - simpl. destruct p; [discriminate Hp|reflexivity].
  - cbn [Js.includes]. rewrite (slashFree_no_prefix p (String c s) Hs Hp).
    simpl in Hs. apply andb_true_iff in Hs. now apply IH.
Qed.

Lemma slashFree_replace (p s : string) :
  GatewayCases.slashFree s = true -> GatewayCases.slashFree p = false ->
  Js.replace s p "" = s.
Proof.
  unfold Js.replace. intros Hs Hp. induction s as [|c s IH].
  - simpl. destruct p; [discriminate Hp|reflexivity].
  - cbn [Js.replaceFirst]. rewrite (slashFree_no_prefix p (String c s) Hs Hp).
    simpl in Hs. apply andb_true_iff in Hs. f_equal. now apply IH.
Qed.

Lemma prefix_refl (p : string) : String.prefix p p = true.
Proof.
  induction p as [|a p IH]; simpl; [reflexivity|].
  destruct (ascii_dec a a) as [_|Hne]; [exact IH|now elim Hne].
Qed.

Lemma includes_suffix (a p : string) : Js.includes (a ++ p) p = true.
Proof.
  induction a as [|c a IH].
  - simpl. destruct p; cbn [Js.includes]; [reflexivity|now rewrite prefix_refl].
  - simpl. cbn [Js.includes].
    match goal with |- (if ?hit then _ else _) = _ => destruct hit end;
      [reflexivity|exact IH].
Qed.

(** A slash-free pattern that does not start [s] does not start [s]
    followed by a [/] either. *)
Lemma prefix_before_slash (p s t : string) :
  GatewayCases.slashFree p = true -> String.prefix p s = false ->
  String.prefix p (s ++ String "/" t) = false.
Proof.
  revert s. induction p as [|a p IH]; intros s Hp H.
  - destruct s; discriminate H.
  - simpl in Hp. apply andb_true_iff in Hp. destruct Hp as [Ha Hp].
    destruct s as [|b s]; simpl.
    + destruct (ascii_dec a "/") as [->|]; [discriminate Ha|reflexivity].
    + simpl in H. destruct (ascii_dec a b); [now apply IH|reflexivity].
Qed.

(** [(s + '/' + p).replace('/' + p, '')] is [s] when [s] has no [/]. *)
Lemma replace_trailing (p s : string) :
  GatewayCases.slashFree s = true ->
  Js.replace (s ++ String "/" p) (String "/" p) "" = s.
Proof.
  intros Hs. induction s as [|c s IH].
  - assert (E : forall q : string, (q ++ "")%string = q)
      by (induction q as [|a q IHq]; simpl; [reflexivity|now rewrite IHq]).
    change ((""%string ++ String "/" p)%string) with (String "/" p).
    rewrite <- (E (String "/" p)) at 1. apply replace_leading.
  - simpl in Hs. apply andb_true_iff in Hs. destruct Hs as [Hc Hs].
    unfold Js.replace in *. cbn [String.append Js.replaceFirst String.prefix].
    destruct (ascii_dec "/" c) as [<-|]; [discriminate Hc|].
    f_equal. now apply IH.
Qed.

End StringScan.

(** Both routers end their [switch] in the same [default]. *)
Lemma unknown_method_refused (method_ path : string) (body headers_ : Js.Value) :
  ~ In method_ ["GET"; "POST"; "PATCH"; "DELETE"]%string ->
  Gateway.routeToUserService method_ path body headers_
    = Gateway.Raise 405 "Method not allowed" /\
  Gateway.routeToLeadService method_ path body
    = Gateway.Raise 405 "Method not allowed".
Proof.
  intros Hm.
  assert (Hget : (method_ =? "GET")%string = false)
    by (apply String.eqb_neq; intros ->; apply Hm; simpl; auto).
  assert (Hpost : (method_ =? "POST")%string = false)
    by (apply String.eqb_neq; intros ->; apply Hm; simpl; auto).
  assert (Hpatch : (method_ =? "PATCH")%string = false)
    by (apply String.eqb_neq; intros ->; apply Hm; simpl; auto).
  assert (Hdel : (method_ =? "DELETE")%string = false)
    by (apply String.eqb_neq; intros ->; apply Hm; simpl; auto 6).
  unfold Gateway.routeToUserService, Gateway.routeToLeadService.
  rewrite Hget, Hpost, Hpatch, Hdel. split; reflexivity.
Qed.

(** Reading a field off a missing body throws inside the router's [try]. *)
Lemma missing_body_refused (path : string) (body headers_ : Js.Value) :
  body = Js.Undefined \/ body = Js.Null ->
  (exists message,
     Gateway.routeToUserService "POST" "/auth/refresh" body headers_
       = Gateway.Raise 500 message) /\
  (Js.includes path "/assign" = true \/ Js.includes path "/status" = true ->
   exists message,
     Gateway.routeToLeadService "PATCH" path body = Gateway.Raise 500 message).
Proof.
  intros Hbody. split.
  - destruct Hbody as [-> | ->]; eexists; reflexivity.
  - intros Hpath. unfold Gateway.routeToLeadService.
    change ("PATCH" =? "GET")%string with false.
    change ("PATCH" =? "POST")%string with false.
    change ("PATCH" =? "PATCH")%string with true. cbv iota.
    destruct (Js.includes path "/assign") eqn:Ha.
    + destruct Hbody as [-> | ->]; eexists; reflexivity.
    + destruct Hpath as [Hp|Hp]; [discriminate Hp|]. rewrite Hp.
      destruct Hbody as [-> | ->]; eexists; reflexivity.
Qed.

(** X22.  What the routers refuse without forwarding anything.  A method
    other than GET, POST, PATCH and DELETE gets 405 "Method not allowed"
    from both routers, whatever the path, the body and the headers; the
    comparison is case-sensitive.  A request for a sub-resource that arrives
    without a body gets a 500: the token refresh of the user router, and in
    the lead router every PATCH whose path holds [/assign] or [/status]. *)
Theorem routers_refuse_unknown_methods_and_missing_bodies :
  forall (method_ path : string) (body headers_ : Js.Value),
  (~ In method_ ["GET"; "POST"; "PATCH"; "DELETE"]%string ->
   Gateway.routeToUserService method_ path body headers_
     = Gateway.Raise 405 "Method not allowed" /\
   Gateway.routeToLeadService method_ path body
     = Gateway.Raise 405 "Method not allowed") /\
  (body = Js.Undefined \/ body = Js.Null ->
   (exists message,
      Gateway.routeToUserService "POST" "/auth/refresh" body headers_
        = Gateway.Raise 500 message) /\
   (Js.includes path "/assign" = true \/ Js.includes path "/status" = true ->
    exists message,
      Gateway.routeToLeadService "PATCH" path body = Gateway.Raise 500 message)).
Proof.
  intros method_ path body headers_. split.
  - apply unknown_method_refused.
  - apply missing_body_refused.
Qed.

Lemma routers_refuse_unknown_methods_and_missing_bodies_witness :
  (Gateway.routeToUserService "get" "/l1/status" Js.Undefined
     (Js.Obj [("authorization", Js.Str Gateway.bearer)])
     = Gateway.Raise 405 "Method not allowed" /\
   Gateway.routeToLeadService "get" "/l1/status" Js.Undefined
     = Gateway.Raise 405 "Method not allowed") /\
  (exists message,
     Gateway.routeToLeadService "PATCH" "/l1/status" Js.Undefined
       = Gateway.Raise 500 message).
Proof.
  destruct (routers_refuse_unknown_methods_and_missing_bodies "get" "/l1/status"
              Js.Undefined (Js.Obj [("authorization", Js.Str Gateway.bearer)]))
    as [Hmethod Hbody].
  split.
  - apply Hmethod. simpl. intros [H|[H|[H|[H|[]]]]]; discriminate H.
  - apply (proj2 (Hbody (or_introl eq_refl))). right. reflexivity.
Defined.

(** X23.  The lead routes of the gateway reach the SDK call for the same
    resource: for an id that is a non-empty path segment and does not start
    with [assign] or [status], GET, PATCH and DELETE of [/leads/<id>] are
    forwarded as the lookup, the update and the deletion of that id, and a
    PATCH of [/leads/<id>/assign] or [/leads/<id>/status] with a body as the
    assignment or the status change of that id with the body's field. *)
Theorem lead_item_urls_reach_their_sdk_call :
  forall (id_ : string) (body headers_ : Js.Value),
  GatewayCases.slashFree id_ = true ->
  id_ <> ""%string ->
  Js.startsWith id_ "assign" = false ->
  Js.startsWith id_ "status" = false ->
  Gateway.routeLeadService (GatewayCases.inbound "GET" ("/leads/" ++ id_) headers_) body
    = Gateway.Forward (Gateway.LeadSdk_getLeadById id_) /\
  Gateway.routeLeadService (GatewayCases.inbound "PATCH" ("/leads/" ++ id_) headers_) body
    = Gateway.Forward (Gateway.LeadSdk_updateLead id_ body) /\
  Gateway.routeLeadService (GatewayCases.inbound "DELETE" ("/leads/" ++ id_) headers_) body
    = Gateway.Forward (Gateway.LeadSdk_deleteLead id_) /\
  (body <> Js.Undefined -> body <> Js.Null ->
   Gateway.routeLeadService
     (GatewayCases.inbound "PATCH" ("/leads/" ++ id_ ++ "/assign") headers_) body
     = Gateway.Forward (Gateway.LeadSdk_assignLead id_ (Js.get body "assignedUserId")) /\
   Gateway.routeLeadService
     (GatewayCases.inbound "PATCH" ("/leads/" ++ id_ ++ "/status") headers_) body
     = Gateway.Forward (Gateway.LeadSdk_updateLeadStatus id_ (Js.get body "status"))).
Proof.
  intros id_ body hdrs Hseg Hne Hassign Hstatus.
  unfold Js.startsWith in Hassign, Hstatus.
  assert (Hitem : Js.replace ("/leads/" ++ id_) "/leads" "" = ("/" ++ id_)%string)
    by apply (replace_leading "/leads" ("/" ++ id_)).
  assert (Hsub : forall tail,
            Js.replace ("/leads/" ++ id_ ++ tail) "/leads" ""
            = ("/" ++ id_ ++ tail)%string)
    by (intros tail; apply (replace_leading "/leads" ("/" ++ id_ ++ tail))).
  assert (Hid : Js.replace ("/" ++ id_) "/" "" = id_)
    by apply (replace_leading "/" id_).
  assert (Hroot : (("/" ++ id_) =? "/")%string = false).
  { destruct id_ as [|c rest]; [now elim Hne|reflexivity]. }
  assert (Huser : Js.startsWith ("/" ++ id_) "/user/" = false).
  { unfold Js.startsWith. cbn [String.append String.prefix].
    destruct (ascii_dec "/" "/") as [_|n]; [|now elim n].
    now apply slashFree_no_prefix. }
  assert (Hno : forall p, GatewayCases.slashFree p = true ->
                          String.prefix p id_ = false ->
                          Js.includes ("/" ++ id_) (String "/" p) = false).
  { intros p Hp Hpre. cbn [String.append Js.includes String.prefix].
    destruct (ascii_dec "/" "/") as [_|n]; [|now elim n].
    rewrite Hpre. now apply slashFree_not_included. }
  assert (Hcut : forall p, GatewayCases.slashFree p = true ->
                           String.prefix p id_ = false ->
                           Js.replace ("/" ++ id_ ++ String "/" p) (String "/" p) ""
                           = ("/" ++ id_)%string).
  { intros p Hp Hpre. unfold Js.replace.
    cbn [String.append Js.replaceFirst String.prefix].
    destruct (ascii_dec "/" "/") as [_|n]; [|now elim n].
    rewrite (prefix_before_slash p id_ p Hp Hpre). f_equal.
    now apply replace_trailing. }
  assert (Hinc : forall p,
            Js.includes ("/" ++ id_ ++ String "/" p) (String "/" p) = true)
    by (intros p; exact (includes_suffix (String "/" id_) (String "/" p))).
  unfold Gateway.routeLeadService, GatewayCases.inbound, Gateway.method, Gateway.req_url.
  rewrite Hitem. unfold Gateway.routeToLeadService.
  split; [|split; [|split]].
  - change ("GET" =? "GET")%string with true. cbv iota.
    now rewrite Huser, Hroot, Hid.
  - change ("PATCH" =? "GET")%string with false.
    change ("PATCH" =? "POST")%string with false.
    change ("PATCH" =? "PATCH")%string with true. cbv iota.
    now rewrite (Hno "assign" eq_refl Hassign), (Hno "status" eq_refl Hstatus), Hid.
  - change ("DELETE" =? "GET")%string with false.
    change ("DELETE" =? "POST")%string with false.
    change ("DELETE" =? "PATCH")%string with false.
    change ("DELETE" =? "DELETE")%string with true. cbv iota.
    now rewrite Hid.
  - intros Hu Hn. rewrite !Hsub.
    change ("PATCH" =? "GET")%string with false.
    change ("PATCH" =? "POST")%string with false.
    change ("PATCH" =? "PATCH")%string with true. cbv iota.
    split.
    + rewrite (Hinc "assign"), (Hcut "assign" eq_refl Hassign), Hid.
      destruct body; try reflexivity; [now elim Hu|now elim Hn].
    + assert (Hmiss : Js.includes ("/" ++ id_ ++ "/status") "/assign" = false).
      { cbn [String.append Js.includes String.prefix].
        destruct (ascii_dec "/" "/") as [_|n]; [|now elim n].
        rewrite (prefix_before_slash "assign" id_ "status" eq_refl Hassign).
        clear - Hseg. induction id_ as [|c rest IH]; [reflexivity|].
        simpl in Hseg. apply andb_true_iff in Hseg. destruct Hseg as [Hc Hrest].
        cbn [String.append Js.includes String.prefix].
        destruct (ascii_dec "/" c) as [<-|]; [discriminate Hc|]. now apply IH. }
      rewrite Hmiss, (Hinc "status"), (Hcut "status" eq_refl Hstatus), Hid.
      destruct body; try reflexivity; [now elim Hu|now elim Hn].
Qed.

Lemma lead_item_urls_reach_their_sdk_call_witness :
  Gateway.routeLeadService (GatewayCases.inbound "GET" "/leads/7f3c-21" Js.Undefined)
    Js.Undefined
    = Gateway.Forward (Gateway.LeadSdk_getLeadById "7f3c-21") /\
  Gateway.routeLeadService (GatewayCases.inbound "PATCH" "/leads/7f3c-21" Js.Undefined)
    Js.Undefined
    = Gateway.Forward (Gateway.LeadSdk_updateLead "7f3c-21" Js.Undefined) /\
  Gateway.routeLeadService (GatewayCases.inbound "DELETE" "/leads/7f3c-21" Js.Undefined)
    Js.Undefined
    = Gateway.Forward (Gateway.LeadSdk_deleteLead "7f3c-21").
Proof.
  destruct (lead_item_urls_reach_their_sdk_call "7f3c-21" Js.Undefined Js.Undefined
              eq_refl ltac:(discriminate) eq_refl eq_refl) as (Hg & Hp & Hd & _).
  exact (conj Hg (conj Hp Hd)).
Defined.

(** Why the id must not start with [assign]: such an id makes a plain
    update look like an assignment, of another id. *)
Example lead_id_starting_with_assign_is_misrouted :
  Gateway.routeLeadService
    (GatewayCases.inbound "PATCH" "/leads/assign-7" Js.Undefined)
    (Js.Obj [("notes", Js.Str "called")])
  = Gateway.Forward (Gateway.LeadSdk_assignLead "-7" Js.Undefined).
Proof. reflexivity. Qed.

(** X24.  The user routes of the gateway reach the SDK call for the same
    resource: for an id that is a non-empty path segment, GET, PATCH and
    DELETE of [/users/<id>] are forwarded as the lookup, the update and the
    deletion of that id, and GET of [/users/email/<address>] as the lookup
    of that address, whatever it holds; only the two lookups are given the
    configuration built from the inbound credential. *)
Theorem user_item_urls_reach_their_sdk_call :
  forall (id_ address : string) (body headers_ : Js.Value),
  GatewayCases.slashFree id_ = true ->
  id_ <> ""%string ->
  Gateway.routeUserService (GatewayCases.inbound "GET" ("/users/" ++ id_) headers_) body
    = Gateway.Forward (Gateway.UserSdk_getUserById id_ (GatewayCases.userConfig headers_)) /\
  Gateway.routeUserService
    (GatewayCases.inbound "GET" ("/users/email/" ++ address) headers_) body
    = Gateway.Forward
        (Gateway.UserSdk_getUserByEmail address (GatewayCases.userConfig headers_)) /\
  Gateway.routeUserService (GatewayCases.inbound "PATCH" ("/users/" ++ id_) headers_) body
    = Gateway.Forward (Gateway.UserSdk_updateUser id_ body) /\
  Gateway.routeUserService (GatewayCases.inbound "DELETE" ("/users/" ++ id_) headers_) body
    = Gateway.Forward (Gateway.UserSdk_deleteUser id_).
Proof.
  intros id_ address body hdrs Hseg Hne.
  assert (Hitem : Js.replace ("/users/" ++ id_) "/users" "" = ("/" ++ id_)%string)
    by apply (replace_leading "/users" ("/" ++ id_)).
  assert (Hmail : Js.replace ("/users/email/" ++ address) "/users" ""
                  = ("/email/" ++ address)%string)
    by apply (replace_leading "/users" ("/email/" ++ address)).
  assert (Hid : Js.replace ("/" ++ id_) "/" "" = id_)
    by apply (replace_leading "/" id_).
  assert (Haddr : Js.replace ("/email/" ++ address) "/email/" "" = address)
    by apply (replace_leading "/email/" address).
  assert (Hroot : (("/" ++ id_) =? "/")%string = false).
  { destruct id_ as [|c rest]; [now elim Hne|reflexivity]. }
  assert (Hvalidate : (("/" ++ id_) =? "/auth/validate")%string = false).
  { apply String.eqb_neq. intros E. injection E as E. subst id_. discriminate Hseg. }
  assert (Hemail : Js.startsWith ("/" ++ id_) "/email/" = false).
  { unfold Js.startsWith. cbn [String.append String.prefix].
    destruct (ascii_dec "/" "/") as [_|n]; [|now elim n].
    now apply slashFree_no_prefix. }
  unfold Gateway.routeUserService, GatewayCases.inbound, Gateway.method,
    Gateway.req_url, Gateway.headers, GatewayCases.userConfig.
  rewrite Hitem, Hmail. unfold Gateway.routeToUserService.
  split; [|split; [|split]].
  - change ("GET" =? "GET")%string with true. cbv iota.
    now rewrite Hvalidate, Hemail, Hroot, Hid.
  - change ("GET" =? "GET")%string with true. cbv iota.
    change (("/email/" ++ address) =? "/auth/validate")%string with false. cbv iota.
    unfold Js.startsWith. rewrite (prefix_app "/email/" address), Haddr. reflexivity.
  - change ("PATCH" =? "GET")%string with false.
    change ("PATCH" =? "POST")%string with false.
    change ("PATCH" =? "PATCH")%string with true. cbv iota.
    now rewrite Hid.
  - change ("DELETE" =? "GET")%string with false.
    change ("DELETE" =? "POST")%string with false.
    change ("DELETE" =? "PATCH")%string with false.
    change ("DELETE" =? "DELETE")%string with true. cbv iota.
    now rewrite Hid.
Qed.

Lemma user_item_urls_reach_their_sdk_call_witness :
  Gateway.routeUserService
    (GatewayCases.inbound "GET" "/users/42" (Js.Obj [("authorization", Js.Str "Bearer t")]))
    Js.Undefined
    = Gateway.Forward
        (Gateway.UserSdk_getUserById "42"
           (Js.Obj [("headers", Js.Obj [("Authorization", Js.Str "Bearer t")])])) /\
  Gateway.routeUserService
    (GatewayCases.inbound "GET" "/users/email/a/b@c.d"
       (Js.Obj [("authorization", Js.Str "Bearer t")]))
    Js.Undefined
    = Gateway.Forward
        (Gateway.UserSdk_getUserByEmail "a/b@c.d"
           (Js.Obj [("headers", Js.Obj [("Authorization", Js.Str "Bearer t")])])).
Proof.
  destruct (user_item_urls_reach_their_sdk_call "42" "a/b@c.d" Js.Undefined
              (Js.Obj [("authorization", Js.Str "Bearer t")])
              eq_refl ltac:(discriminate)) as (Hg & He & _).
  exact (conj Hg He).
Defined.

(** ** Sign-in and token checks *)

Section AuthOutcomes.

Import Auth.

Variable db : nat -> option string.
Variable verify : string -> Settled JwtPayload Js.Error.
Variable sign : JwtPayload -> option string -> Settled string Js.Error.

(** How [validateToken] ends, by what it met on the way. *)
Lemma validateToken_cases (token : string) (w : UserService.World) :
  (exists payload user,
     verify token = Fulfilled payload /\
     db (UserService.dbCalls w) = None /\
     find (fun u => (UserService.id u =? sub payload)%string) (UserService.users w)
       = Some user /\
     UserService.isActive user = true /\
     fst (validateToken db verify token w)
       = Fulfilled (UserService.mapToResponseDto user)) \/
  ((forall payload user,
      verify token = Fulfilled payload ->
      db (UserService.dbCalls w) = None ->
      find (fun u => (UserService.id u =? sub payload)%string) (UserService.users w)
        = Some user ->
      UserService.isActive user = false) /\
   fst (validateToken db verify token w)
     = Rejected (UnauthorizedException "Invalid token")).
Proof.
  unfold validateToken, tryCatch, bind, jwt, repo, UserQueries.findOneById, throw, ret.
  destruct (verify token) as [payload|e] eqn:Hv.
  - destruct (db (UserService.dbCalls w)) as [reason|] eqn:Hdb.
    + right. split; [intros ? ? _ H; discriminate H|reflexivity].
    + destruct (find _ (UserService.users w)) as [user|] eqn:Hfind.
      * destruct (UserService.isActive user) eqn:Hact.
        -- left. exists payload, user. repeat split; assumption || reflexivity.
        -- right. split; [|reflexivity].
           intros p u Hp _ Hu. injection Hp as <-. rewrite Hfind in Hu.
           injection Hu as <-. exact Hact.
      * right. split; [|reflexivity].
        intros p u Hp _ Hu. injection Hp as <-. rewrite Hfind in Hu. discriminate Hu.
  - right. split; [intros ? ? H; discriminate H|reflexivity].
Qed.

End AuthOutcomes.

(** X25.  The two token checks answer every failure, the datastore's
    included, with the same 401: [validateToken] rejects only with
    "Invalid token" and [refreshToken] only with "Invalid refresh token".
    And they accept the same tokens: whatever [validateToken] accepts,
    [refreshToken] turns into a new pair of tokens for the same user,
    provided the signing goes through. *)
Theorem token_checks_reject_alike_and_accept_alike :
  forall (db : nat -> option string)
         (verify : string -> Settled Auth.JwtPayload Js.Error)
         (sign : Auth.JwtPayload -> option string -> Settled string Js.Error)
         (token : string) (w : UserService.World),
  (forall t, fst (Auth.validateToken db verify token w) = Rejected t ->
             t = Auth.UnauthorizedException "Invalid token") /\
  (forall t, fst (Auth.refreshToken db verify sign token w) = Rejected t ->
             t = Auth.UnauthorizedException "Invalid refresh token") /\
  (forall dto,
     fst (Auth.validateToken db verify token w) = Fulfilled dto ->
     (forall payload expiresIn, exists signed, sign payload expiresIn = Fulfilled signed) ->
     exists auth,
       fst (Auth.refreshToken db verify sign token w) = Fulfilled auth /\
       Auth.a_user auth = dto).
Proof.
  intros db verify sign token w. split; [|split].
  - intros t Ht.
    destruct (validateToken_cases db verify token w)
      as [(payload & user & _ & _ & _ & _ & Hf)|[_ Hr]]; congruence.
  - unfold Auth.refreshToken, tryCatch, bind, Auth.jwt, Auth.repo,
      UserQueries.findOneById, throw, ret.
    intros t.
    destruct (verify token) as [payload|e]; [|cbn; congruence].
    destruct (db (UserService.dbCalls w)); [cbn; congruence|].
    destruct (find _ (UserService.users w)) as [user|]; [|cbn; congruence].
    destruct (UserService.isActive user); cbn [negb]; [|cbn; congruence].
    destruct (sign _ None); [|cbn; congruence].
    destruct (sign _ (Some _)); cbn; congruence.
  - intros dto Hok Hsign.
    destruct (validateToken_cases db verify token w)
      as [(payload & user & Hv & Hdb & Hfind & Hact & Hf)|[_ Hr]];
      [|rewrite Hok in Hr; discriminate Hr].
    rewrite Hok in Hf. injection Hf as ->.
    unfold Auth.refreshToken, tryCatch, bind, Auth.jwt, Auth.repo,
      UserQueries.findOneById, throw, ret.
    rewrite Hv, Hdb, Hfind, Hact. cbn [negb].
    destruct (Hsign {| Auth.sub := UserService.id user;
                       Auth.p_email := UserService.email user;
                       Auth.p_role := UserService.role user |} None) as [access ->].
    destruct (Hsign {| Auth.sub := UserService.id user;
                       Auth.p_email := UserService.email user;
                       Auth.p_role := UserService.role user |} (Some "7d"%string))
      as [refresh ->].
    eexists. split; reflexivity.
Qed.

Lemma token_checks_reject_alike_and_accept_alike_witness :
  exists auth,
    fst (Auth.refreshToken (fun _ => None) Auth.verifier Auth.signer "u7.1h"
           (Auth.holding (Auth.grace true))) = Fulfilled auth /\
    Auth.a_user auth = UserService.mapToResponseDto (Auth.grace true).
Proof.
  apply (proj2 (proj2 (token_checks_reject_alike_and_accept_alike (fun _ => None)
                         Auth.verifier Auth.signer "u7.1h"
                         (Auth.holding (Auth.grace true))))).
  - reflexivity.
  - intros payload expiresIn. eexists. reflexivity.
Defined.

(** X26.  [login] tells a caller nothing about which part of the
    credentials was wrong: an unknown address and a wrong password end in
    the same 401 "Invalid credentials" and the same world.  The notice
    "User account is deactivated" is given only for the right password of
    a stored, deactivated account, and tokens only for the right password
    of a stored, active one with the address asked for. *)
Theorem login_outcomes :
  forall (db : nat -> option string)
         (sign : Auth.JwtPayload -> option string -> Settled string Js.Error)
         (validatePassword : UserService.User -> string -> bool)
         (loginDto : Auth.LoginDto) (w : UserService.World),
  db (UserService.dbCalls w) = None ->
  let found :=
    find (fun u => (UserService.email u =? Auth.l_email loginDto)%string)
      (UserService.users w) in
  let run := Auth.login db sign validatePassword loginDto w in
  ((found = None \/
    exists user, found = Some user /\
                 validatePassword user (Auth.l_password loginDto) = false) ->
   run = (Rejected (Auth.UnauthorizedException "Invalid credentials"),
          UserService.touchDb w)) /\
  (fst run = Rejected (Auth.UnauthorizedException "User account is deactivated") ->
   exists user, found = Some user /\
                validatePassword user (Auth.l_password loginDto) = true /\
                UserService.isActive user = false) /\
  (forall auth,
     fst run = Fulfilled auth ->
     exists user, found = Some user /\
                  validatePassword user (Auth.l_password loginDto) = true /\
                  UserService.isActive user = true /\
                  Auth.a_user auth = UserService.mapToResponseDto user /\
                  UserService.r_email (Auth.a_user auth) = Auth.l_email loginDto).
Proof.
  intros db sign validatePassword loginDto w Hdb found run. subst found run.
  unfold Auth.login, bind, Auth.repo, UserService.findOneByEmail, throw, ret, Auth.jwt.
  rewrite Hdb.
  destruct (find _ (UserService.users w)) as [user|] eqn:Hfind.
  - pose proof (find_some _ _ Hfind) as [_ Hmail]. apply String.eqb_eq in Hmail.
    destruct (validatePassword user (Auth.l_password loginDto)) eqn:Hpw; cbn [negb].
    + destruct (UserService.isActive user) eqn:Hact; cbn [negb].
      * split; [|split].
        -- intros [H|(u & Hu & Hno)]; [discriminate H|].
           injection Hu as <-. rewrite Hpw in Hno. discriminate Hno.
        -- destruct (sign _ None); [|cbn; congruence].
           destruct (sign _ (Some _)); cbn; congruence.
        -- intros auth.
           destruct (sign _ None); [|cbn; congruence].
           destruct (sign _ (Some _)); cbn; [|congruence].
           intros H. injection H as <-. exists user. cbn. auto.
      * split; [|split].
        -- intros [H|(u & Hu & Hno)]; [discriminate H|].
           injection Hu as <-. rewrite Hpw in Hno. discriminate Hno.
        -- intros _. exists user. auto.
        -- intros auth H. discriminate H.
    + split; [reflexivity|split].
      * intros H. discriminate H.
      * intros auth H. discriminate H.
  - split; [reflexivity|split].
    + intros H. discriminate H.
    + intros auth H. discriminate H.
Qed.

Lemma login_outcomes_witness :
  Auth.login (fun _ => None) Auth.signer
    (fun _ password => (password =? "s3cret")%string)
    {| Auth.l_email := "nobody@example.com"; Auth.l_password := "guess" |}
    (Auth.holding (Auth.grace false))
  = (Rejected (Auth.UnauthorizedException "Invalid credentials"),
     UserService.touchDb (Auth.holding (Auth.grace false))).
Proof.
  apply (proj1 (login_outcomes (fun _ => None) Auth.signer
                  (fun _ password => (password =? "s3cret")%string)
                  {| Auth.l_email := "nobody@example.com"; Auth.l_password := "guess" |}
                  (Auth.holding (Auth.grace false)) eq_refl)).
  left. reflexivity.
Defined.

(** ** Creation and deletion of rows *)

Section RowLifecycle.

Lemma find_filter_out {A} (key : A -> string) (k : string) (rows : list A) :
  find (fun r => (key r =? k)%string)
       (filter (fun r => negb (key r =? k)%string) rows) = None.
Proof.
  induction rows as [|r rows IH]; simpl; [reflexivity|].
  destruct (key r =? k)%string eqn:E; simpl; [exact IH|].
  now rewrite E.
Qed.


End RowLifecycle.

(** X27.  A deletion removes the row for good and exactly that row.  Once
    the lookup and the removal went through, the stored rows are the
    earlier ones without the given id, whether or not the event went out:
    a throwing broker client makes the call reject with its error after the
    row is gone.  A delivered event carries the id that was asked for, and
    a second deletion of the same id is refused as not found.  This holds
    for [deleteLead] and for [deleteUser] alike. *)
Theorem deletion_removes_exactly_the_row :
  (forall (db : nat -> option string) (kafka : nat -> Nest.Emit) (id_ : string)
          (lead : LeadService.Lead) (w : Lifecycle.Logged LeadService.World),
   let s := Lifecycle.store w in
   let run := Lifecycle.deleteLead db kafka id_ w in
   find (fun l => (LeadService.id l =? id_)%string) (LeadService.leads s) = Some lead ->
   db (LeadService.dbCalls s) = None ->
   db (S (LeadService.dbCalls s)) = None ->
   LeadService.leads (Lifecycle.store (snd run))
     = filter (fun l => negb (LeadService.id l =? id_)%string) (LeadService.leads s) /\
   match kafka (LeadService.emitCalls s) with
   | Nest.Delivered =>
       fst run = Fulfilled tt /\
       Lifecycle.outbox (snd run)
         = (Lifecycle.outbox w
            ++ [(Lifecycle.LEAD_DELETED,
                 Lifecycle.LeadDeleted
                   {| Lifecycle.ld_leadId := id_;
                      Lifecycle.ld_timestamp := LeadService.now s |})])%list
   | Nest.LostLater =>
       fst run = Fulfilled tt /\ Lifecycle.outbox (snd run) = Lifecycle.outbox w
   | Nest.Throws reason =>
       fst run = Rejected (Nest.Plain {| Js.message := reason |}) /\
       Lifecycle.outbox (snd run) = Lifecycle.outbox w
   end /\
   (db (S (S (LeadService.dbCalls s))) = None ->
    fst (Lifecycle.deleteLead db kafka id_ (snd run))
      = Rejected (Nest.NotFoundException "Lead not found"))) /\
  (forall (db : nat -> option string) (kafka : nat -> Nest.Emit) (id_ : string)
          (user : UserService.User) (w : Lifecycle.Logged UserService.World),
   let s := Lifecycle.store w in
   let run := Lifecycle.deleteUser db kafka id_ w in
   find (fun u => (UserService.id u =? id_)%string) (UserService.users s) = Some user ->
   db (UserService.dbCalls s) = None ->
   db (S (UserService.dbCalls s)) = None ->
   UserService.users (Lifecycle.store (snd run))
     = filter (fun u => negb (UserService.id u =? id_)%string) (UserService.users s) /\
   match kafka (UserService.emitCalls s) with
   | Nest.Delivered =>
       fst run = Fulfilled tt /\
       Lifecycle.outbox (snd run)
         = (Lifecycle.outbox w
            ++ [(Lifecycle.USER_DELETED,
                 Lifecycle.UserDeleted
                   {| Lifecycle.ud_userId := id_;
                      Lifecycle.ud_timestamp := UserService.now s |})])%list
   | Nest.LostLater =>
       fst run = Fulfilled tt /\ Lifecycle.outbox (snd run) = Lifecycle.outbox w
   | Nest.Throws reason =>
       fst run = Rejected (Nest.Plain {| Js.message := reason |}) /\
       Lifecycle.outbox (snd run) = Lifecycle.outbox w
   end /\
   (db (S (S (UserService.dbCalls s))) = None ->
    fst (Lifecycle.deleteUser db kafka id_ (snd run))
      = Rejected (Nest.NotFoundException "User not found"))).
Proof.
  split.
  - intros db kafka id_ lead w s run Hfind Hdb1 Hdb2. subst s run.
    pose proof (find_lead_id id_ lead _ Hfind) as Hid.
    unfold Lifecycle.deleteLead, bind, Lifecycle.onStore, LeadService.findOne.
    rewrite Hdb1, Hfind.
    unfold Lifecycle.removeLead.
    cbn [Lifecycle.store LeadService.touchDb LeadService.dbCalls]. rewrite Hdb2.
    unfold gets, Lifecycle.emitLead.
    cbn [Lifecycle.store Lifecycle.outbox LeadService.emitCalls LeadService.now
         LeadService.leads LeadService.dbCalls LeadService.touchDb
         LeadService.published LeadService.sdkCalls].
    rewrite Hid.
    destruct (kafka (LeadService.emitCalls (Lifecycle.store w)));
      cbn [fst snd Lifecycle.store Lifecycle.outbox LeadService.leads
           LeadService.dbCalls];
      (split; [reflexivity|split; [split; reflexivity|]]);
      intros Hdb3; rewrite Hdb3, (find_filter_out LeadService.id); reflexivity.
  - intros db kafka id_ user w s run Hfind Hdb1 Hdb2. subst s run.
    assert (Hid : UserService.id user = id_).
    { apply find_some in Hfind. destruct Hfind as [_ H]. now apply String.eqb_eq. }
    unfold Lifecycle.deleteUser, bind, Lifecycle.onStore, UserQueries.findOneById.
    rewrite Hdb1, Hfind.
    unfold Lifecycle.removeUser.
    cbn [Lifecycle.store UserService.touchDb UserService.dbCalls]. rewrite Hdb2.
    unfold gets, Lifecycle.emitUser.
    cbn [Lifecycle.store Lifecycle.outbox UserService.emitCalls UserService.now
         UserService.users UserService.dbCalls UserService.touchDb
         UserService.published UserService.nextId].
    rewrite Hid.
    destruct (kafka (UserService.emitCalls (Lifecycle.store w)));
      cbn [fst snd Lifecycle.store Lifecycle.outbox UserService.users
           UserService.dbCalls];
      (split; [reflexivity|split; [split; reflexivity|]]);
      intros Hdb3; rewrite Hdb3, (find_filter_out UserService.id); reflexivity.
Qed.

Lemma deletion_removes_exactly_the_row_witness :
  LeadService.leads
    (Lifecycle.store
       (snd (Lifecycle.deleteLead (fun _ => None) (fun _ => Nest.Throws "broker unreachable")
               "l1" (Lifecycle.quiet LeadQueries.twoLeads))))
    = [LeadQueries.globex] /\
  fst (Lifecycle.deleteLead (fun _ => None) (fun _ => Nest.Throws "broker unreachable")
         "l1" (Lifecycle.quiet LeadQueries.twoLeads))
    = Rejected (Nest.Plain {| Js.message := "broker unreachable" |}).
Proof.
  destruct (proj1 deletion_removes_exactly_the_row (fun _ => None)
              (fun _ => Nest.Throws "broker unreachable") "l1" LeadService.acme
              (Lifecycle.quiet LeadQueries.twoLeads) eq_refl eq_refl eq_refl)
    as (Hrows & (Hrun & _) & _).
  exact (conj Hrows Hrun).
Defined.



(** ** Updates of a user *)

Section UserUpdates.



End UserUpdates.



(** An address another user holds is refused, and nothing changes. *)
Example updateUser_refuses_a_taken_address :
  fst (Lifecycle.updateUser (fun _ => None) (fun _ => Nest.Delivered)
         Lifecycle.stampedUser "u7" (Lifecycle.moving "heidi@example.com")
         (Lifecycle.quiet Lifecycle.twoUsers))
    = Rejected (Nest.ConflictException "User with this email already exists") /\
  UserService.users
    (Lifecycle.store
       (snd (Lifecycle.updateUser (fun _ => None) (fun _ => Nest.Delivered)
               Lifecycle.stampedUser "u7" (Lifecycle.moving "heidi@example.com")
               (Lifecycle.quiet Lifecycle.twoUsers))))
    = [Auth.grace true; Lifecycle.heidi].
Proof. split; reflexivity. Qed.

(** ** The events the pipeline accepts *)

